(** * The books services: a REST resource over one shared document collection

    Shallow embedding of the Go services of the repository (the frontend
    with its GET/PUT/DELETE handlers, the POST service and the DELETE
    service) together with the part of the MongoDB driver and server they
    rely on: BSON documents, struct marshalling and decoding, equality
    filters, [InsertOne], [Find], [FindOne], [UpdateOne] with [$set] and
    [DeleteOne].

    Conventions.
    - A collection is the list of its documents in storage order.
    - A handler is a function from the collection to an outcome and the new
      collection.
    - The identifier that [primitive.NewObjectID] draws inside [InsertOne] is
      an explicit argument of every operation that may insert.
    - Storage errors are modelled where they have a cause inside the model:
      a duplicate [_id] on insert, a filter whose key the driver cannot
      encode (a NUL byte) or the server takes for an operator (a leading
      [$]).  Network failures are outside the model.

    What the model takes from the driver and the server.
    - The struct codec names an untagged field by its lower-cased Go name
      and leaves out an [omitempty] field that is zero; when it decodes, it
      looks a key up as written and then in lower case, and a later element
      overwrites an earlier one.  An ObjectID field also takes a string of 24
      hexadecimal digits or of 12 bytes, and a string field an ObjectID.
    - A filter is a conjunction of equalities on top-level fields; a [null]
      value also matches a document without the field; a key with a dot is a
      path; a key that starts with [$] is rejected.
    - [$set] replaces a field in place and appends a field the document does
      not have; the fields are applied in the order of their names.
    - [InsertOne] puts a fresh [_id] in front of a document without one, and
      the unique index on [_id] rejects a duplicate. *)

From Stdlib Require Import ZArith NArith List Ascii String Bool Lia.
From Stdlib Require Import Strings.Byte.
From stdpp Require Import base option list strings gmap fin_maps.

Local Open Scope string_scope.
Local Open Scope Z_scope.

(* ===================================================================== *)
(** ** encoding/hex and bson/primitive.ObjectID *)
(* ===================================================================== *)

Module hex.

Definition hextable : string := "0123456789abcdef".

Definition digit (n : N) : ascii :=
  match String.get (N.to_nat n) hextable with
  | Some c => c
  | None => "0"%char
  end.

(** [hex.EncodeToString]: two lower-case digits per byte. *)
Definition encode_byte (b : byte) : string :=
  let n := Byte.to_N b in
  String (digit (n / 16)) (String (digit (n mod 16)) EmptyString).

Fixpoint EncodeToString (bs : list byte) : string :=
  match bs with
  | [] => EmptyString
  | b :: rest => String.append (encode_byte b) (EncodeToString rest)
  end.

(** [hex.fromHexChar]: digits and both cases of a..f. *)
Definition fromHexChar (c : ascii) : option N :=
  let n := N_of_ascii c in
  if ((48 <=? n) && (n <=? 57))%N then Some (n - 48)%N
  else if ((97 <=? n) && (n <=? 102))%N then Some (n - 97 + 10)%N
  else if ((65 <=? n) && (n <=? 70))%N then Some (n - 65 + 10)%N
  else None.

(** [hex.Decode]: fails on an odd length and on a character that is not a
    hexadecimal digit. *)
Fixpoint DecodeString (s : string) : option (list byte) :=
  match s with
  | EmptyString => Some []
  | String _ EmptyString => None
  | String a (String b rest) =>
      match fromHexChar a, fromHexChar b, DecodeString rest with
      | Some h, Some l, Some bs =>
          match Byte.of_N (16 * h + l) with
          | Some x => Some (x :: bs)
          | None => None
          end
      | _, _, _ => None
      end
  end.

End hex.

#[global] Instance byte_eq_dec : EqDecision byte := Byte.byte_eq_dec.

(** The Go errors the code can meet. *)
Inductive error : Type :=
| ErrInvalidHex       (* primitive.ErrInvalidHex *)
| ErrDuplicateKey     (* E11000: duplicate key on the _id index *)
| ErrBadOperator      (* the server rejects a top-level $ key in a filter *)
| ErrNulKey           (* the driver does not encode a key with a NUL byte *)
| ErrNoDocuments      (* mongo.ErrNoDocuments *)
| ErrDecode.          (* a BSON value of the wrong type for a struct field *)

Module primitive.

(** [type ObjectID [12]byte]. *)
Record ObjectID : Type := mkObjectID {
  oid_bytes : list byte;
  oid_len : Nat.eqb (length oid_bytes) 12 = true
}.

Definition NilObjectID : ObjectID :=
  mkObjectID (repeat x00 12) eq_refl.

Definition IsZero (o : ObjectID) : bool :=
  bool_decide (oid_bytes o = repeat x00 12).

Definition Hex (o : ObjectID) : string := hex.EncodeToString (oid_bytes o).

Definition of_bytes (bs : list byte) : option ObjectID :=
  match Nat.eqb (length bs) 12 as b
        return (Nat.eqb (length bs) 12 = b -> option ObjectID) with
  | true => fun H => Some (mkObjectID bs H)
  | false => fun _ => None
  end eq_refl.

(** [ObjectIDFromHex]: the zero identifier and an error unless the string
    has 24 characters that are all hexadecimal digits. *)
Definition ObjectIDFromHex (s : string) : ObjectID * option error :=
  if negb (Nat.eqb (String.length s) 24) then (NilObjectID, Some ErrInvalidHex)
  else match hex.DecodeString s with
       | Some bs =>
           match of_bytes bs with
           | Some o => (o, None)
           | None => (NilObjectID, Some ErrInvalidHex)
           end
       | None => (NilObjectID, Some ErrInvalidHex)
       end.

End primitive.
Export primitive.

#[global] Instance ObjectID_eq_dec : EqDecision ObjectID.
Proof.
  refine (fun o1 o2 =>
            match decide (oid_bytes o1 = oid_bytes o2) with
            | left H => left _
            | right H => right _
            end).
  - destruct o1 as [b1 p1], o2 as [b2 p2]; simpl in H; subst b2.
    f_equal. apply proof_irrel.
  - intros E. apply H. now rewrite E.
Defined.

#[global] Instance error_eq_dec : EqDecision error.
Proof. solve_decision. Defined.

(* ===================================================================== *)
(** ** BSON values and documents *)
(* ===================================================================== *)

Module bson.

(** The BSON values the services store and send: null, strings, integers
    (Go [int]; no arithmetic is done on them) and object identifiers. *)
Inductive value : Type :=
| VNull
| VString (s : string)
| VInt (n : Z)
| VObjectID (o : ObjectID).

(** [bson.D]: an ordered document. *)
Definition document : Type := list (string * value).

(** The first element with the given key. *)
Fixpoint get (k : string) (d : document) : option value :=
  match d with
  | [] => None
  | (k', v) :: rest => if String.eqb k k' then Some v else get k rest
  end.

Definition has_dot (k : string) : bool :=
  existsb (Ascii.eqb ".") (list_ascii_of_string k).

(** The value a filter key designates in a stored document.  A key with a
    dot is a path into an embedded document; the values of this model are
    scalars, so such a path designates nothing. *)
Definition field (k : string) (d : document) : option value :=
  if has_dot k then None else get k d.

(** Keys that start with [$] are query operators, not field names. *)
Definition is_operator (k : string) : bool :=
  match k with
  | String c _ => Ascii.eqb c "$"
  | EmptyString => false
  end.

(** A BSON key is a C string: it cannot hold a NUL byte. *)
Definition has_nul (k : string) : bool :=
  existsb (Ascii.eqb "000") (list_ascii_of_string k).

End bson.
Export bson.

#[global] Instance value_eq_dec : EqDecision value.
Proof. solve_decision. Defined.

(** [bson.M]: an unordered map from keys to values.  On the wire it is a
    document listing its entries. *)
Abbreviation bsonM := (gmap string value).

Definition marshalM (m : bsonM) : document := map_to_list m.

(* ===================================================================== *)
(** ** The collection and the storage operations *)
(* ===================================================================== *)

Abbreviation collection := (list document).

(** How a piece of Go code ends: with a value, with a panic (net/http
    recovers it and drops the connection) or with [log.Fatal], which exits
    the process. *)
Inductive outcome (A : Type) : Type :=
| Ret (a : A)
| Panic
| Exit.
Arguments Ret {A} a.
Arguments Panic {A}.
Arguments Exit {A}.

(** Code that reads and writes the collection. *)
Definition Store (A : Type) : Type := collection -> outcome A * collection.

#[global] Instance Store_ret : MRet Store := fun A a c => (Ret a, c).

#[global] Instance Store_bind : MBind Store := fun A B f m c =>
  match m c with
  | (Ret a, c') => f a c'
  | (Panic, c') => (Panic, c')
  | (Exit, c') => (Exit, c')
  end.

Definition panic {A : Type} : Store A := fun c => (Panic, c).
Definition fatal {A : Type} : Store A := fun c => (Exit, c).

Definition isErr (e : option error) : bool :=
  match e with Some _ => true | None => false end.

(** Dereferencing a pointer result: a nil pointer panics. *)
Definition deref {A : Type} (p : option A) : Store A :=
  match p with
  | Some a => mret a
  | None => panic
  end.

Module mongo.

(** One condition [{k: v}] of a filter: equality on the field, where
    [null] also matches a document that lacks the field. *)
Definition match_elem (d : document) (kv : string * value) : bool :=
  match kv.2 with
  | VNull =>
      match field kv.1 d with
      | None | Some VNull => true
      | Some _ => false
      end
  | v => bool_decide (field kv.1 d = Some v)
  end.

(** A filter is the conjunction of its conditions. *)
Definition matches (filter : document) (d : document) : bool :=
  forallb (match_elem d) filter.

(** A key the driver encodes and the server takes for a field name. *)
Definition key_ok (k : string) : bool := negb (has_nul k) && negb (is_operator k).

Definition filter_ok (filter : document) : bool :=
  forallb (fun kv => key_ok kv.1) filter.

(** The error of a filter that is not accepted: the driver fails first,
    on a key it cannot encode. *)
Definition filter_error (filter : document) : error :=
  if existsb (fun kv => has_nul kv.1) filter then ErrNulKey else ErrBadOperator.

(** A cursor over the documents a query selected. *)
Definition Cursor : Type := list document.

Definition Find (flt : document) : Store (option Cursor * option error) :=
  fun c =>
    if filter_ok flt then (Ret (Some (List.filter (matches flt) c), None), c)
    else (Ret (None, Some (filter_error flt)), c).

(** [FindOne]: the first selected document, or [ErrNoDocuments]. *)
Definition SingleResult : Type := option document * option error.

Definition FindOne (flt : document) : Store SingleResult :=
  fun c =>
    if filter_ok flt then
      match find (matches flt) c with
      | Some d => (Ret (Some d, None), c)
      | None => (Ret (None, Some ErrNoDocuments), c)
      end
    else (Ret (None, Some (filter_error flt)), c).

Record InsertOneResult : Type := { InsertedID : value }.

(** [InsertOne]: the driver puts a fresh [_id] in front of a document
    that has none; the server appends the document unless its [_id] is
    already taken. *)
Definition InsertOne (doc : document) (fresh : ObjectID)
  : Store (option InsertOneResult * option error) :=
  fun c =>
    let '(idv, doc') :=
      match get "_id" doc with
      | Some v => (v, doc)
      | None => (VObjectID fresh, ("_id", VObjectID fresh) :: doc)
      end in
    if existsb (fun d => bool_decide (get "_id" d = Some idv)) c
    then (Ret (None, Some ErrDuplicateKey), c)
    else (Ret (Some {| InsertedID := idv |}, None), (c ++ [doc'])%list).

(** [$set] of one field: replaced in place when the document has it,
    appended otherwise. *)
Fixpoint set_field (k : string) (v : value) (d : document) : document :=
  match d with
  | [] => [(k, v)]
  | (k', v') :: rest =>
      if String.eqb k k' then (k, v) :: rest else (k', v') :: set_field k v rest
  end.

(** The update documents the code sends. *)
Inductive update : Type :=
| USet (fields : document).   (* {"$set": fields} *)

Definition apply_update (u : update) (d : document) : document :=
  match u with
  | USet fields => fold_left (fun acc kv => set_field kv.1 kv.2 acc) fields d
  end.

Record UpdateResult : Type := { MatchedCount : Z; ModifiedCount : Z }.

(** The collection with the first document that [p] selects rewritten
    by [f]. *)
Fixpoint update_first (p : document -> bool) (f : document -> document)
         (c : collection) : collection :=
  match c with
  | [] => []
  | d :: rest => if p d then f d :: rest else d :: update_first p f rest
  end.

Definition UpdateOne (flt : document) (u : update)
  : Store (option UpdateResult * option error) :=
  fun c =>
    if filter_ok flt then
      match find (matches flt) c with
      | Some d =>
          (Ret (Some {| MatchedCount := 1;
                        ModifiedCount :=
                          if bool_decide (apply_update u d = d) then 0 else 1 |},
                None),
           update_first (matches flt) (apply_update u) c)
      | None => (Ret (Some {| MatchedCount := 0; ModifiedCount := 0 |}, None), c)
      end
    else (Ret (None, Some (filter_error flt)), c).

Record DeleteResult : Type := { DeletedCount : Z }.

(** The collection without the first document that [p] selects. *)
Fixpoint delete_first (p : document -> bool) (c : collection) : option collection :=
  match c with
  | [] => None
  | d :: rest =>
      if p d then Some rest
      else match delete_first p rest with
           | Some rest' => Some (d :: rest')
           | None => None
           end
  end.

Definition DeleteOne (flt : document)
  : Store (option DeleteResult * option error) :=
  fun c =>
    if filter_ok flt then
      match delete_first (matches flt) c with
      | Some c' => (Ret (Some {| DeletedCount := 1 |}, None), c')
      | None => (Ret (Some {| DeletedCount := 0 |}, None), c)
      end
    else (Ret (None, Some (filter_error flt)), c).

End mongo.
Export mongo.

(* ===================================================================== *)
(** ** The models: BookStore, BookDTO, PostBookDTO *)
(* ===================================================================== *)

(** [type BookStore struct]: the [ID] field carries the tag
    [bson:"_id,omitempty"]; the other fields have no tag, so the driver
    names them by their lower-cased Go names. *)
Record BookStore : Type := mkBookStore {
  ID : ObjectID;
  BookName : string;
  BookAuthor : string;
  BookISBN : string;
  BookPages : Z;
  BookYear : Z
}.

Module BookDTO.
Record t : Type := mk {
  Id : string;
  Name : string;
  Author : string;
  Pages : Z;
  Year : Z;
  Isbn : string
}.
End BookDTO.

Module PostBookDTO.
Record t : Type := mk {
  Name : string;
  Author : string;
  Pages : Z;
  Year : Z;
  Isbn : string
}.
End PostBookDTO.

(** What a handler hands to [c.JSON]. *)
Inductive body : Type :=
| JString (s : string)
| JPostBook (b : PostBookDTO.t)
| JBook (b : BookDTO.t)
| JBooks (l : list BookDTO.t).

(** What a handler returns: a JSON response with its status code, or the
    bind error handed back to the framework. *)
Inductive response : Type :=
| JSON (code : Z) (payload : body)
| ReturnErr.

Definition StatusOK : Z := 200.
Definition StatusNotModified : Z := 304.
Definition StatusInternalServerError : Z := 500.

(** *** The driver's struct codec for BookStore *)

Module codec.

(** Encoding: fields in declaration order, [_id] left out when zero. *)
Definition Marshal (b : BookStore) : document :=
  ((if IsZero (ID b) then [] else [("_id", VObjectID (ID b))]) ++
   [("bookname", VString (BookName b));
    ("bookauthor", VString (BookAuthor b));
    ("bookisbn", VString (BookISBN b));
    ("bookpages", VInt (BookPages b));
    ("bookyear", VInt (BookYear b))])%list.

Inductive struct_field : Type :=
| FID | FBookName | FBookAuthor | FBookISBN | FBookPages | FBookYear.

(** The struct description: key to field. *)
Definition field_by_key (k : string) : option struct_field :=
  if String.eqb k "_id" then Some FID
  else if String.eqb k "bookname" then Some FBookName
  else if String.eqb k "bookauthor" then Some FBookAuthor
  else if String.eqb k "bookisbn" then Some FBookISBN
  else if String.eqb k "bookpages" then Some FBookPages
  else if String.eqb k "bookyear" then Some FBookYear
  else None.

Definition lower_ascii (c : ascii) : ascii :=
  let n := nat_of_ascii c in
  if ((65 <=? n) && (n <=? 90))%nat then ascii_of_nat (n + 32) else c.

(** [strings.ToLower], as far as a comparison with the ASCII field names
    can tell: ASCII letters are lowered, and so are the two runes outside
    ASCII whose lower case is an ASCII letter, the Kelvin sign U+212A (bytes
    E2 84 AA, lower case k) and the dotted capital I U+0130 (bytes C4 B0,
    lower case i).  The other bytes outside ASCII are left as they are;
    their lower-case forms are outside ASCII as well. *)
Fixpoint ToLower (s : string) : string :=
  match s with
  | EmptyString => EmptyString
  | String c rest =>
      match c, rest with
      | "226"%char, String "132"%char (String "170"%char rest') =>
          String "k"%char (ToLower rest')
      | "196"%char, String "176"%char rest' =>
          String "i"%char (ToLower rest')
      | _, _ => String (lower_ascii c) (ToLower rest)
      end
  end.

(** Decoding looks a key up as it is and, when the struct has no such
    field, once more in lower case. *)
Definition lookup_field (k : string) : option struct_field :=
  match field_by_key k with
  | Some f => Some f
  | None => field_by_key (ToLower k)
  end.

(** A string field also takes an ObjectID, as its hexadecimal form. *)
Definition decode_string (v : value) : option string :=
  match v with
  | VString s => Some s
  | VNull => Some EmptyString
  | VObjectID o => Some (Hex o)
  | VInt _ => None
  end.

Definition decode_int (v : value) : option Z :=
  match v with
  | VInt n => Some n
  | VNull => Some 0
  | _ => None
  end.

(** An ObjectID field also takes a string: 24 hexadecimal digits, or else
    12 raw bytes. *)
Definition decode_oid (v : value) : option ObjectID :=
  match v with
  | VObjectID o => Some o
  | VNull => Some NilObjectID
  | VString s =>
      match ObjectIDFromHex s with
      | (o, None) => Some o
      | (_, Some _) =>
          if Nat.eqb (String.length s) 12
          then of_bytes (map byte_of_ascii (list_ascii_of_string s))
          else None
      end
  | VInt _ => None
  end.

(** One element of the document: a key without a field is skipped, a
    value of the wrong type is an error, and a later element overwrites
    what an earlier one set. *)
Definition decode_elem (b : BookStore) (kv : string * value) : option BookStore :=
  match lookup_field kv.1 with
  | None => Some b
  | Some FID =>
      o ← decode_oid kv.2;
      Some (mkBookStore o (BookName b) (BookAuthor b) (BookISBN b) (BookPages b) (BookYear b))
  | Some FBookName =>
      s ← decode_string kv.2;
      Some (mkBookStore (ID b) s (BookAuthor b) (BookISBN b) (BookPages b) (BookYear b))
  | Some FBookAuthor =>
      s ← decode_string kv.2;
      Some (mkBookStore (ID b) (BookName b) s (BookISBN b) (BookPages b) (BookYear b))
  | Some FBookISBN =>
      s ← decode_string kv.2;
      Some (mkBookStore (ID b) (BookName b) (BookAuthor b) s (BookPages b) (BookYear b))
  | Some FBookPages =>
      n ← decode_int kv.2;
      Some (mkBookStore (ID b) (BookName b) (BookAuthor b) (BookISBN b) n (BookYear b))
  | Some FBookYear =>
      n ← decode_int kv.2;
      Some (mkBookStore (ID b) (BookName b) (BookAuthor b) (BookISBN b) (BookPages b) n)
  end.

Fixpoint decode_from (b : BookStore) (d : document) : option BookStore :=
  match d with
  | [] => Some b
  | kv :: rest =>
      match decode_elem b kv with
      | Some b' => decode_from b' rest
      | None => None
      end
  end.

Definition zero : BookStore :=
  mkBookStore NilObjectID EmptyString EmptyString EmptyString 0 0.

Definition Unmarshal (d : document) : option BookStore := decode_from zero d.

Fixpoint decode_all (docs : list document) : option (list BookStore) :=
  match docs with
  | [] => Some []
  | d :: rest =>
      match Unmarshal d, decode_all rest with
      | Some b, Some bs => Some (b :: bs)
      | _, _ => None
      end
  end.

(** [cursor.All(ctx, &results)]: a nil cursor panics; a document that
    does not decode is returned as an error. *)
Definition All (cursor : option Cursor) : Store (list BookStore * option error) :=
  match cursor with
  | None => panic
  | Some docs =>
      match decode_all docs with
      | Some bs => mret (bs, None)
      | None => mret ([], Some ErrDecode)
      end
  end.

(** [SingleResult.Decode(&v)]. *)
Definition Decode (r : SingleResult) : option BookStore * option error :=
  match r with
  | (_, Some e) => (None, Some e)
  | (None, None) => (None, Some ErrNoDocuments)
  | (Some d, None) =>
      match Unmarshal d with
      | Some b => (Some b, None)
      | None => (None, Some ErrDecode)
      end
  end.

End codec.

(* ===================================================================== *)
(** ** Code shared by the services *)
(* ===================================================================== *)

(** The database: its collections by name. *)
Abbreviation database := (gmap string collection).

(** [prepareDatabase]: create the collection when the database does not
    list it (a failure of the create command is a storage error, outside the
    model). *)
Definition prepareDatabase (db : database) (collecName : string) : database :=
  if bool_decide (collecName ∈ dom db) then db else <[collecName := []]> db.

(** The loop of [prepareData] over [startData]; [fresh i] is the identifier
    the driver draws if iteration [i] inserts. *)
Fixpoint prepareData_loop (books : list BookStore) (fresh : nat -> ObjectID) (i : nat)
  : Store unit :=
  match books with
  | [] => mret tt
  | book :: rest =>
      '(cursor, _) ← Find (codec.Marshal book);
      '(results, err) ← codec.All cursor;
      if isErr err then panic
      else if (1 <? length results)%nat then fatal
      else if (length results =? 0)%nat then
        '(_, err) ← InsertOne (codec.Marshal book) (fresh i);
        if isErr err then panic else prepareData_loop rest fresh (S i)
      else (* one match: the record is printed *)
        prepareData_loop rest fresh (S i)
  end.

Definition prepareData_with (startData : list BookStore) (fresh : nat -> ObjectID)
  : Store unit :=
  prepareData_loop startData fresh 0.

(** "José" in UTF-8, and the same name after its bytes were read as
    Latin-1 and encoded again. *)
Definition Jose_Eustasio_Rivera : string :=
  String.append "Jos" (String "195" (String "169" " Eustasio Rivera")).

Definition Jose_Eustasio_Rivera_reencoded : string :=
  String.append "Jos"
    (String "195" (String "131" (String "194" (String "169" " Eustasio Rivera")))).

Definition Frankenstein : BookStore :=
  mkBookStore NilObjectID "Frankenstein" "Mary Shelley" "978-3-649-64609-9" 280 1818.

Definition The_Black_Cat : BookStore :=
  mkBookStore NilObjectID "The Black Cat" "Edgar Allan Poe" "978-3-99168-238-7" 280 1843.

(** The DELETE handler, the same text in the frontend and in the DELETE
    service. *)
Definition delete_reply (err : option error) : Store response :=
  if isErr err
  then mret (JSON StatusInternalServerError (JString "error in deleting the book"))
  else mret (JSON StatusOK (JString "Book deleted successfully")).

Definition delete_handler (id : string) : Store response :=
  let '(_, err) := ObjectIDFromHex id in
  '(result, err) ← DeleteOne (marshalM {[ "id" := VString id ]});
  r ← deref result;
  if DeletedCount r =? 0 then
    '(result, err) ← DeleteOne [(id, VNull)];
    r ← deref result;
    delete_reply err
  else delete_reply err.

(** Go's [interface{}] values the frontend puts in its maps. *)
Inductive any : Type :=
| AString (s : string)
| AInt (n : Z).

(** Type assertions [x.(string)] and [x.(int)]: a missing key yields a nil
    interface, and a nil or differently typed value panics. *)
Definition assert_string (x : option any) : Store string :=
  match x with
  | Some (AString s) => mret s
  | _ => panic
  end.

Definition assert_int (x : option any) : Store Z :=
  match x with
  | Some (AInt n) => mret n
  | _ => panic
  end.

(** [result.InsertedID.(primitive.ObjectID)]. *)
Definition assert_ObjectID (v : value) : Store ObjectID :=
  match v with
  | VObjectID o => mret o
  | _ => panic
  end.

(** What a page handler of the frontend hands to [c.Render]: the books as
    [findAllBooks] returns them, or a list of [interface{}] values, where nil
    stands for a key a map does not have. *)
Inductive view_data : Type :=
| DNil
| DBooks (books : list (gmap string any))
| DValues (values : list (option any)).

Inductive page : Type :=
| Render (code : Z) (name : string) (data : view_data)
| NoContent (code : Z).

(* ===================================================================== *)
(** ** The frontend service (port 3030) *)
(* ===================================================================== *)

Module Frontend.

Definition startData : list BookStore :=
  [ mkBookStore NilObjectID "The Vortex" Jose_Eustasio_Rivera "958-30-0804-4" 292 1924;
    Frankenstein;
    The_Black_Cat ].

Definition prepareData : (nat -> ObjectID) -> Store unit := prepareData_with startData.

Definition book_map (res : BookStore) : gmap string any :=
  <[ "ID" := AString (Hex (ID res)) ]>
  (<[ "BookName" := AString (BookName res) ]>
  (<[ "BookAuthor" := AString (BookAuthor res) ]>
  (<[ "BookISBN" := AString (BookISBN res) ]>
  (<[ "BookPages" := AInt (BookPages res) ]>
  (<[ "BookYear" := AInt (BookYear res) ]> ∅))))).

(** [findAllBooks]: the filter [bson.D{{}}] is a document of one element
    with the empty key and a nil value. *)
Definition findAllBooks : Store (list (gmap string any)) :=
  '(cursor, _) ← Find [(EmptyString, VNull)];
  '(results, err) ← codec.All cursor;
  if isErr err then panic
  else mret (map book_map results).

Fixpoint payload_loop (books : list (gmap string any)) (payload : list BookDTO.t)
  : Store (list BookDTO.t) :=
  match books with
  | [] => mret payload
  | book :: rest =>
      id ← assert_string (book !! "ID");
      name ← assert_string (book !! "BookName");
      author ← assert_string (book !! "BookAuthor");
      pages ← assert_int (book !! "BookPages");
      year ← assert_int (book !! "BookYear");
      isbn ← assert_string (book !! "BookISBN");
      payload_loop rest (payload ++ [BookDTO.mk id name author pages year isbn])%list
  end.

Definition GET_api_books : Store response :=
  books ← findAllBooks;
  payload ← payload_loop books [];
  mret (JSON StatusOK (JBooks payload)).

(** The fields of the [$set] document.  [bson.M] has no order; the server
    applies the fields in the lexicographic order of their names, which is
    the order written here. *)
Definition set_fields (bookToUpdate : BookDTO.t) : document :=
  [("BookAuthor", VString (BookDTO.Author bookToUpdate));
   ("BookISBN", VString (BookDTO.Isbn bookToUpdate));
   ("BookName", VString (BookDTO.Name bookToUpdate));
   ("BookPages", VInt (BookDTO.Pages bookToUpdate));
   ("BookYear", VInt (BookDTO.Year bookToUpdate))].

(** [bound] is what [c.Bind] produced: [None] when it failed. *)
Definition PUT_api_books (bound : option BookDTO.t) : Store response :=
  match bound with
  | None => mret ReturnErr
  | Some bookToUpdate =>
      let '(id, err) := ObjectIDFromHex (BookDTO.Id bookToUpdate) in
      '(result, err) ← UpdateOne (marshalM {[ "_id" := VObjectID id ]})
                                 (USet (set_fields bookToUpdate));
      if isErr err
      then mret (JSON StatusInternalServerError (JString "error in updating data"))
      else mret (JSON StatusOK (JBook bookToUpdate))
  end.

Definition DELETE_api_books : string -> Store response := delete_handler.

(** The page handlers. *)
Definition GET_root : Store page := mret (Render 200 "index" DNil).

Definition GET_books : Store page :=
  books ← findAllBooks;
  mret (Render 200 "book-table" (DBooks books)).

(** The loops of [/authors] and [/years]: [book[key]] is appended as it
    is, with no type assertion. *)
Fixpoint column_loop (key : string) (books : list (gmap string any))
         (column : list (option any)) : list (option any) :=
  match books with
  | [] => column
  | book :: rest => column_loop key rest (column ++ [book !! key])%list
  end.

Definition GET_authors : Store page :=
  books ← findAllBooks;
  mret (Render 200 "authors-table" (DValues (column_loop "BookAuthor" books []))).

Definition GET_years : Store page :=
  books ← findAllBooks;
  mret (Render 200 "year-table" (DValues (column_loop "BookYear" books []))).

Definition GET_search : Store page := mret (Render 200 "search-bar" DNil).

Definition GET_create : Store page := mret (NoContent 204).

(** The POST handler of the frontend: no existence check before the
    insert. *)
Definition POST_api_books (bound : option PostBookDTO.t) (fresh : ObjectID)
  : Store response :=
  match bound with
  | None => mret (JSON StatusNotModified (JString "error in payload conversion "))
  | Some book =>
      let bookStore :=
        mkBookStore NilObjectID (PostBookDTO.Name book) (PostBookDTO.Author book)
                    (PostBookDTO.Isbn book) (PostBookDTO.Pages book)
                    (PostBookDTO.Year book) in
      '(result, err) ← InsertOne (codec.Marshal bookStore) fresh;
      if isErr err
      then mret (JSON StatusNotModified (JString "invalid id"))
      else
        r ← deref result;
        insertedID ← assert_ObjectID (InsertedID r);
        mret (JSON StatusOK
                (JBook (BookDTO.mk (Hex insertedID) (PostBookDTO.Name book)
                                   (PostBookDTO.Author book) (PostBookDTO.Pages book)
                                   (PostBookDTO.Year book) (PostBookDTO.Isbn book))))
  end.

End Frontend.

(* ===================================================================== *)
(** ** The POST service (port 3032) *)
(* ===================================================================== *)

Module PostService.

Definition startData : list BookStore :=
  [ mkBookStore NilObjectID "The Vortex" Jose_Eustasio_Rivera_reencoded
                "958-30-0804-4" 292 1924;
    Frankenstein;
    The_Black_Cat ].

Definition prepareData : (nat -> ObjectID) -> Store unit := prepareData_with startData.

(** The filter of the existence check. *)
Definition objToComapare (book : PostBookDTO.t) : bsonM :=
  let m : bsonM := ∅ in
  let m := if negb (String.eqb (PostBookDTO.Name book) "")
           then <[ "bookname" := VString (PostBookDTO.Name book) ]> m else m in
  let m := if negb (String.eqb (PostBookDTO.Author book) "")
           then <[ "bookauthor" := VString (PostBookDTO.Author book) ]> m else m in
  let m := if negb (PostBookDTO.Pages book =? 0)
           then <[ "bookpages" := VInt (PostBookDTO.Pages book) ]> m else m in
  let m := if negb (PostBookDTO.Year book =? 0)
           then <[ "bookyear" := VInt (PostBookDTO.Year book) ]> m else m in
  let m := if negb (String.eqb (PostBookDTO.Isbn book) "")
           then <[ "bookisbn" := VString (PostBookDTO.Isbn book) ]> m else m in
  m.

Definition POST_api_books (bound : option PostBookDTO.t) (fresh : ObjectID)
  : Store response :=
  match bound with
  | None => mret (JSON StatusNotModified (JString "error in payload conversion "))
  | Some book =>
      single ← FindOne (marshalM (objToComapare book));
      let '(existingBook, found) := codec.Decode single in
      if negb (isErr found)
      then mret (JSON StatusNotModified (JPostBook book))
      else
        let bookStore :=
          mkBookStore NilObjectID (PostBookDTO.Name book) (PostBookDTO.Author book)
                      (PostBookDTO.Isbn book) (PostBookDTO.Pages book)
                      (PostBookDTO.Year book) in
        '(result, err) ← InsertOne (codec.Marshal bookStore) fresh;
        if isErr err
        then mret (JSON StatusNotModified (JString "invalid on insertion"))
        else
          r ← deref result;
          bookId ← assert_ObjectID (InsertedID r);
          mret (JSON StatusOK
                  (JBook (BookDTO.mk (Hex bookId) (PostBookDTO.Name book)
                                     (PostBookDTO.Author book) (PostBookDTO.Pages book)
                                     (PostBookDTO.Year book) (PostBookDTO.Isbn book))))
  end.

End PostService.

(* ===================================================================== *)
(** ** The DELETE service (port 3034) *)
(* ===================================================================== *)

Module DeleteService.

Definition startData : list BookStore := Frontend.startData.

Definition prepareData : (nat -> ObjectID) -> Store unit := prepareData_with startData.

Definition DELETE_api_books : string -> Store response := delete_handler.

End DeleteService.

(* ===================================================================== *)
(** ** Start-up of a service *)
(* ===================================================================== *)

(** The services whose sources are at hand (the GET and the PUT service
    are not among them; their handlers are those of the frontend). *)
Inductive service : Type := FrontendSvc | PostSvc | DeleteSvc.

Definition prepareData_of (s : service) : (nat -> ObjectID) -> Store unit :=
  match s with
  | FrontendSvc => Frontend.prepareData
  | PostSvc => PostService.prepareData
  | DeleteSvc => DeleteService.prepareData
  end.

Definition startData_of (s : service) : list BookStore :=
  match s with
  | FrontendSvc => Frontend.startData
  | PostSvc => PostService.startData
  | DeleteSvc => DeleteService.startData
  end.

Definition collecName : string := "information".

(** The part of [main] before the server starts: [prepareDatabase], then
    [prepareData] on the collection. *)
Definition startup (s : service) (fresh : nat -> ObjectID) (db : database)
  : outcome unit * database :=
  let db1 := prepareDatabase db collecName in
  let '(r, c') := prepareData_of s fresh (default [] (db1 !! collecName)) in
  (r, <[ collecName := c' ]> db1).

(** Several start-ups in a row on the same database; the run stops at the
    first one that does not complete. *)
Fixpoint startups (runs : list (service * (nat -> ObjectID))) (db : database)
  : outcome unit * database :=
  match runs with
  | [] => (Ret tt, db)
  | (s, fresh) :: rest =>
      match startup s fresh db with
      | (Ret _, db') => startups rest db'
      | other => other
      end
  end.

(* ===================================================================== *)
(** ** Book collections *)
(* ===================================================================== *)

(** The documents the services write have one of two shapes: as inserted
    by [InsertOne] from a BookStore, or as inserted and then updated
    by the [$set] of the PUT handler, which appends its five fields. *)
Inductive btype : Type := TNull | TString | TInt | TObjectID.

Definition type_of (v : value) : btype :=
  match v with
  | VNull => TNull
  | VString _ => TString
  | VInt _ => TInt
  | VObjectID _ => TObjectID
  end.

#[global] Instance btype_eq_dec : EqDecision btype.
Proof. solve_decision. Defined.

Definition shape (d : document) : list (string * btype) :=
  map (fun kv => (kv.1, type_of kv.2)) d.

Definition inserted_shape : list (string * btype) :=
  [("_id", TObjectID); ("bookname", TString); ("bookauthor", TString);
   ("bookisbn", TString); ("bookpages", TInt); ("bookyear", TInt)].

Definition set_shape : list (string * btype) :=
  [("BookAuthor", TString); ("BookISBN", TString); ("BookName", TString);
   ("BookPages", TInt); ("BookYear", TInt)].

Definition is_book_document (d : document) : bool :=
  (bool_decide (shape d = inserted_shape)
   || bool_decide (shape d = (inserted_shape ++ set_shape)%list))
  && negb (bool_decide (get "_id" d = Some (VObjectID NilObjectID))).

(** A book collection: book documents with pairwise different keys, none
    of them the zero identifier. *)
Definition book_collection (c : collection) : bool :=
  forallb is_book_document c && bool_decide (NoDup (map (get "_id") c)).

(** The record a stored document stands for is the one the driver decodes
    from it. *)
Definition record_of (d : document) : option BookStore := codec.Unmarshal d.

Definition view (r : BookStore) : BookDTO.t :=
  BookDTO.mk (Hex (ID r)) (BookName r) (BookAuthor r) (BookPages r) (BookYear r)
             (BookISBN r).

(** The two shapes, written out. *)
Definition book_fields (b : BookStore) : document :=
  [("bookname", VString (BookName b));
   ("bookauthor", VString (BookAuthor b));
   ("bookisbn", VString (BookISBN b));
   ("bookpages", VInt (BookPages b));
   ("bookyear", VInt (BookYear b))].

Definition inserted_doc (o : ObjectID) (b : BookStore) : document :=
  ("_id", VObjectID o) :: book_fields b.

Definition updated_doc (o : ObjectID) (b : BookStore) (u : BookDTO.t) : document :=
  (inserted_doc o b ++ Frontend.set_fields u)%list.

(** The record a PUT request writes under the key [o]. *)
Definition put_record (o : ObjectID) (u : BookDTO.t) : BookStore :=
  mkBookStore o (BookDTO.Name u) (BookDTO.Author u) (BookDTO.Isbn u)
              (BookDTO.Pages u) (BookDTO.Year u).

Definition with_ID (o : ObjectID) (b : BookStore) : BookStore :=
  mkBookStore o (BookName b) (BookAuthor b) (BookISBN b) (BookPages b) (BookYear b).

(** Sample identifiers. *)
Definition oid_of_N (n : N) : ObjectID :=
  match of_bytes (repeat x00 11 ++ [match Byte.of_N n with Some b => b | None => x00 end]) with
  | Some o => o
  | None => NilObjectID
  end.

Definition fresh_from (base : N) (i : nat) : ObjectID := oid_of_N (base + N.of_nat i).

Definition db_of (c : collection) : database := {[ collecName := c ]}.

(* ===================================================================== *)
(** ** Notions used in the statements *)
(* ===================================================================== *)

(** The records after an update of the one keyed [o]. *)
Definition put_at (o : ObjectID) (u : BookDTO.t) (rs : list BookStore) : list BookStore :=
  map (fun r => if bool_decide (ID r = o) then put_record o u else r) rs.

Definition new_view (o : ObjectID) (u : BookDTO.t) : BookDTO.t :=
  BookDTO.mk (Hex o) (BookDTO.Name u) (BookDTO.Author u) (BookDTO.Pages u)
             (BookDTO.Year u) (BookDTO.Isbn u).

Definition The_Vortex : BookStore :=
  mkBookStore NilObjectID "The Vortex" Jose_Eustasio_Rivera "958-30-0804-4" 292 1924.

Definition sample_update : BookDTO.t :=
  BookDTO.mk "0000000000000000000000AB" "The Modern Prometheus" "M. W. Shelley" 300 1831
             "978-0-00-000000-2".

Definition sample_books : collection :=
  [ inserted_doc (oid_of_N 1) The_Vortex;
    inserted_doc (oid_of_N 171) Frankenstein;
    updated_doc (oid_of_N 3) The_Black_Cat
                (BookDTO.mk EmptyString "The Raven" "E. A. Poe" 64 1845 EmptyString) ].

Definition malformed_update : BookDTO.t :=
  BookDTO.mk "not-an-identifier" "The Vortex" "J. E. Rivera" 300 1924 EmptyString.

(** The record the POST handler builds from the payload. *)
Definition bookStore_of (book : PostBookDTO.t) : BookStore :=
  mkBookStore NilObjectID (PostBookDTO.Name book) (PostBookDTO.Author book)
              (PostBookDTO.Isbn book) (PostBookDTO.Pages book) (PostBookDTO.Year book).

(** The insert path of the POST handler. *)
Definition insert_path (book : PostBookDTO.t) (fresh : ObjectID) (c : collection)
  : outcome response * collection :=
  if existsb (fun d => bool_decide (get "_id" d = Some (VObjectID fresh))) c
  then (Ret (JSON StatusNotModified (JString "invalid on insertion")), c)
  else (Ret (JSON StatusOK
               (JBook (BookDTO.mk (Hex fresh) (PostBookDTO.Name book)
                                  (PostBookDTO.Author book) (PostBookDTO.Pages book)
                                  (PostBookDTO.Year book) (PostBookDTO.Isbn book)))),
        (c ++ [inserted_doc fresh (bookStore_of book)])%list).

Definition sample_post : PostBookDTO.t :=
  PostBookDTO.mk EmptyString "Mary Shelley" 0 1818 EmptyString.

Definition novel_post : PostBookDTO.t :=
  PostBookDTO.mk "Dracula" "Bram Stoker" 418 1897 EmptyString.

Definition deleted_ok : response := JSON StatusOK (JString "Book deleted successfully").

Definition two_books : collection :=
  [ inserted_doc (oid_of_N 1) The_Vortex; inserted_doc (oid_of_N 171) Frankenstein ].

(** The documents of the books collection. *)
Definition books_of (db : database) : collection := default [] (db !! collecName).

(** The stored documents a seed record selects. *)
Definition hits (b : BookStore) (c : collection) : list document :=
  List.filter (matches (book_fields b)) c.

Definition one_hit (b : BookStore) (c : collection) : Prop :=
  exists r, codec.decode_all (hits b c) = Some [r].

Definition id_taken (o : ObjectID) (c : collection) : bool :=
  existsb (fun d => bool_decide (get "_id" d = Some (VObjectID o))) c.

(** No seed record selects the document of another one. *)
Definition apart (a b : BookStore) : bool :=
  negb (matches (book_fields a) (inserted_doc NilObjectID b)).

Fixpoint seeds_apart (l : list BookStore) : bool :=
  match l with
  | [] => true
  | a :: rest =>
      forallb (fun b => apart a b && apart b a) rest && seeds_apart rest
  end.

Definition zero_ids (l : list BookStore) : bool := forallb (fun b => IsZero (ID b)) l.

(** The documents a run of [prepareData] adds to [c]: one for each seed
    record that selects nothing in [c]. *)
Fixpoint missing_seeds (l : list BookStore) (fresh : nat -> ObjectID) (i : nat)
         (c : collection) : list document :=
  match l with
  | [] => []
  | b :: rest =>
      ((match hits b c with
        | [] => [inserted_doc (fresh i) b]
        | _ :: _ => []
        end) ++ missing_seeds rest fresh (S i) c)%list
  end.

(** A seed record selects at most one stored document, and the driver
    decodes what it selects. *)
Definition at_most_once (b : BookStore) (c : collection) : bool :=
  match codec.decode_all (hits b c) with
  | Some rs => (length rs <=? 1)%nat
  | None => false
  end.

(** The stored documents that one of the seed records of a service selects. *)
Definition is_seed_record (s : service) (d : document) : bool :=
  existsb (fun b => matches (book_fields b) d) (startData_of s).

Definition seed_records (s : service) (c : collection) : list document :=
  List.filter (is_seed_record s) c.

(** The three seed documents of a service, keyed by the identifiers drawn. *)
Definition seed_docs (s : service) (fresh : nat -> ObjectID) : collection :=
  imap (fun i b => inserted_doc (fresh i) b) (startData_of s).

Definition Dracula_doc : document :=
  inserted_doc (oid_of_N 200) (mkBookStore NilObjectID "Dracula" "Bram Stoker" EmptyString 418 1897).

Definition is_Vortex_1924 (b : BookDTO.t) : bool :=
  String.eqb (BookDTO.Name b) "The Vortex" && (BookDTO.Year b =? 1924).

(** The entry GET /api/books shows for a stored document. *)
Definition entry_of (d : document) : option BookDTO.t := view <$> record_of d.

(** The payload with no field supplied. *)
Definition empty_post : PostBookDTO.t :=
  PostBookDTO.mk EmptyString EmptyString 0 0 EmptyString.

(** The answer of POST to what it takes for a duplicate. *)
Definition not_modified (book : PostBookDTO.t) : response :=
  JSON StatusNotModified (JPostBook book).

(** The answer of POST after an insert under the identifier [o]. *)
Definition created (o : ObjectID) (book : PostBookDTO.t) : response :=
  JSON StatusOK
       (JBook (BookDTO.mk (Hex o) (PostBookDTO.Name book) (PostBookDTO.Author book)
                          (PostBookDTO.Pages book) (PostBookDTO.Year book)
                          (PostBookDTO.Isbn book))).

(** DELETE requests one after the other. *)
Definition delete_each (ids : list string) (c : collection) : collection :=
  fold_left (fun acc id => (DeleteService.DELETE_api_books id acc).2) ids c.


(** A collection that holds one of the seed records. *)
Definition Frankenstein_only : collection := [inserted_doc (oid_of_N 171) Frankenstein].

Definition after_startup : collection :=
  [inserted_doc (oid_of_N 171) Frankenstein;
   inserted_doc (oid_of_N 1) The_Vortex;
   inserted_doc (oid_of_N 3) The_Black_Cat].

Definition sample_ids : list string :=
  ["0000000000000000000000ab"; "no-such-book"].

Definition undecodable_doc : document :=
  [("_id", VObjectID (oid_of_N 7)); ("bookname", VInt 12)].

(** The value a listing shows for a field of a stored document: the one a
    PUT wrote under the capitalised key when there is one, else the one
    under the lower-case key. *)
Definition shown (lower upper : string) (d : document) : option value :=
  match get upper d with
  | Some v => Some v
  | None => get lower d
  end.

Definition lower_hex_digit (a : ascii) : bool :=
  let n := N_of_ascii a in
  (((48 <=? n) && (n <=? 57)) || ((97 <=? n) && (n <=? 102)))%N.

(** 24 hexadecimal digits, the letters in lower case. *)
Definition hexadecimal (s : string) : bool :=
  Nat.eqb (String.length s) 24 && forallb lower_hex_digit (list_ascii_of_string s).

(** The response object [e] is the one of the stored document [d]: its
    identifier is the hexadecimal form of the [_id] of [d], and its name,
    author, ISBN, page count and year are the values stored in [d]. *)
Definition lists (d : document) (e : BookDTO.t) : bool :=
  match get "_id" d with
  | Some (VObjectID o) =>
      hexadecimal (BookDTO.Id e)
      && bool_decide (ObjectIDFromHex (BookDTO.Id e) = (o, None))
      && bool_decide (shown "bookname" "BookName" d = Some (VString (BookDTO.Name e)))
      && bool_decide (shown "bookauthor" "BookAuthor" d = Some (VString (BookDTO.Author e)))
      && bool_decide (shown "bookisbn" "BookISBN" d = Some (VString (BookDTO.Isbn e)))
      && bool_decide (shown "bookpages" "BookPages" d = Some (VInt (BookDTO.Pages e)))
      && bool_decide (shown "bookyear" "BookYear" d = Some (VInt (BookDTO.Year e)))
  | _ => false
  end.

(** What GET /api/books lists on [sample_books]. *)
Definition sample_listing : list BookDTO.t :=
  [ BookDTO.mk "000000000000000000000001" "The Vortex" Jose_Eustasio_Rivera 292 1924
               "958-30-0804-4";
    BookDTO.mk "0000000000000000000000ab" "Frankenstein" "Mary Shelley" 280 1818
               "978-3-649-64609-9";
    BookDTO.mk "000000000000000000000003" "The Raven" "E. A. Poe" 64 1845 EmptyString ].

(** An element the struct codec cannot decode: a key that is, as written,
    the name of a string field or of the identifier and holds a number, or
    the name of a number field and holds a string. *)
Definition wrong_type (kv : string * value) : bool :=
  match kv.2 with
  | VInt _ => bool_decide (kv.1 ∈ ["_id"; "bookname"; "bookauthor"; "bookisbn"])
  | VString _ => bool_decide (kv.1 ∈ ["bookpages"; "bookyear"])
  | VNull | VObjectID _ => false
  end.

(* ===================================================================== *)
(** ** Identifiers and their display strings *)
(* ===================================================================== *)

Lemma fromHexChar_digit_hi (b : byte) :
  hex.fromHexChar (hex.digit (Byte.to_N b / 16)) = Some (Byte.to_N b / 16)%N.
Proof. destruct b; vm_compute; reflexivity. Qed.

Lemma fromHexChar_digit_lo (b : byte) :
  hex.fromHexChar (hex.digit (Byte.to_N b mod 16)) = Some (Byte.to_N b mod 16)%N.
Proof. destruct b; vm_compute; reflexivity. Qed.

Lemma of_N_nibbles (b : byte) :
  Byte.of_N (16 * (Byte.to_N b / 16) + Byte.to_N b mod 16) = Some b.
Proof.
  rewrite <- (N.div_mod (Byte.to_N b) 16) by discriminate.
  apply Byte.of_to_N.
Qed.

Lemma encode_byte_append (b : byte) (s : string) :
  String.append (hex.encode_byte b) s =
  String (hex.digit (Byte.to_N b / 16)) (String (hex.digit (Byte.to_N b mod 16)) s).
Proof. reflexivity. Qed.

(** Decoding what [EncodeToString] wrote gives the bytes back. *)
Lemma DecodeString_EncodeToString (bs : list byte) :
  hex.DecodeString (hex.EncodeToString bs) = Some bs.
Proof.
  induction bs as [|b bs IH]; [reflexivity|].
  cbn [hex.EncodeToString]. rewrite encode_byte_append.
  cbn [hex.DecodeString].
  rewrite fromHexChar_digit_hi, fromHexChar_digit_lo, IH, of_N_nibbles.
  reflexivity.
Qed.

Lemma EncodeToString_length (bs : list byte) :
  String.length (hex.EncodeToString bs) = (2 * length bs)%nat.
Proof.
  induction bs as [|b bs IH]; [reflexivity|].
  cbn [hex.EncodeToString]. rewrite encode_byte_append.
  cbn [String.length length].
  rewrite IH. lia.
Qed.

Lemma ObjectID_ext (o1 o2 : ObjectID) : oid_bytes o1 = oid_bytes o2 -> o1 = o2.
Proof.
  destruct o1 as [b1 p1], o2 as [b2 p2]; simpl; intros ->.
  f_equal. apply proof_irrel.
Qed.

(** The display string has 24 characters. *)
Lemma Hex_length (o : ObjectID) : String.length (Hex o) = 24%nat.
Proof.
  unfold Hex. rewrite EncodeToString_length.
  destruct o as [bs H]; simpl. apply Nat.eqb_eq in H. lia.
Qed.


(** Different identifiers have different display strings. *)
Lemma Hex_inj (o1 o2 : ObjectID) : Hex o1 = Hex o2 -> o1 = o2.
Proof.
  unfold Hex; intros E. apply ObjectID_ext.
  pose proof (DecodeString_EncodeToString (oid_bytes o1)) as H1.
  pose proof (DecodeString_EncodeToString (oid_bytes o2)) as H2.
  rewrite E in H1. congruence.
Qed.

Lemma of_bytes_oid (o : ObjectID) : of_bytes (oid_bytes o) = Some o.
Proof.
  destruct (of_bytes (oid_bytes o)) as [o'|] eqn:E.
  - f_equal. apply ObjectID_ext.
    unfold of_bytes in E.
    revert E. generalize (eq_refl (Nat.eqb (length (oid_bytes o)) 12)).
    generalize (Nat.eqb (length (oid_bytes o)) 12) at 2 3.
    intros [] e E; [|discriminate]. inversion E. reflexivity.
  - exfalso. unfold of_bytes in E.
    revert E. generalize (eq_refl (Nat.eqb (length (oid_bytes o)) 12)).
    generalize (Nat.eqb (length (oid_bytes o)) 12) at 2 3.
    intros [] e E; [discriminate|].
    destruct o as [bs H]; simpl in e. congruence.
Qed.

(** Parsing a display string gives the identifier back. *)
Lemma ObjectIDFromHex_Hex (o : ObjectID) : ObjectIDFromHex (Hex o) = (o, None).
Proof.
  unfold ObjectIDFromHex. rewrite Hex_length. simpl.
  unfold Hex. rewrite DecodeString_EncodeToString, of_bytes_oid. reflexivity.
Qed.

(** A failed parse leaves the zero identifier. *)
Lemma ObjectIDFromHex_error (s : string) :
  (ObjectIDFromHex s).2 <> None -> (ObjectIDFromHex s).1 = NilObjectID.
Proof.
  unfold ObjectIDFromHex.
  destruct (negb _); [reflexivity|].
  destruct (hex.DecodeString s) as [bs|]; [|reflexivity].
  destruct (of_bytes bs); [|reflexivity].
  simpl. congruence.
Qed.

(* ===================================================================== *)
(** ** Book documents *)
(* ===================================================================== *)

Lemma filter_ok_key (k : string) (v : value) : filter_ok [(k, v)] = key_ok k.
Proof. unfold filter_ok. cbn [forallb fst]. apply andb_true_r. Qed.

Lemma shape_inv_nil (d : document) : shape d = [] -> d = [].
Proof. destruct d; [reflexivity | discriminate]. Qed.

Lemma shape_inv_cons (d : document) k t sh :
  shape d = (k, t) :: sh ->
  exists v d', d = (k, v) :: d' /\ type_of v = t /\ shape d' = sh.
Proof.
  destruct d as [|[k' v] d']; [discriminate|].
  cbn. intros E. inversion E; subst. eauto.
Qed.

Lemma type_of_string v : type_of v = TString -> exists s, v = VString s.
Proof. destruct v; try discriminate; eauto. Qed.

Lemma type_of_int v : type_of v = TInt -> exists n, v = VInt n.
Proof. destruct v; try discriminate; eauto. Qed.

Lemma type_of_oid v : type_of v = TObjectID -> exists o, v = VObjectID o.
Proof. destruct v; try discriminate; eauto. Qed.

Ltac shape_inv H :=
  repeat
    (match type of H with
     | shape _ = _ :: _ =>
         let v := fresh "v" in
         let d := fresh "d" in
         let Hv := fresh "Hv" in
         apply shape_inv_cons in H as (v & d & -> & Hv & H);
         first [ apply type_of_string in Hv as [? ->]
               | apply type_of_int in Hv as [? ->]
               | apply type_of_oid in Hv as [? ->] ]
     | shape _ = [] => apply shape_inv_nil in H as ->
     end).

(** A book document is an inserted or an updated document with a key that
    is not the zero identifier. *)
Lemma book_document_inv (d : document) :
  is_book_document d = true ->
  exists o b, o <> NilObjectID /\
    (d = inserted_doc o b \/ exists u, d = updated_doc o b u).
Proof.
  unfold is_book_document. intros H.
  apply andb_true_iff in H as [Hs Hz].
  apply negb_true_iff, bool_decide_eq_false in Hz.
  apply orb_true_iff in Hs as [Hs|Hs]; apply bool_decide_eq_true in Hs;
    unfold inserted_shape, set_shape in Hs; cbn [app] in Hs; shape_inv Hs.
  - match type of Hz with
    | get _ ((_, VObjectID ?o) :: (_, VString ?n) :: (_, VString ?a)
               :: (_, VString ?i) :: (_, VInt ?p) :: (_, VInt ?y) :: _) <> _ =>
        exists o, (mkBookStore o n a i p y)
    end.
    split.
    + intros ->. apply Hz. reflexivity.
    + left. reflexivity.
  - match type of Hz with
    | get _ ((_, VObjectID ?o) :: (_, VString ?n) :: (_, VString ?a)
               :: (_, VString ?i) :: (_, VInt ?p) :: (_, VInt ?y)
               :: (_, VString ?a') :: (_, VString ?i') :: (_, VString ?n')
               :: (_, VInt ?p') :: (_, VInt ?y') :: _) <> _ =>
        exists o, (mkBookStore o n a i p y); split;
        [ | right; exists (BookDTO.mk EmptyString n' a' p' y' i'); reflexivity ]
    end.
    intros ->. apply Hz. reflexivity.
Qed.

Lemma is_book_document_inserted o b :
  o <> NilObjectID -> is_book_document (inserted_doc o b) = true.
Proof.
  intros Ho. unfold is_book_document.
  apply andb_true_iff; split.
  - reflexivity.
  - apply negb_true_iff, bool_decide_eq_false. cbn. congruence.
Qed.

Lemma is_book_document_updated o b u :
  o <> NilObjectID -> is_book_document (updated_doc o b u) = true.
Proof.
  intros Ho. unfold is_book_document.
  apply andb_true_iff; split.
  - reflexivity.
  - apply negb_true_iff, bool_decide_eq_false. cbn. congruence.
Qed.

Lemma Unmarshal_inserted o b :
  codec.Unmarshal (inserted_doc o b) = Some (with_ID o b).
Proof. reflexivity. Qed.

Lemma Unmarshal_updated o b u :
  codec.Unmarshal (updated_doc o b u) = Some (put_record o u).
Proof. reflexivity. Qed.

Lemma apply_set_inserted o b u :
  apply_update (USet (Frontend.set_fields u)) (inserted_doc o b) = updated_doc o b u.
Proof. reflexivity. Qed.

Lemma apply_set_updated o b u0 u :
  apply_update (USet (Frontend.set_fields u)) (updated_doc o b u0) = updated_doc o b u.
Proof. reflexivity. Qed.

Lemma Marshal_zero b : IsZero (ID b) = true -> codec.Marshal b = book_fields b.
Proof. unfold codec.Marshal. intros ->. reflexivity. Qed.

Lemma book_decodes (d : document) :
  is_book_document d = true ->
  exists r, record_of d = Some r /\ get "_id" d = Some (VObjectID (ID r))
            /\ ID r <> NilObjectID.
Proof.
  intros H. apply book_document_inv in H as (o & b & Ho & [-> | [u ->]]).
  - exists (with_ID o b). repeat split; assumption.
  - exists (put_record o u). repeat split; assumption.
Qed.

Lemma book_matches_all (d : document) :
  is_book_document d = true -> matches [(EmptyString, VNull)] d = true.
Proof.
  intros H. apply book_document_inv in H as (o & b & Ho & [-> | [u ->]]);
    reflexivity.
Qed.

Lemma filter_all {A} (p : A -> bool) (l : list A) :
  forallb p l = true -> List.filter p l = l.
Proof.
  induction l as [|x l IH]; simpl; [reflexivity|].
  intros H. apply andb_true_iff in H as [Hx Hl]. rewrite Hx, IH; auto.
Qed.

Lemma forallb_impl {A} (p q : A -> bool) (l : list A) :
  (forall x, p x = true -> q x = true) -> forallb p l = true -> forallb q l = true.
Proof.
  intros Hpq. induction l as [|x l IH]; simpl; [reflexivity|].
  intros H. apply andb_true_iff in H as [Hx Hl]. rewrite Hpq, IH; auto.
Qed.

Lemma decode_all_books (c : collection) :
  forallb is_book_document c = true ->
  exists rs, codec.decode_all c = Some rs /\
    Forall2 (fun d r => record_of d = Some r /\ get "_id" d = Some (VObjectID (ID r))) c rs.
Proof.
  induction c as [|d c IH]; simpl; intros H.
  - exists []. split; [reflexivity | constructor].
  - apply andb_true_iff in H as [Hd Hc].
    destruct (IH Hc) as (rs & E & F).
    destruct (book_decodes d Hd) as (r & Hr & Hid & _).
    exists (r :: rs). unfold record_of in Hr. rewrite Hr, E.
    split; [reflexivity | constructor; auto].
Qed.

Lemma decode_all_length (docs : list document) (rs : list BookStore) :
  codec.decode_all docs = Some rs -> length rs = length docs.
Proof.
  revert rs. induction docs as [|d docs IH]; simpl; intros rs H.
  - inversion H. reflexivity.
  - destruct (codec.Unmarshal d); [|discriminate].
    destruct (codec.decode_all docs) as [bs|]; [|discriminate].
    inversion H; subst. simpl. f_equal. auto.
Qed.

(* ===================================================================== *)
(** ** GET /api/books *)
(* ===================================================================== *)

Lemma book_map_lookups (r : BookStore) :
  Frontend.book_map r !! "ID" = Some (AString (Hex (ID r))) /\
  Frontend.book_map r !! "BookName" = Some (AString (BookName r)) /\
  Frontend.book_map r !! "BookAuthor" = Some (AString (BookAuthor r)) /\
  Frontend.book_map r !! "BookPages" = Some (AInt (BookPages r)) /\
  Frontend.book_map r !! "BookYear" = Some (AInt (BookYear r)) /\
  Frontend.book_map r !! "BookISBN" = Some (AString (BookISBN r)).
Proof. unfold Frontend.book_map. repeat split; by simplify_map_eq. Qed.

Lemma payload_loop_book_map (rs : list BookStore) (acc : list BookDTO.t) (c : collection) :
  Frontend.payload_loop (map Frontend.book_map rs) acc c = (Ret (acc ++ map view rs)%list, c).
Proof.
  revert acc. induction rs as [|r rs IH]; intros acc.
  - simpl. rewrite app_nil_r. reflexivity.
  - cbn [map Frontend.payload_loop].
    destruct (book_map_lookups r) as (H1 & H2 & H3 & H4 & H5 & H6).
    rewrite H1, H2, H3, H4, H5, H6.
    unfold mbind, Store_bind; cbn [assert_string assert_int mret Store_ret].
    rewrite IH. rewrite <- app_assoc. reflexivity.
Qed.

(** What the GET handler answers on a collection whose documents decode
    to [rs]. *)
Lemma GET_books (c : collection) :
  forallb is_book_document c = true ->
  exists rs,
    Forall2 (fun d r => record_of d = Some r /\ get "_id" d = Some (VObjectID (ID r))) c rs /\
    Frontend.GET_api_books c = (Ret (JSON StatusOK (JBooks (map view rs))), c).
Proof.
  intros H. destruct (decode_all_books c H) as (rs & E & F).
  exists rs. split; [exact F|].
  unfold Frontend.GET_api_books, Frontend.findAllBooks.
  unfold mbind, Store_bind, Find.
  change (filter_ok [(EmptyString, VNull)]) with true. cbv iota.
  rewrite (filter_all _ c) by (eapply forallb_impl; [apply book_matches_all | exact H]).
  unfold codec.All. rewrite E.
  cbn [mret Store_ret isErr].
  rewrite payload_loop_book_map. reflexivity.
Qed.

(* ===================================================================== *)
(** ** PUT /api/books *)
(* ===================================================================== *)

Lemma marshalM_singleton (k : string) (v : value) : marshalM {[ k := v ]} = [(k, v)].
Proof. unfold marshalM. apply map_to_list_singleton. Qed.

Lemma matches_id (o : ObjectID) (d : document) :
  matches [("_id", VObjectID o)] d = bool_decide (get "_id" d = Some (VObjectID o)).
Proof.
  unfold matches, match_elem, field. cbn [forallb fst snd has_dot].
  apply andb_true_r.
Qed.

Lemma find_none_all {A} (p : A -> bool) (l : list A) :
  forallb (fun x => negb (p x)) l = true -> find p l = None.
Proof.
  induction l as [|x l IH]; simpl; [reflexivity|].
  intros H. apply andb_true_iff in H as [Hx Hl].
  apply negb_true_iff in Hx. rewrite Hx. auto.
Qed.

Lemma find_none_inv {A} (p : A -> bool) (l : list A) :
  find p l = None -> forallb (fun x => negb (p x)) l = true.
Proof.
  induction l as [|x l IH]; simpl; [reflexivity|].
  destruct (p x); [discriminate|]. simpl. auto.
Qed.

Lemma update_first_none (p : document -> bool) f (c : collection) :
  forallb (fun x => negb (p x)) c = true -> update_first p f c = c.
Proof.
  induction c as [|x l IH]; simpl; [reflexivity|].
  intros H. apply andb_true_iff in H as [Hx Hl].
  apply negb_true_iff in Hx. rewrite Hx, IH; auto.
Qed.

(** What the PUT handler does with a bound request. *)
Lemma PUT_bound (u : BookDTO.t) (c : collection) :
  Frontend.PUT_api_books (Some u) c =
  (Ret (JSON StatusOK (JBook u)),
   update_first (matches [("_id", VObjectID (ObjectIDFromHex (BookDTO.Id u)).1)])
                (apply_update (USet (Frontend.set_fields u))) c).
Proof.
  unfold Frontend.PUT_api_books.
  destruct (ObjectIDFromHex (BookDTO.Id u)) as [id e]. cbn [fst].
  rewrite marshalM_singleton.
  unfold mbind, Store_bind, UpdateOne.
  change (filter_ok [("_id", VObjectID id)]) with true. cbv iota.
  destruct (find _ c) as [d|] eqn:E; cbn [isErr mret Store_ret]; [reflexivity|].
  rewrite update_first_none; [reflexivity|].
  apply find_none_inv. exact E.
Qed.

Lemma book_collection_docs (c : collection) :
  book_collection c = true -> forallb is_book_document c = true.
Proof. unfold book_collection. intros H. apply andb_true_iff in H. tauto. Qed.

Lemma book_collection_NoDup (c : collection) :
  book_collection c = true -> NoDup (map (get "_id") c).
Proof.
  unfold book_collection. intros H. apply andb_true_iff in H as [_ H].
  apply bool_decide_eq_true in H. exact H.
Qed.

(** No book document carries the zero identifier. *)
Lemma book_collection_no_zero_key (c : collection) :
  forallb is_book_document c = true ->
  forallb (fun d => negb (matches [("_id", VObjectID NilObjectID)] d)) c = true.
Proof.
  apply forallb_impl. intros d H.
  destruct (book_decodes d H) as (r & _ & Hid & Hz).
  rewrite matches_id. apply negb_true_iff, bool_decide_eq_false.
  rewrite Hid. congruence.
Qed.

Lemma put_at_absent o u (c : collection) (rs : list BookStore) :
  Forall2 (fun d r => record_of d = Some r /\ get "_id" d = Some (VObjectID (ID r))) c rs ->
  Some (VObjectID o) ∉ map (get "_id") c ->
  put_at o u rs = rs.
Proof.
  induction 1 as [|d r c rs [Hr Hid] F IH]; [reflexivity|].
  cbn [map]. intros Hn. apply not_elem_of_cons in Hn as [Hd Hc].
  unfold put_at in *. cbn [map]. rewrite IH by exact Hc.
  rewrite bool_decide_eq_false_2; [reflexivity|].
  intros E. apply Hd. rewrite Hid, E. reflexivity.
Qed.

Lemma update_first_books (o : ObjectID) (u : BookDTO.t) (c : collection) (rs : list BookStore) :
  forallb is_book_document c = true ->
  NoDup (map (get "_id") c) ->
  Forall2 (fun d r => record_of d = Some r /\ get "_id" d = Some (VObjectID (ID r))) c rs ->
  let c' := update_first (matches [("_id", VObjectID o)])
                         (apply_update (USet (Frontend.set_fields u))) c in
  forallb is_book_document c' = true /\
  map (get "_id") c' = map (get "_id") c /\
  Forall2 (fun d r => record_of d = Some r /\ get "_id" d = Some (VObjectID (ID r)))
          c' (put_at o u rs).
Proof.
  intros Hb Hnd F. revert Hb Hnd.
  induction F as [|d r c rs [Hr Hid] F IH]; intros Hb Hnd.
  - repeat split; constructor.
  - cbn [forallb] in Hb. apply andb_true_iff in Hb as [Hd Hc].
    cbn [map] in Hnd. apply NoDup_cons in Hnd as [Hnin Hnd].
    cbn [update_first]. rewrite matches_id.
    destruct (bool_decide (get "_id" d = Some (VObjectID o))) eqn:E.
    + apply bool_decide_eq_true in E.
      assert (ID r = o) as Hro by congruence.
      unfold put_at. cbn [map]. rewrite bool_decide_eq_true_2 by exact Hro.
      fold (put_at o u rs).
      rewrite (put_at_absent o u c rs F) by (rewrite <- E; exact Hnin).
      destruct (book_document_inv d Hd) as (o' & b & Ho' & [-> | [u0 ->]]);
        cbn in E; assert (o' = o) as -> by congruence.
      * rewrite apply_set_inserted. cbn [forallb map].
        rewrite is_book_document_updated, Hc by exact Ho'.
        repeat split. constructor; [|exact F]. split; reflexivity.
      * rewrite apply_set_updated. cbn [forallb map].
        rewrite is_book_document_updated, Hc by exact Ho'.
        repeat split. constructor; [|exact F]. split; reflexivity.
    + apply bool_decide_eq_false in E.
      destruct (IH Hc Hnd) as (Hb' & Hids & F').
      cbn [forallb map]. rewrite Hd, Hb', Hids.
      repeat split.
      unfold put_at. cbn [map].
      rewrite bool_decide_eq_false_2 by (intros Ho; apply E; rewrite Hid, Ho; reflexivity).
      constructor; [split; assumption | exact F'].
Qed.

Lemma Forall2_record_functional (c : collection) (rs rs' : list BookStore) :
  Forall2 (fun d r => record_of d = Some r /\ get "_id" d = Some (VObjectID (ID r))) c rs ->
  Forall2 (fun d r => record_of d = Some r /\ get "_id" d = Some (VObjectID (ID r))) c rs' ->
  rs = rs'.
Proof.
  intros F. revert rs'. induction F as [|d r c rs [Hr _] F IH]; intros rs' F'.
  - inversion F'. reflexivity.
  - inversion F' as [|d' r' c' rs'' [Hr' _] F'']; subst.
    f_equal; [congruence | auto].
Qed.

Lemma view_put_at o u (rs : list BookStore) :
  map view (put_at o u rs) =
  map (fun b => if bool_decide (BookDTO.Id b = Hex o) then new_view o u else b) (map view rs).
Proof.
  unfold put_at. rewrite !map_map. apply map_ext. intros r.
  cbn [view BookDTO.Id].
  destruct (bool_decide (ID r = o)) eqn:E.
  - apply bool_decide_eq_true in E. subst o.
    rewrite bool_decide_eq_true_2 by reflexivity. reflexivity.
  - apply bool_decide_eq_false in E.
    rewrite bool_decide_eq_false_2; [reflexivity|].
    intros H. apply E. apply Hex_inj. exact H.
Qed.

(* ===================================================================== *)
(** ** Claims about GET and PUT *)
(* ===================================================================== *)

Lemma digit_lower_hex (b : byte) :
  lower_hex_digit (hex.digit (Byte.to_N b / 16)) = true /\
  lower_hex_digit (hex.digit (Byte.to_N b mod 16)) = true.
Proof. destruct b; vm_compute; split; reflexivity. Qed.

Lemma EncodeToString_lower_hex (bs : list byte) :
  forallb lower_hex_digit (list_ascii_of_string (hex.EncodeToString bs)) = true.
Proof.
  induction bs as [|b bs IH]; [reflexivity|].
  cbn [hex.EncodeToString]. rewrite encode_byte_append.
  cbn [list_ascii_of_string forallb].
  destruct (digit_lower_hex b) as [-> ->]. exact IH.
Qed.

(** The display string of an identifier is 24 lower-case hexadecimal digits. *)
Lemma Hex_hexadecimal (o : ObjectID) : hexadecimal (Hex o) = true.
Proof.
  unfold hexadecimal. rewrite Hex_length. unfold Hex.
  rewrite EncodeToString_lower_hex. reflexivity.
Qed.

(** The entry of a book document shows what the document stores. *)
Lemma lists_book_document (d : document) (r : BookStore) :
  is_book_document d = true -> record_of d = Some r -> lists d (view r) = true.
Proof.
  intros Hd Hr. unfold record_of in Hr.
  destruct (book_document_inv d Hd) as (o & b & Ho & [-> | [u ->]]).
  - rewrite Unmarshal_inserted in Hr. injection Hr as <-.
    unfold lists. change (get "_id" (inserted_doc o b)) with (Some (VObjectID o)).
    cbn [view with_ID ID BookName BookAuthor BookISBN BookPages BookYear
         BookDTO.Id BookDTO.Name BookDTO.Author BookDTO.Isbn BookDTO.Pages BookDTO.Year].
    rewrite Hex_hexadecimal, ObjectIDFromHex_Hex.
    rewrite !bool_decide_eq_true_2 by reflexivity. reflexivity.
  - rewrite Unmarshal_updated in Hr. injection Hr as <-.
    unfold lists. change (get "_id" (updated_doc o b u)) with (Some (VObjectID o)).
    cbn [view put_record ID BookName BookAuthor BookISBN BookPages BookYear
         BookDTO.Id BookDTO.Name BookDTO.Author BookDTO.Isbn BookDTO.Pages BookDTO.Year].
    rewrite Hex_hexadecimal, ObjectIDFromHex_Hex.
    rewrite !bool_decide_eq_true_2 by reflexivity. reflexivity.
Qed.

(** C9.  On a book collection the GET /api/books handler answers with status
    200 and one object per stored document, in storage order, and leaves the
    collection as it was.  The object of a document carries as identifier
    the 24 lower-case hexadecimal digits that parse back to the [_id] of the
    document, and as name, author, ISBN, page count and year the values the
    document stores (those a PUT wrote when there was one, else those it was
    inserted with). *)
Theorem GET_lists_every_record (c : collection) :
  book_collection c = true ->
  exists listed : list BookDTO.t,
    Frontend.GET_api_books c = (Ret (JSON StatusOK (JBooks listed)), c) /\
    Forall2 (fun d e => lists d e = true) c listed.
Proof.
  intros H. apply book_collection_docs in H.
  destruct (GET_books c H) as (rs & F & E).
  exists (map (fun r => BookDTO.mk (Hex (ID r)) (BookName r) (BookAuthor r)
                                     (BookPages r) (BookYear r) (BookISBN r)) rs).
  split; [exact E|].
  clear E. induction F as [|d r c rs [Hr _] F IH]; [constructor|].
  cbn [forallb] in H. apply andb_true_iff in H as [Hd Hc].
  cbn [map]. constructor; [|exact (IH Hc)].
  exact (lists_book_document d r Hd Hr).
Qed.

Lemma GET_lists_every_record_witness :
  book_collection sample_books = true /\
  Frontend.GET_api_books sample_books
    = (Ret (JSON StatusOK (JBooks sample_listing)), sample_books) /\
  Forall2 (fun d e => lists d e = true) sample_books sample_listing.
Proof.
  assert (H1 : book_collection sample_books = true) by (vm_compute; reflexivity).
  assert (H2 : Frontend.GET_api_books sample_books
               = (Ret (JSON StatusOK (JBooks sample_listing)), sample_books))
    by (vm_compute; reflexivity).
  split; [exact H1|]. split; [exact H2|].
  destruct (GET_lists_every_record sample_books H1) as (listed & E & F).
  rewrite H2 in E. injection E as <-. exact F.
Defined.

(** C3.  On a book collection that holds a record with identifier [o], a
    PUT /api/books request whose identifier parses to [o] answers 200 with
    the submitted payload, and the GET /api/books that follows lists the same
    entries as a GET before the request, except that the entry whose
    identifier is the display string of [o] now carries the submitted name,
    author, page count, year and ISBN; that entry is in the list. *)
Theorem PUT_then_GET (c : collection) (u : BookDTO.t) (o : ObjectID) (d : document) :
  book_collection c = true ->
  ObjectIDFromHex (BookDTO.Id u) = (o, None) ->
  d ∈ c ->
  get "_id" d = Some (VObjectID o) ->
  exists (c' : collection) (before after : list BookDTO.t),
    Frontend.PUT_api_books (Some u) c = (Ret (JSON StatusOK (JBook u)), c') /\
    Frontend.GET_api_books c = (Ret (JSON StatusOK (JBooks before)), c) /\
    Frontend.GET_api_books c' = (Ret (JSON StatusOK (JBooks after)), c') /\
    after = map (fun b => if bool_decide (BookDTO.Id b = Hex o)
                          then BookDTO.mk (Hex o) (BookDTO.Name u) (BookDTO.Author u)
                                          (BookDTO.Pages u) (BookDTO.Year u) (BookDTO.Isbn u)
                          else b) before /\
    BookDTO.mk (Hex o) (BookDTO.Name u) (BookDTO.Author u)
               (BookDTO.Pages u) (BookDTO.Year u) (BookDTO.Isbn u) ∈ after.
Proof.
  intros Hc Hparse Hin Hid.
  pose proof (book_collection_docs c Hc) as Hb.
  pose proof (book_collection_NoDup c Hc) as Hnd.
  destruct (GET_books c Hb) as (rs & F & Eget).
  destruct (update_first_books o u c rs Hb Hnd F) as (Hb' & _ & F').
  set (c' := update_first (matches [("_id", VObjectID o)])
                          (apply_update (USet (Frontend.set_fields u))) c) in *.
  destruct (GET_books c' Hb') as (rs' & F'' & Eget').
  rewrite (Forall2_record_functional c' rs' (put_at o u rs) F'' F') in Eget'.
  exists c', (map view rs), (map view (put_at o u rs)).
  split; [rewrite PUT_bound, Hparse; reflexivity|].
  split; [exact Eget|].
  split; [exact Eget'|].
  split; [apply view_put_at|].
  apply list_elem_of_fmap. exists (put_record o u). split; [reflexivity|].
  apply list_elem_of_fmap.
  apply list_elem_of_lookup in Hin as [i Hi].
  destruct (Forall2_lookup_l _ _ _ _ _ F Hi) as (r & Hr & _ & Hidr).
  exists r. split.
  - rewrite bool_decide_eq_true_2; [reflexivity | congruence].
  - apply list_elem_of_lookup. eauto.
Qed.

Lemma PUT_then_GET_witness :
  book_collection sample_books = true /\
  ObjectIDFromHex (BookDTO.Id sample_update) = (oid_of_N 171, None) /\
  inserted_doc (oid_of_N 171) Frankenstein ∈ sample_books /\
  get "_id" (inserted_doc (oid_of_N 171) Frankenstein) = Some (VObjectID (oid_of_N 171)) /\
  exists (c' : collection) (before after : list BookDTO.t),
    Frontend.PUT_api_books (Some sample_update) sample_books
      = (Ret (JSON StatusOK (JBook sample_update)), c') /\
    Frontend.GET_api_books sample_books = (Ret (JSON StatusOK (JBooks before)), sample_books) /\
    Frontend.GET_api_books c' = (Ret (JSON StatusOK (JBooks after)), c') /\
    after = map (fun b => if bool_decide (BookDTO.Id b = Hex (oid_of_N 171))
                          then BookDTO.mk (Hex (oid_of_N 171)) (BookDTO.Name sample_update)
                                          (BookDTO.Author sample_update)
                                          (BookDTO.Pages sample_update)
                                          (BookDTO.Year sample_update)
                                          (BookDTO.Isbn sample_update)
                          else b) before /\
    BookDTO.mk (Hex (oid_of_N 171)) (BookDTO.Name sample_update)
               (BookDTO.Author sample_update) (BookDTO.Pages sample_update)
               (BookDTO.Year sample_update) (BookDTO.Isbn sample_update) ∈ after.
Proof.
  assert (H1 : book_collection sample_books = true) by (vm_compute; reflexivity).
  assert (H2 : ObjectIDFromHex (BookDTO.Id sample_update) = (oid_of_N 171, None))
    by (vm_compute; reflexivity).
  assert (H3 : inserted_doc (oid_of_N 171) Frankenstein ∈ sample_books)
    by (unfold sample_books; apply list_elem_of_further, list_elem_of_here).
  assert (H4 : get "_id" (inserted_doc (oid_of_N 171) Frankenstein)
               = Some (VObjectID (oid_of_N 171))) by reflexivity.
  repeat (split; [assumption|]).
  exact (PUT_then_GET sample_books sample_update (oid_of_N 171)
                      (inserted_doc (oid_of_N 171) Frankenstein) H1 H2 H3 H4).
Defined.

(** C8.  A PUT /api/books request whose identifier does not parse goes on
    with the zero identifier as key: on a book collection the update matches
    and modifies no document, the collection is unchanged, and the handler
    answers 200 with the submitted payload. *)
Theorem PUT_unparsable_identifier (c : collection) (u : BookDTO.t) :
  book_collection c = true ->
  isErr (ObjectIDFromHex (BookDTO.Id u)).2 = true ->
  (ObjectIDFromHex (BookDTO.Id u)).1 = NilObjectID /\
  UpdateOne (marshalM {[ "_id" := VObjectID NilObjectID ]})
            (USet (Frontend.set_fields u)) c
    = (Ret (Some {| MatchedCount := 0; ModifiedCount := 0 |}, None), c) /\
  Frontend.PUT_api_books (Some u) c = (Ret (JSON StatusOK (JBook u)), c).
Proof.
  intros Hc He.
  assert (Hnil : (ObjectIDFromHex (BookDTO.Id u)).1 = NilObjectID).
  { apply ObjectIDFromHex_error. destruct (ObjectIDFromHex (BookDTO.Id u)).2; [discriminate|].
    discriminate. }
  pose proof (book_collection_no_zero_key c (book_collection_docs c Hc)) as Hz.
  split; [exact Hnil|]. split.
  - rewrite marshalM_singleton. unfold UpdateOne.
    change (filter_ok [("_id", VObjectID NilObjectID)]) with true. cbv iota.
    rewrite (find_none_all _ c Hz). reflexivity.
  - rewrite PUT_bound, Hnil, update_first_none by exact Hz. reflexivity.
Qed.

Lemma PUT_unparsable_identifier_witness :
  book_collection sample_books = true /\
  isErr (ObjectIDFromHex (BookDTO.Id malformed_update)).2 = true /\
  (ObjectIDFromHex (BookDTO.Id malformed_update)).1 = NilObjectID /\
  UpdateOne (marshalM {[ "_id" := VObjectID NilObjectID ]})
            (USet (Frontend.set_fields malformed_update)) sample_books
    = (Ret (Some {| MatchedCount := 0; ModifiedCount := 0 |}, None), sample_books) /\
  Frontend.PUT_api_books (Some malformed_update) sample_books
    = (Ret (JSON StatusOK (JBook malformed_update)), sample_books).
Proof.
  assert (H1 : book_collection sample_books = true) by (vm_compute; reflexivity).
  assert (H2 : isErr (ObjectIDFromHex (BookDTO.Id malformed_update)).2 = true)
    by reflexivity.
  repeat (split; [assumption|]).
  exact (PUT_unparsable_identifier sample_books malformed_update H1 H2).
Defined.

(* ===================================================================== *)
(** ** POST /api/books *)
(* ===================================================================== *)

Lemma lookup_cond_insert (b : bool) (k k' : string) (v : value) (m : bsonM) :
  (if b then <[ k := v ]> m else m) !! k' =
  if decide (k = k') then (if b then Some v else m !! k') else m !! k'.
Proof.
  destruct b, (decide (k = k')) as [->|Hne]; try reflexivity.
  - apply lookup_insert_eq.
  - apply lookup_insert_ne. exact Hne.
Qed.


(** The filter of the existence check, key by key. *)
Lemma objToComapare_lookup (book : PostBookDTO.t) (k : string) :
  PostService.objToComapare book !! k =
  if decide ("bookisbn" = k)
  then (if negb (String.eqb (PostBookDTO.Isbn book) "")
        then Some (VString (PostBookDTO.Isbn book)) else None)
  else if decide ("bookyear" = k)
  then (if negb (PostBookDTO.Year book =? 0) then Some (VInt (PostBookDTO.Year book)) else None)
  else if decide ("bookpages" = k)
  then (if negb (PostBookDTO.Pages book =? 0) then Some (VInt (PostBookDTO.Pages book)) else None)
  else if decide ("bookauthor" = k)
  then (if negb (String.eqb (PostBookDTO.Author book) "")
        then Some (VString (PostBookDTO.Author book)) else None)
  else if decide ("bookname" = k)
  then (if negb (String.eqb (PostBookDTO.Name book) "")
        then Some (VString (PostBookDTO.Name book)) else None)
  else None.
Proof.
  unfold PostService.objToComapare. cbv zeta.
  rewrite !lookup_cond_insert, lookup_empty.
  repeat (destruct (decide _) as [<-|?]; [reflexivity|]).
  reflexivity.
Qed.

Lemma objToComapare_keys (book : PostBookDTO.t) (k : string) (v : value) :
  PostService.objToComapare book !! k = Some v -> key_ok k = true.
Proof.
  rewrite objToComapare_lookup.
  repeat (destruct (decide _) as [<-|?]; [reflexivity|]).
  discriminate.
Qed.

Lemma filter_ok_objToComapare (book : PostBookDTO.t) :
  filter_ok (marshalM (PostService.objToComapare book)) = true.
Proof.
  unfold filter_ok, marshalM. apply forallb_forall. intros [k v] Hin.
  apply list_elem_of_In, elem_of_map_to_list in Hin.
  cbn [fst]. eapply objToComapare_keys. exact Hin.
Qed.


Lemma forallb_elem_of {A} (p : A -> bool) (l : list A) (x : A) :
  forallb p l = true -> x ∈ l -> p x = true.
Proof.
  intros H Hin. rewrite forallb_forall in H. apply H, list_elem_of_In, Hin.
Qed.

(** [InsertOne] of a marshalled record without identifier. *)
Lemma InsertOne_fields (b : BookStore) (fresh : ObjectID) (c : collection) :
  InsertOne (book_fields b) fresh c =
  if existsb (fun d => bool_decide (get "_id" d = Some (VObjectID fresh))) c
  then (Ret (None, Some ErrDuplicateKey), c)
  else (Ret (Some {| InsertedID := VObjectID fresh |}, None),
        (c ++ [inserted_doc fresh b])%list).
Proof. reflexivity. Qed.

(** The POST handler on a bound request, by what the existence check
    finds. *)
Lemma POST_bound (book : PostBookDTO.t) (fresh : ObjectID) (c : collection) :
  PostService.POST_api_books (Some book) fresh c =
  match find (matches (marshalM (PostService.objToComapare book))) c with
  | Some d =>
      match codec.Unmarshal d with
      | Some _ => (Ret (JSON StatusNotModified (JPostBook book)), c)
      | None => insert_path book fresh c
      end
  | None => insert_path book fresh c
  end.
Proof.
  unfold PostService.POST_api_books, insert_path.
  unfold mbind at 1. unfold Store_bind at 1. unfold FindOne.
  rewrite filter_ok_objToComapare.
  fold (bookStore_of book).
  rewrite (Marshal_zero (bookStore_of book)) by reflexivity.
  destruct (find _ c) as [d|]; cbn [codec.Decode].
  - destruct (codec.Unmarshal d); cbn [isErr negb mret Store_ret]; [reflexivity|].
    unfold mbind, Store_bind. rewrite InsertOne_fields.
    destruct (existsb _ c); reflexivity.
  - cbn [isErr negb]. unfold mbind, Store_bind. rewrite InsertOne_fields.
    destruct (existsb _ c); reflexivity.
Qed.

Lemma insert_path_appends (book : PostBookDTO.t) (fresh : ObjectID) (c : collection) :
  exists added : list document,
    (insert_path book fresh c).2 = (c ++ added)%list /\ (length added <= 1)%nat.
Proof.
  unfold insert_path. destruct (existsb _ c); cbn [snd].
  - exists []. rewrite app_nil_r. split; [reflexivity | simpl; lia].
  - eexists [_]. split; [reflexivity | simpl; lia].
Qed.





(** C10.  Whatever the request (bind failure included) and the collection,
    the POST /api/books handler leaves the collection as it was or appends
    one document to it: the prior documents stay, unchanged and in place. *)
Theorem POST_keeps_records (bound : option PostBookDTO.t) (fresh : ObjectID)
        (c : collection) :
  exists added : list document,
    (PostService.POST_api_books bound fresh c).2 = (c ++ added)%list /\
    (length added <= 1)%nat.
Proof.
  destruct bound as [book|].
  - rewrite POST_bound.
    destruct (find _ c) as [d|]; [destruct (codec.Unmarshal d)|];
      try apply insert_path_appends.
    exists []. rewrite app_nil_r. split; [reflexivity | simpl; lia].
  - exists []. rewrite app_nil_r. split; [reflexivity | simpl; lia].
Qed.

(* ===================================================================== *)
(** ** DELETE /api/books/:id *)
(* ===================================================================== *)

(** The DELETE handler, by what its two delete attempts find. *)
Lemma DELETE_cases (id : string) (c : collection) :
  delete_handler id c =
  match delete_first (matches [("id", VString id)]) c with
  | Some c' => (Ret deleted_ok, c')
  | None =>
      if key_ok id then
        match delete_first (matches [(id, VNull)]) c with
        | Some c' => (Ret deleted_ok, c')
        | None => (Ret deleted_ok, c)
        end
      else (Panic, c)
  end.
Proof.
  unfold delete_handler. destruct (ObjectIDFromHex id) as [o e].
  rewrite marshalM_singleton.
  unfold mbind at 1. unfold Store_bind at 1. unfold DeleteOne at 1.
  change (filter_ok [("id", VString id)]) with true. cbv iota.
  destruct (delete_first (matches [("id", VString id)]) c) as [c'|]; [reflexivity|].
  unfold mbind, Store_bind, DeleteOne, deref.
  cbn [mret Store_ret DeletedCount Z.eqb]. rewrite filter_ok_key.
  destruct (key_ok id); cbn [panic]; [|reflexivity].
  destruct (delete_first (matches [(id, VNull)]) c) as [c'|]; reflexivity.
Qed.

Lemma delete_first_Some (p : document -> bool) (c c' : collection) :
  delete_first p c = Some c' ->
  exists l1 d l2,
    c = (l1 ++ d :: l2)%list /\ c' = (l1 ++ l2)%list /\ p d = true /\
    forallb (fun e => negb (p e)) l1 = true.
Proof.
  revert c'. induction c as [|x c IH]; intros c'; cbn [delete_first]; [discriminate|].
  destruct (p x) eqn:Hx.
  - intros E. inversion E; subst. exists [], x, c'. repeat split. exact Hx.
  - destruct (delete_first p c) as [r|]; [|discriminate].
    intros E. inversion E; subst.
    destruct (IH r eq_refl) as (l1 & d & l2 & -> & -> & Hd & Hl).
    exists (x :: l1), d, l2. repeat split; [exact Hd|].
    cbn [forallb]. rewrite Hx, Hl. reflexivity.
Qed.

Lemma delete_first_None (p : document -> bool) (c : collection) :
  delete_first p c = None -> forallb (fun e => negb (p e)) c = true.
Proof.
  induction c as [|x c IH]; cbn [delete_first forallb]; [reflexivity|].
  destruct (p x); [discriminate|].
  destruct (delete_first p c); [discriminate|]. auto.
Qed.

Lemma delete_first_absent (p : document -> bool) (c : collection) :
  forallb (fun e => negb (p e)) c = true -> delete_first p c = None.
Proof.
  induction c as [|x c IH]; cbn [delete_first forallb]; [reflexivity|].
  intros H. apply andb_true_iff in H as [Hx Hc].
  apply negb_true_iff in Hx. rewrite Hx, IH; auto.
Qed.

(** The two filters of the handler, read as conditions on a document. *)
Lemma matches_id_field (id : string) (d : document) :
  matches [("id", VString id)] d = true <-> field "id" d = Some (VString id).
Proof.
  unfold matches, match_elem. cbn [forallb fst snd].
  rewrite andb_true_r. apply bool_decide_eq_true.
Qed.

Lemma matches_null_field (id : string) (d : document) :
  matches [(id, VNull)] d = true <-> field id d = None \/ field id d = Some VNull.
Proof.
  unfold matches, match_elem. cbn [forallb fst snd].
  rewrite andb_true_r.
  destruct (field id d) as [[]|]; split; intros H; try reflexivity; auto;
    try discriminate; destruct H; discriminate.
Qed.

Lemma book_has_no_id_field (id : string) (d : document) :
  is_book_document d = true -> matches [("id", VString id)] d = false.
Proof.
  intros H. apply book_document_inv in H as (o & b & Ho & [-> | [u ->]]);
    reflexivity.
Qed.

Lemma absent_field_matches_null (id : string) (d : document) :
  get id d = None -> matches [(id, VNull)] d = true.
Proof.
  intros H. apply matches_null_field. left. unfold field.
  destruct (has_dot id); [reflexivity | exact H].
Qed.

(** C1, as stated, fails: a DELETE with the display string of the key of the
    first stored record removes that very record. *)
Lemma DELETE_removes_keyed_record :
  get "_id" (inserted_doc (oid_of_N 1) The_Vortex) = Some (VObjectID (oid_of_N 1)) /\
  Hex (oid_of_N 1) = "000000000000000000000001" /\
  inserted_doc (oid_of_N 1) The_Vortex ∈ two_books /\
  DeleteService.DELETE_api_books "000000000000000000000001" two_books
    = (Ret (JSON StatusOK (JString "Book deleted successfully")),
       [inserted_doc (oid_of_N 171) Frankenstein]) /\
  inserted_doc (oid_of_N 1) The_Vortex ∉ [inserted_doc (oid_of_N 171) Frankenstein].
Proof.
  split; [reflexivity|]. split; [vm_compute; reflexivity|].
  split; [apply list_elem_of_here|]. split; [vm_compute; reflexivity|].
  intros H. apply list_elem_of_singleton in H. discriminate H.
Qed.

(** C1, amended.  When no storage call fails, the DELETE handler answers
    200 and removes at most one document, chosen by two field filters and
    never by comparing the primary key with the identifier: the first
    document whose field named "id" equals the identifier or, when no
    document has such a field, the first document in which the field named by
    the identifier is absent or null. *)
Theorem DELETE_selects_by_field (id : string) (c c' : collection) (r : outcome response) :
  DeleteService.DELETE_api_books id c = (r, c') ->
  r <> Panic ->
  r = Ret (JSON StatusOK (JString "Book deleted successfully")) /\
  ((c' = c /\
    forall e, e ∈ c ->
      field "id" e <> Some (VString id) /\ field id e <> None /\ field id e <> Some VNull)
   \/
   exists l1 d l2,
     c = (l1 ++ d :: l2)%list /\ c' = (l1 ++ l2)%list /\
     ((field "id" d = Some (VString id) /\
       forall e, e ∈ l1 -> field "id" e <> Some (VString id))
      \/
      ((forall e, e ∈ c -> field "id" e <> Some (VString id)) /\
       (field id d = None \/ field id d = Some VNull) /\
       forall e, e ∈ l1 -> field id e <> None /\ field id e <> Some VNull))).
Proof.
  unfold DeleteService.DELETE_api_books. rewrite DELETE_cases.
  assert (Hno1 : forall l, forallb (fun e => negb (matches [("id", VString id)] e)) l = true ->
                           forall e, e ∈ l -> field "id" e <> Some (VString id)).
  { intros l Hl e He E. apply matches_id_field in E.
    pose proof (forallb_elem_of _ l e Hl He) as Hn. cbn beta in Hn.
    rewrite E in Hn. discriminate. }
  assert (Hno2 : forall l, forallb (fun e => negb (matches [(id, VNull)] e)) l = true ->
                           forall e, e ∈ l -> field id e <> None /\ field id e <> Some VNull).
  { intros l Hl e He.
    pose proof (forallb_elem_of _ l e Hl He) as Hn. cbn beta in Hn.
    apply negb_true_iff in Hn.
    split; intros E; assert (matches [(id, VNull)] e = true) as Ht
        by (apply matches_null_field; auto); congruence. }
  destruct (delete_first (matches [("id", VString id)]) c) as [c1|] eqn:E1.
  - intros E _. injection E as <- <-. split; [reflexivity|]. right.
    apply delete_first_Some in E1 as (l1 & d & l2 & -> & -> & Hd & Hl).
    exists l1, d, l2. repeat split. left. split.
    + apply matches_id_field. exact Hd.
    + apply Hno1. exact Hl.
  - apply delete_first_None in E1.
    destruct (key_ok id); [|intros E Hp; injection E as <- <-; congruence].
    destruct (delete_first (matches [(id, VNull)]) c) as [c2|] eqn:E2.
    + intros E _. injection E as <- <-. split; [reflexivity|]. right.
      apply delete_first_Some in E2 as (l1 & d & l2 & -> & -> & Hd & Hl).
      exists l1, d, l2. repeat split. right. repeat split.
      * apply Hno1. exact E1.
      * apply matches_null_field. exact Hd.
      * apply (Hno2 l1 Hl e H).
      * apply (Hno2 l1 Hl e H).
    + apply delete_first_None in E2.
      intros E _. injection E as <- <-. split; [reflexivity|]. left.
      split; [reflexivity|]. intros e He.
      split; [apply (Hno1 c E1 e He) | apply (Hno2 c E2 e He)].
Qed.

Lemma DELETE_selects_by_field_witness :
  DeleteService.DELETE_api_books "000000000000000000000001" two_books
    = (Ret (JSON StatusOK (JString "Book deleted successfully")),
       [inserted_doc (oid_of_N 171) Frankenstein]) /\
  Ret (JSON StatusOK (JString "Book deleted successfully")) <> Panic /\
  Ret (JSON StatusOK (JString "Book deleted successfully"))
    = Ret (JSON StatusOK (JString "Book deleted successfully")).
Proof.
  assert (H1 : DeleteService.DELETE_api_books "000000000000000000000001" two_books
               = (Ret (JSON StatusOK (JString "Book deleted successfully")),
                  [inserted_doc (oid_of_N 171) Frankenstein]))
    by (vm_compute; reflexivity).
  assert (H2 : Ret (JSON StatusOK (JString "Book deleted successfully")) <> Panic)
    by discriminate.
  split; [exact H1|]. split; [exact H2|].
  exact (proj1 (DELETE_selects_by_field _ _ _ _ H1 H2)).
Defined.




(* ===================================================================== *)
(** ** Start-up: prepareDatabase and prepareData *)
(* ===================================================================== *)

(** One iteration of the loop. *)
Lemma loop_cons (b : BookStore) (rest : list BookStore) (fresh : nat -> ObjectID)
      (i : nat) (c : collection) :
  IsZero (ID b) = true ->
  prepareData_loop (b :: rest) fresh i c =
  match codec.decode_all (hits b c) with
  | None => (Panic, c)
  | Some rs =>
      if (1 <? length rs)%nat then (Exit, c)
      else if (length rs =? 0)%nat then
        if id_taken (fresh i) c then (Panic, c)
        else prepareData_loop rest fresh (S i) (c ++ [inserted_doc (fresh i) b])%list
      else prepareData_loop rest fresh (S i) c
  end.
Proof.
  intros Hz. cbn [prepareData_loop]. rewrite (Marshal_zero b Hz).
  unfold mbind at 1. unfold Store_bind at 1. unfold Find.
  change (filter_ok (book_fields b)) with true. cbv iota.
  unfold mbind at 1. unfold Store_bind at 1. unfold codec.All.
  fold (hits b c).
  destruct (codec.decode_all (hits b c)) as [rs|]; cbn [mret Store_ret isErr panic];
    [|reflexivity].
  destruct (1 <? length rs)%nat; [reflexivity|].
  destruct (length rs =? 0)%nat; [|reflexivity].
  unfold mbind, Store_bind. rewrite InsertOne_fields. fold (id_taken (fresh i) c).
  destruct (id_taken (fresh i) c); reflexivity.
Qed.

Lemma loop_cons_inv (b : BookStore) (rest : list BookStore) (fresh : nat -> ObjectID)
      (i : nat) (c c' : collection) :
  IsZero (ID b) = true ->
  prepareData_loop (b :: rest) fresh i c = (Ret tt, c') ->
  (one_hit b c /\ (exists d ds, hits b c = d :: ds) /\
   prepareData_loop rest fresh (S i) c = (Ret tt, c'))
  \/
  (hits b c = [] /\ id_taken (fresh i) c = false /\
   prepareData_loop rest fresh (S i) (c ++ [inserted_doc (fresh i) b])%list = (Ret tt, c')).
Proof.
  intros Hz. rewrite (loop_cons b rest fresh i c Hz).
  destruct (codec.decode_all (hits b c)) as [rs|] eqn:E; [|discriminate].
  pose proof (decode_all_length _ _ E) as Hlen.
  destruct rs as [|r [|r' rs]]; cbn [length Nat.ltb Nat.leb Nat.eqb].
  - destruct (hits b c); [|discriminate].
    destruct (id_taken (fresh i) c); [discriminate|]. intros H. right. auto.
  - intros H. left. split; [exists r; exact E|]. split; [|exact H].
    destruct (hits b c) as [|d ds]; [discriminate|]. eauto.
  - discriminate.
Qed.

Lemma matches_own_doc (b : BookStore) (o : ObjectID) :
  matches (book_fields b) (inserted_doc o b) = true.
Proof.
  unfold matches, match_elem, field, book_fields, inserted_doc.
  cbn [forallb fst snd has_dot list_ascii_of_string existsb Ascii.eqb Bool.eqb
       get String.eqb orb andb].
  rewrite !bool_decide_eq_true_2 by reflexivity. reflexivity.
Qed.

Lemma matches_inserted_any_key (a b : BookStore) (o o' : ObjectID) :
  matches (book_fields a) (inserted_doc o b) = matches (book_fields a) (inserted_doc o' b).
Proof. reflexivity. Qed.

Lemma apart_doc (a b : BookStore) (o : ObjectID) :
  apart a b = true -> matches (book_fields a) (inserted_doc o b) = false.
Proof.
  unfold apart. intros H. apply negb_true_iff in H.
  rewrite (matches_inserted_any_key a b o NilObjectID). exact H.
Qed.

Lemma hits_app_other (a : BookStore) (c : collection) (d : document) :
  matches (book_fields a) d = false -> hits a (c ++ [d])%list = hits a c.
Proof.
  intros H. unfold hits. rewrite List.filter_app. cbn [List.filter].
  rewrite H. apply app_nil_r.
Qed.

Lemma hits_app_own (b : BookStore) (c : collection) (o : ObjectID) :
  hits b (c ++ [inserted_doc o b])%list = (hits b c ++ [inserted_doc o b])%list.
Proof.
  unfold hits. rewrite List.filter_app. cbn [List.filter].
  rewrite matches_own_doc. reflexivity.
Qed.

(** A seed record that selects one document still does after the loop went
    over seed records apart from it. *)
Lemma loop_keeps_one_hit (rest : list BookStore) (a : BookStore) (fresh : nat -> ObjectID) :
  forall (i : nat) (c c' : collection),
    forallb (fun b => apart a b) rest = true ->
    zero_ids rest = true ->
    one_hit a c ->
    prepareData_loop rest fresh i c = (Ret tt, c') ->
    one_hit a c'.
Proof.
  induction rest as [|b rest IH]; intros i c c' Hap Hz Hone Hrun.
  - cbn in Hrun. injection Hrun as <-. exact Hone.
  - cbn [forallb] in Hap. apply andb_true_iff in Hap as [Hab Hap].
    unfold zero_ids in Hz. cbn [forallb] in Hz. apply andb_true_iff in Hz as [Hzb Hz].
    apply (loop_cons_inv b rest fresh i c c' Hzb) in Hrun
      as [(_ & _ & Hrun) | (_ & _ & Hrun)].
    + exact (IH _ _ _ Hap Hz Hone Hrun).
    + apply (IH _ _ _ Hap Hz) in Hrun; [exact Hrun|].
      unfold one_hit. rewrite hits_app_other by (apply apart_doc; exact Hab).
      exact Hone.
Qed.

(** After a run that completed, every seed record selects exactly one
    document. *)
Lemma loop_settles (l : list BookStore) (fresh : nat -> ObjectID) :
  forall (i : nat) (c c' : collection),
    seeds_apart l = true ->
    zero_ids l = true ->
    prepareData_loop l fresh i c = (Ret tt, c') ->
    Forall (fun a => one_hit a c') l.
Proof.
  induction l as [|b rest IH]; intros i c c' Hap Hz Hrun; [constructor|].
  cbn [seeds_apart] in Hap. apply andb_true_iff in Hap as [Hb Hap].
  assert (Hb1 : forallb (fun x => apart b x) rest = true).
  { eapply forallb_impl; [|exact Hb]. intros x Hx. cbn beta in Hx.
    apply andb_true_iff in Hx. tauto. }
  unfold zero_ids in Hz. cbn [forallb] in Hz. apply andb_true_iff in Hz as [Hzb Hz].
  apply (loop_cons_inv b rest fresh i c c' Hzb) in Hrun
    as [(Hone & _ & Hrun) | (Hnone & _ & Hrun)].
  - constructor; [|exact (IH _ _ _ Hap Hz Hrun)].
    exact (loop_keeps_one_hit rest b fresh _ _ _ Hb1 Hz Hone Hrun).
  - constructor; [|exact (IH _ _ _ Hap Hz Hrun)].
    apply (loop_keeps_one_hit rest b fresh _ _ _ Hb1 Hz) in Hrun; [exact Hrun|].
    exists (with_ID (fresh i) b). rewrite hits_app_own, Hnone. reflexivity.
Qed.

(** When every seed record selects exactly one document the loop changes
    nothing and completes. *)
Lemma loop_noop (l : list BookStore) (fresh : nat -> ObjectID) (c : collection) :
  forall i : nat,
    zero_ids l = true ->
    Forall (fun a => one_hit a c) l ->
    prepareData_loop l fresh i c = (Ret tt, c).
Proof.
  induction l as [|b rest IH]; intros i Hz Hall; [reflexivity|].
  unfold zero_ids in Hz. cbn [forallb] in Hz. apply andb_true_iff in Hz as [Hzb Hz].
  inversion Hall as [|? ? [r Hr] Hrest]; subst.
  rewrite (loop_cons b rest fresh i c Hzb), Hr.
  cbn [length Nat.ltb Nat.leb Nat.eqb]. apply IH; assumption.
Qed.

Lemma missing_seeds_app (l : list BookStore) (fresh : nat -> ObjectID) (c : collection)
      (d : document) :
  forall i : nat,
    forallb (fun a => negb (matches (book_fields a) d)) l = true ->
    missing_seeds l fresh i (c ++ [d])%list = missing_seeds l fresh i c.
Proof.
  induction l as [|a rest IH]; intros i H; [reflexivity|].
  cbn [forallb] in H. apply andb_true_iff in H as [Ha H].
  apply negb_true_iff in Ha.
  cbn [missing_seeds]. rewrite hits_app_other by exact Ha. rewrite IH by exact H.
  reflexivity.
Qed.

(** What a completed run added. *)
Lemma loop_adds_missing (l : list BookStore) (fresh : nat -> ObjectID) :
  forall (i : nat) (c c' : collection),
    seeds_apart l = true ->
    zero_ids l = true ->
    prepareData_loop l fresh i c = (Ret tt, c') ->
    c' = (c ++ missing_seeds l fresh i c)%list.
Proof.
  induction l as [|b rest IH]; intros i c c' Hap Hz Hrun.
  - cbn in Hrun. injection Hrun as <-. cbn. rewrite app_nil_r. reflexivity.
  - cbn [seeds_apart] in Hap. apply andb_true_iff in Hap as [Hb Hap].
    unfold zero_ids in Hz. cbn [forallb] in Hz. apply andb_true_iff in Hz as [Hzb Hz].
    apply (loop_cons_inv b rest fresh i c c' Hzb) in Hrun
      as [(_ & (d & ds & Hd) & Hrun) | (Hnone & _ & Hrun)].
    + cbn [missing_seeds]. rewrite Hd. cbn [app].
      exact (IH _ _ _ Hap Hz Hrun).
    + cbn [missing_seeds]. rewrite Hnone.
      rewrite (IH _ _ _ Hap Hz Hrun).
      rewrite missing_seeds_app.
      * rewrite <- app_assoc. reflexivity.
      * eapply forallb_impl; [|exact Hb]. intros x Hx. cbn beta in Hx.
        apply andb_true_iff in Hx as [_ Hx]. cbn beta.
        rewrite (apart_doc x b (fresh i) Hx). reflexivity.
Qed.

Lemma startData_apart (s : service) : seeds_apart (startData_of s) = true.
Proof. destruct s; vm_compute; reflexivity. Qed.

Lemma startData_zero_ids (s : service) : zero_ids (startData_of s) = true.
Proof. destruct s; vm_compute; reflexivity. Qed.

Lemma id_taken_app (o o' : ObjectID) (b : BookStore) (c : collection) :
  id_taken o c = false -> o' <> o ->
  id_taken o (c ++ [inserted_doc o' b])%list = false.
Proof.
  intros Hc Hne. unfold id_taken in *. rewrite existsb_app, Hc.
  cbn [existsb orb inserted_doc get String.eqb Ascii.eqb Bool.eqb].
  rewrite bool_decide_eq_false_2; [reflexivity | congruence].
Qed.

(** The loop completes when no seed record selects anything and the
    identifiers the driver draws are new and pairwise different. *)
Lemma loop_completes (l : list BookStore) (fresh : nat -> ObjectID) :
  forall (i : nat) (c : collection),
    seeds_apart l = true ->
    zero_ids l = true ->
    Forall (fun b => hits b c = []) l ->
    Forall (fun j => id_taken (fresh j) c = false) (seq i (length l)) ->
    NoDup (map fresh (seq i (length l))) ->
    exists c', prepareData_loop l fresh i c = (Ret tt, c').
Proof.
  induction l as [|b rest IH]; intros i c Hap Hz Hh Ht Hnd.
  - exists c. reflexivity.
  - cbn [seeds_apart] in Hap. apply andb_true_iff in Hap as [Hb Hap].
    unfold zero_ids in Hz. cbn [forallb] in Hz. apply andb_true_iff in Hz as [Hzb Hz].
    inversion Hh as [|? ? Hhb Hhrest]; subst.
    cbn [length seq map] in Ht, Hnd.
    inversion Ht as [|? ? Htb Htrest]; subst.
    apply NoDup_cons in Hnd as [Hnotin Hnd].
    rewrite (loop_cons b rest fresh i c Hzb), Hhb.
    cbn [codec.decode_all length Nat.ltb Nat.leb Nat.eqb]. rewrite Htb.
    apply IH; try assumption.
    + apply Forall_forall. intros a Ha.
      rewrite hits_app_other.
      * rewrite Forall_forall in Hhrest. exact (Hhrest a Ha).
      * apply apart_doc.
        pose proof (forallb_elem_of _ rest a Hb Ha) as Hx. cbn beta in Hx.
        apply andb_true_iff in Hx. tauto.
    + apply Forall_forall. intros j Hj.
      apply id_taken_app.
      * rewrite Forall_forall in Htrest. exact (Htrest j Hj).
      * intros E. apply Hnotin. rewrite E. apply list_elem_of_fmap. eauto.
Qed.

Lemma books_of_prepareDatabase (db : database) :
  books_of (prepareDatabase db collecName) = books_of db.
Proof.
  unfold prepareDatabase, books_of. case_bool_decide as H; [reflexivity|].
  rewrite lookup_insert_eq. rewrite not_elem_of_dom in H. rewrite H. reflexivity.
Qed.

Lemma prepareData_of_startData (s : service) :
  prepareData_of s = prepareData_with (startData_of s).
Proof. destruct s; reflexivity. Qed.

Lemma startup_unfold (s : service) (fresh : nat -> ObjectID) (db : database) :
  startup s fresh db =
  ((prepareData_loop (startData_of s) fresh 0 (books_of db)).1,
   <[ collecName := (prepareData_loop (startData_of s) fresh 0 (books_of db)).2 ]>
     (prepareDatabase db collecName)).
Proof.
  unfold startup. rewrite prepareData_of_startData. unfold prepareData_with.
  fold (books_of (prepareDatabase db collecName)). rewrite books_of_prepareDatabase.
  destruct (prepareData_loop _ _ _ _). reflexivity.
Qed.

Lemma startup_run (s : service) (fresh : nat -> ObjectID) (db : database)
      (r : outcome unit) (c c' : collection) :
  books_of db = c ->
  prepareData_loop (startData_of s) fresh 0 c = (r, c') ->
  startup s fresh db = (r, <[ collecName := c' ]> (prepareDatabase db collecName)).
Proof. intros <- H. rewrite startup_unfold, H. reflexivity. Qed.

Lemma books_of_db_of (c : collection) : books_of (db_of c) = c.
Proof. unfold books_of, db_of. rewrite lookup_singleton_eq. reflexivity. Qed.

Lemma books_of_empty : books_of ∅ = [].
Proof. reflexivity. Qed.

Lemma books_of_insert (c : collection) (db : database) :
  books_of (<[ collecName := c ]> db) = c.
Proof. unfold books_of. rewrite lookup_insert_eq. reflexivity. Qed.

Lemma startup_inv (s : service) (fresh : nat -> ObjectID) (db db1 : database) :
  startup s fresh db = (Ret tt, db1) ->
  prepareData_loop (startData_of s) fresh 0 (books_of db) = (Ret tt, books_of db1) /\
  db1 !! collecName = Some (books_of db1).
Proof.
  rewrite startup_unfold.
  destruct (prepareData_loop _ _ _ _) as [r c'] eqn:E. cbn [fst snd].
  intros H. injection H as -> <-.
  rewrite books_of_insert, lookup_insert_eq. auto.
Qed.

(** A start-up after a completed start-up with the same seed records
    completes and changes nothing. *)
Lemma startup_idempotent (s s' : service) (fresh fresh' : nat -> ObjectID)
      (db db1 : database) :
  startup s fresh db = (Ret tt, db1) ->
  startData_of s' = startData_of s ->
  startup s' fresh' db1 = (Ret tt, db1).
Proof.
  intros H Hs. apply startup_inv in H as [Hrun Hdb].
  apply (loop_settles _ _ _ _ _ (startData_apart s) (startData_zero_ids s)) in Hrun.
  rewrite startup_unfold, Hs.
  rewrite (loop_noop _ fresh' (books_of db1) 0 (startData_zero_ids s) Hrun).
  cbn [fst snd]. f_equal.
  unfold prepareDatabase. rewrite bool_decide_eq_true_2.
  - apply insert_id. exact Hdb.
  - apply elem_of_dom. rewrite Hdb. eauto.
Qed.

(** A completed start-up appends one document for each seed record that
    selected nothing, and nothing else. *)
Lemma startup_adds_missing (s : service) (fresh : nat -> ObjectID) (db db1 : database) :
  startup s fresh db = (Ret tt, db1) ->
  books_of db1 = (books_of db ++ missing_seeds (startData_of s) fresh 0 (books_of db))%list.
Proof.
  intros H. apply startup_inv in H as [Hrun _].
  exact (loop_adds_missing _ _ _ _ _ (startData_apart s) (startData_zero_ids s) Hrun).
Qed.

Lemma startup_from_empty (s : service) (fresh : nat -> ObjectID) (db : database) :
  books_of db = [] ->
  NoDup [fresh 0%nat; fresh 1%nat; fresh 2%nat] ->
  exists db1, startup s fresh db = (Ret tt, db1) /\ books_of db1 = seed_docs s fresh.
Proof.
  intros He Hnd.
  destruct (loop_completes (startData_of s) fresh 0 []
              (startData_apart s) (startData_zero_ids s)) as [c' Hrun].
  - apply Forall_forall. intros b _. reflexivity.
  - apply Forall_forall. intros j _. reflexivity.
  - destruct s; exact Hnd.
  - pose proof (loop_adds_missing _ _ _ _ _ (startData_apart s) (startData_zero_ids s) Hrun)
      as Hc'.
    eexists. rewrite startup_unfold, He, Hrun. cbn [fst snd].
    split; [reflexivity|]. rewrite books_of_insert, Hc'.
    destruct s; reflexivity.
Qed.

(* ===================================================================== *)
(** ** Claims about start-up *)
(* ===================================================================== *)

(** C6, as stated, fails: on a collection that already holds another book
    two start-ups in a row complete and leave four records; on a collection
    that holds a seed record twice the start-up ends in [log.Fatal]. *)
Lemma startup_twice_counterexample :
  (exists db1 db2,
      startup DeleteSvc (fresh_from 1) (db_of [Dracula_doc]) = (Ret tt, db1) /\
      startup DeleteSvc (fresh_from 11) db1 = (Ret tt, db2) /\
      length (books_of db2) = 4%nat) /\
  (startup DeleteSvc (fresh_from 1)
           (db_of [inserted_doc (oid_of_N 100) The_Vortex;
                   inserted_doc (oid_of_N 101) The_Vortex])).1 = Exit.
Proof.
  split.
  - pose proof (startup_run DeleteSvc (fresh_from 1) (db_of [Dracula_doc]) (Ret tt)
                  [Dracula_doc] (Dracula_doc :: seed_docs DeleteSvc (fresh_from 1))
                  (books_of_db_of _)) as E1.
    assert (Hl : prepareData_loop (startData_of DeleteSvc) (fresh_from 1) 0 [Dracula_doc]
                 = (Ret tt, Dracula_doc :: seed_docs DeleteSvc (fresh_from 1)))
      by (vm_compute; reflexivity).
    specialize (E1 Hl).
    eexists _, _. split; [exact E1|]. split.
    + apply (startup_idempotent DeleteSvc DeleteSvc _ _ _ _ E1). reflexivity.
    + rewrite books_of_insert. reflexivity.
  - assert (Hl : prepareData_loop (startData_of DeleteSvc) (fresh_from 1) 0
                   [inserted_doc (oid_of_N 100) The_Vortex;
                    inserted_doc (oid_of_N 101) The_Vortex]
                 = (Exit, [inserted_doc (oid_of_N 100) The_Vortex;
                           inserted_doc (oid_of_N 101) The_Vortex]))
      by (vm_compute; reflexivity).
    rewrite (startup_run DeleteSvc (fresh_from 1) _ Exit _ _ (books_of_db_of _) Hl).
    reflexivity.
Qed.

Lemma forallb_impl2 {A} (p q r : A -> bool) (l : list A) :
  (forall x, p x = true -> q x = true -> r x = true) ->
  forallb p l = true -> forallb q l = true -> forallb r l = true.
Proof.
  intros Hpq. induction l as [|x l IH]; simpl; [reflexivity|].
  intros H1 H2. apply andb_true_iff in H1 as [Hx1 Hl1]. apply andb_true_iff in H2 as [Hx2 Hl2].
  rewrite Hpq, IH; auto.
Qed.

(** The loop completes when every seed record selects at most one document
    and the identifiers the driver draws are new and pairwise different. *)
Lemma loop_completes_at_most_once (l : list BookStore) (fresh : nat -> ObjectID) :
  forall (i : nat) (c : collection),
    seeds_apart l = true ->
    zero_ids l = true ->
    forallb (fun b => at_most_once b c) l = true ->
    Forall (fun j => id_taken (fresh j) c = false) (seq i (length l)) ->
    NoDup (map fresh (seq i (length l))) ->
    exists c', prepareData_loop l fresh i c = (Ret tt, c').
Proof.
  induction l as [|b rest IH]; intros i c Hap Hz Hh Ht Hnd.
  - exists c. reflexivity.
  - cbn [seeds_apart] in Hap. apply andb_true_iff in Hap as [Hb Hap].
    unfold zero_ids in Hz. cbn [forallb] in Hz. apply andb_true_iff in Hz as [Hzb Hz].
    cbn [forallb] in Hh. apply andb_true_iff in Hh as [Hhb Hhrest].
    cbn [length seq map] in Ht, Hnd.
    inversion Ht as [|? ? Htb Htrest]; subst.
    apply NoDup_cons in Hnd as [Hnotin Hnd].
    rewrite (loop_cons b rest fresh i c Hzb).
    unfold at_most_once in Hhb.
    destruct (codec.decode_all (hits b c)) as [rs|] eqn:E; [|discriminate].
    destruct rs as [|r [|r' rs]]; cbn [length Nat.ltb Nat.leb Nat.eqb] in *;
      [| apply IH; assumption | discriminate].
    rewrite Htb. apply IH; try assumption.
    + refine (forallb_impl2 _ _ _ rest _ Hb Hhrest). intros a Ha Hone. cbn beta in *.
      apply andb_true_iff in Ha as [_ Ha].
      unfold at_most_once. rewrite hits_app_other by (apply apart_doc; exact Ha).
      exact Hone.
    + apply Forall_forall. intros j Hj.
      apply id_taken_app.
      * rewrite Forall_forall in Htrest. exact (Htrest j Hj).
      * intros E'. apply Hnotin. rewrite E'. apply list_elem_of_fmap. eauto.
Qed.

(** Two seed records with different names select different documents. *)
Lemma matches_other_name (a b : BookStore) (d : document) :
  BookName a <> BookName b ->
  matches (book_fields a) d = true -> matches (book_fields b) d = false.
Proof.
  intros Hne Ha. unfold matches, book_fields in *. cbn [forallb] in *.
  apply andb_true_iff in Ha as [Ha _].
  unfold match_elem in Ha |- * at 1. cbn [fst snd] in *.
  apply bool_decide_eq_true in Ha.
  rewrite bool_decide_eq_false_2; [reflexivity|].
  rewrite Ha. congruence.
Qed.

Lemma filter3_length {A} (p q r : A -> bool) (l : list A) :
  (forall x, p x = true -> q x = false) ->
  (forall x, p x = true -> r x = false) ->
  (forall x, q x = true -> r x = false) ->
  length (List.filter (fun x => p x || (q x || (r x || false))) l)
  = (length (List.filter p l) + length (List.filter q l) + length (List.filter r l))%nat.
Proof.
  intros Hpq Hpr Hqr. induction l as [|x l IH]; [reflexivity|].
  cbn [List.filter].
  destruct (p x) eqn:Ep.
  - rewrite (Hpq x Ep), (Hpr x Ep). cbn [orb length]. rewrite IH. lia.
  - destruct (q x) eqn:Eq.
    + rewrite (Hqr x Eq). cbn [orb length]. rewrite IH. lia.
    + destruct (r x); cbn [orb length]; rewrite IH; lia.
Qed.

(** When each seed record of a service selects exactly one document, the
    collection holds exactly three seed records. *)
Lemma three_seed_records (s : service) (c : collection) :
  (forall b, b ∈ startData_of s -> length (hits b c) = 1%nat) ->
  length (seed_records s c) = 3%nat.
Proof.
  intros H. unfold seed_records, is_seed_record.
  assert (exists x y z, startData_of s = [x; y; z] /\
            BookName x <> BookName y /\ BookName x <> BookName z /\
            BookName y <> BookName z) as (x & y & z & E & Hxy & Hxz & Hyz).
  { destruct s; eexists _, _, _; (split; [reflexivity|]); repeat split; discriminate. }
  rewrite E in H |- *. cbn [existsb].
  rewrite (filter3_length (matches (book_fields x)) (matches (book_fields y))
                          (matches (book_fields z))).
  - fold (hits x c) (hits y c) (hits z c).
    rewrite (H x), (H y), (H z); [reflexivity| | |].
    + do 2 apply list_elem_of_further. apply list_elem_of_here.
    + apply list_elem_of_further, list_elem_of_here.
    + apply list_elem_of_here.
  - intros d. apply matches_other_name, Hxy.
  - intros d. apply matches_other_name, Hxz.
  - intros d. apply matches_other_name, Hyz.
Qed.

(** What a run adds are documents of the seed records. *)
Lemma missing_seeds_are_seeds (s : service) (l : list BookStore) (fresh : nat -> ObjectID)
      (c : collection) :
  forall i : nat,
    (forall b, b ∈ l -> b ∈ startData_of s) ->
    forallb (is_seed_record s) (missing_seeds l fresh i c) = true.
Proof.
  induction l as [|b rest IH]; intros i Hl; [reflexivity|].
  cbn [missing_seeds]. rewrite forallb_app.
  rewrite IH by (intros x Hx; apply Hl, list_elem_of_further, Hx).
  rewrite andb_true_r.
  destruct (hits b c); [|reflexivity].
  cbn [forallb]. rewrite andb_true_r.
  unfold is_seed_record. apply existsb_exists. exists b. split.
  - apply list_elem_of_In, Hl, list_elem_of_here.
  - apply matches_own_doc.
Qed.

(** C6, amended.  On a collection in which every seed record of the service
    selects at most one document, with the driver drawing new and pairwise
    different identifiers, one service's start-up run twice in a row leaves
    each of the three seed records in the collection exactly once: the first
    run completes and appends the seed records that were missing, the second
    run completes and changes nothing.  The documents that were there stay,
    so the collection holds three documents in all when it held nothing but
    seed records before (the empty collection included). *)
Theorem startup_twice (s : service) (fresh fresh' : nat -> ObjectID) (db : database) :
  forallb (fun b => at_most_once b (books_of db)) (startData_of s) = true ->
  forallb (fun j => negb (id_taken (fresh j) (books_of db))) [0; 1; 2]%nat = true ->
  NoDup [fresh 0%nat; fresh 1%nat; fresh 2%nat] ->
  exists db1,
    startup s fresh db = (Ret tt, db1) /\
    startup s fresh' db1 = (Ret tt, db1) /\
    (forall b, b ∈ startData_of s -> exists d, hits b (books_of db1) = [d]) /\
    length (seed_records s (books_of db1)) = 3%nat /\
    books_of db1
      = (books_of db ++ missing_seeds (startData_of s) fresh 0 (books_of db))%list /\
    (forallb (is_seed_record s) (books_of db) = true -> length (books_of db1) = 3%nat).
Proof.
  intros Hseeds Hnew Hnd.
  destruct (loop_completes_at_most_once (startData_of s) fresh 0 (books_of db)
              (startData_apart s) (startData_zero_ids s) Hseeds) as [c' Hrun].
  - replace (seq 0 (length (startData_of s))) with [0; 1; 2]%nat by (destruct s; reflexivity).
    apply Forall_forall. intros j Hj.
    apply negb_true_iff. exact (forallb_elem_of _ _ j Hnew Hj).
  - replace (seq 0 (length (startData_of s))) with [0; 1; 2]%nat by (destruct s; reflexivity).
    exact Hnd.
  - pose proof (startup_run s fresh db (Ret tt) (books_of db) c' eq_refl Hrun) as H1.
    eexists. split; [exact H1|].
    rewrite books_of_insert.
    assert (Hone : forall b, b ∈ startData_of s -> exists d, hits b c' = [d]).
    { pose proof (loop_settles _ _ _ _ _ (startData_apart s) (startData_zero_ids s) Hrun)
        as Hs.
      intros b Hb. rewrite Forall_forall in Hs. destruct (Hs b Hb) as [r Hr].
      pose proof (decode_all_length _ _ Hr) as Hlen.
      destruct (hits b c') as [|d [|d' ds]]; try discriminate. eauto. }
    assert (Hc' : c' = (books_of db ++ missing_seeds (startData_of s) fresh 0 (books_of db))%list)
      by exact (loop_adds_missing _ _ _ _ _ (startData_apart s) (startData_zero_ids s) Hrun).
    assert (H3 : length (seed_records s c') = 3%nat).
    { apply three_seed_records. intros b Hb. destruct (Hone b Hb) as [d ->]. reflexivity. }
    split; [exact (startup_idempotent s s fresh fresh' db _ H1 eq_refl)|].
    split; [exact Hone|]. split; [exact H3|]. split; [exact Hc'|].
    intros Hall. rewrite <- H3. unfold seed_records. rewrite filter_all; [reflexivity|].
    rewrite Hc', forallb_app, Hall.
    apply missing_seeds_are_seeds. auto.
Qed.

Lemma startup_twice_witness :
  forallb (fun b => at_most_once b (books_of (db_of Frankenstein_only)))
          (startData_of DeleteSvc) = true /\
  forallb (fun j => negb (id_taken (fresh_from 1 j) (books_of (db_of Frankenstein_only))))
          [0; 1; 2]%nat = true /\
  NoDup [fresh_from 1 0%nat; fresh_from 1 1%nat; fresh_from 1 2%nat] /\
  startup DeleteSvc (fresh_from 1) (db_of Frankenstein_only)
    = (Ret tt, <[ collecName := after_startup ]>
                 (prepareDatabase (db_of Frankenstein_only) collecName)) /\
  startup DeleteSvc (fresh_from 11)
          (<[ collecName := after_startup ]>
             (prepareDatabase (db_of Frankenstein_only) collecName))
    = (Ret tt, <[ collecName := after_startup ]>
                 (prepareDatabase (db_of Frankenstein_only) collecName)) /\
  length (seed_records DeleteSvc after_startup) = 3%nat /\
  length after_startup = 3%nat.
Proof.
  assert (H1 : forallb (fun b => at_most_once b (books_of (db_of Frankenstein_only)))
                       (startData_of DeleteSvc) = true) by (vm_compute; reflexivity).
  assert (H2 : forallb (fun j => negb (id_taken (fresh_from 1 j)
                                          (books_of (db_of Frankenstein_only))))
                       [0; 1; 2]%nat = true) by (vm_compute; reflexivity).
  assert (H3 : NoDup [fresh_from 1 0%nat; fresh_from 1 1%nat; fresh_from 1 2%nat]).
  { apply (bool_decide_eq_true_1 _). vm_compute. reflexivity. }
  assert (Hl : prepareData_loop (startData_of DeleteSvc) (fresh_from 1) 0 Frankenstein_only
               = (Ret tt, after_startup)) by (vm_compute; reflexivity).
  pose proof (startup_run DeleteSvc (fresh_from 1) _ _ _ _ (books_of_db_of _) Hl) as E.
  assert (H4 : forallb (is_seed_record DeleteSvc) (books_of (db_of Frankenstein_only)) = true)
    by (vm_compute; reflexivity).
  split; [exact H1|]. split; [exact H2|]. split; [exact H3|].
  destruct (startup_twice DeleteSvc (fresh_from 1) (fresh_from 11) (db_of Frankenstein_only)
              H1 H2 H3) as (db1 & E1 & E2 & _ & Hn & _ & Hlen).
  rewrite E in E1. injection E1 as <-.
  rewrite books_of_insert in Hn, Hlen.
  split; [exact E|]. split; [exact E2|]. split; [exact Hn|]. exact (Hlen H4).
Defined.

(** C7 fails on the code: the POST service seeds "The Vortex" with the
    author name encoded twice, so after a start-up of the POST service and one
    of the DELETE service on an empty database both complete, the collection
    holds two records with name "The Vortex" and year 1924, and GET
    /api/books lists both. *)
Theorem Vortex_seeded_twice :
  exists (db : database) (listed : list BookDTO.t),
    startups [(PostSvc, fresh_from 1); (DeleteSvc, fresh_from 11)] ∅ = (Ret tt, db) /\
    Frontend.GET_api_books (books_of db) = (Ret (JSON StatusOK (JBooks listed)), books_of db) /\
    length (List.filter is_Vortex_1924 listed) = 2%nat.
Proof.
  destruct (startup_from_empty PostSvc (fresh_from 1) ∅ books_of_empty) as (db1 & H1 & Hb1).
  { apply (bool_decide_eq_true_1 _). vm_compute. reflexivity. }
  pose proof (startup_run DeleteSvc (fresh_from 11) db1 (Ret tt)
                (seed_docs PostSvc (fresh_from 1))
                (seed_docs PostSvc (fresh_from 1)
                 ++ [inserted_doc (fresh_from 11 0) The_Vortex])%list Hb1) as E2.
  assert (Hl : prepareData_loop (startData_of DeleteSvc) (fresh_from 11) 0
                 (seed_docs PostSvc (fresh_from 1))
               = (Ret tt, (seed_docs PostSvc (fresh_from 1)
                           ++ [inserted_doc (fresh_from 11 0) The_Vortex])%list))
    by (vm_compute; reflexivity).
  specialize (E2 Hl).
  eexists _, _. split; [|split].
  - cbn [startups]. rewrite H1, E2. reflexivity.
  - rewrite books_of_insert. vm_compute. reflexivity.
  - vm_compute. reflexivity.
Qed.

(** Start-ups of services that share their seed records never duplicate
    them: from an empty database any number of runs of the frontend and of
    the DELETE service leaves the three seed documents of the first run. *)
Lemma startups_same_seed (runs : list (service * (nat -> ObjectID))) :
  forall (s : service) (fresh : nat -> ObjectID) (db : database),
    Forall (fun run => startData_of run.1 = startData_of s) runs ->
    books_of db = [] ->
    NoDup [fresh 0%nat; fresh 1%nat; fresh 2%nat] ->
    exists db1,
      startups ((s, fresh) :: runs) db = (Ret tt, db1) /\
      books_of db1 = seed_docs s fresh.
Proof.
  intros s fresh db Hruns He Hnd.
  destruct (startup_from_empty s fresh db He Hnd) as (db1 & H1 & Hb).
  exists db1. split; [|exact Hb].
  cbn [startups]. rewrite H1. clear He Hnd Hb.
  induction Hruns as [|[s' fresh'] runs Hs' _ IH]; [reflexivity|].
  cbn [startups]. cbn [fst] in Hs'.
  rewrite (startup_idempotent s s' fresh fresh' db db1 H1 Hs'). exact IH.
Qed.

(* ===================================================================== *)
(** ** The existence check of POST, read on the stored fields *)
(* ===================================================================== *)

Lemma matches_marshalM (m : bsonM) (d : document) :
  matches (marshalM m) d = true <->
  forall k v, m !! k = Some v -> match_elem d (k, v) = true.
Proof.
  unfold matches, marshalM. rewrite forallb_forall. split.
  - intros H k v Hkv. apply H, list_elem_of_In, elem_of_map_to_list. exact Hkv.
  - intros H [k v] Hin. apply H. apply elem_of_map_to_list, list_elem_of_In. exact Hin.
Qed.

Lemma match_string_field (d : document) (k s : string) :
  match_elem d (k, VString s) = true <-> field k d = Some (VString s).
Proof. unfold match_elem. cbn [snd fst]. apply bool_decide_eq_true. Qed.

Lemma match_int_field (d : document) (k : string) (n : Z) :
  match_elem d (k, VInt n) = true <-> field k d = Some (VInt n).
Proof. unfold match_elem. cbn [snd fst]. apply bool_decide_eq_true. Qed.

(** On a document as inserted, the existence check succeeds exactly when
    every non-empty string and non-zero integer of the payload equals the
    stored field. *)
Lemma existence_check_on_inserted (book : PostBookDTO.t) (o : ObjectID) (b : BookStore) :
  matches (marshalM (PostService.objToComapare book)) (inserted_doc o b) = true <->
  (PostBookDTO.Name book = EmptyString \/ PostBookDTO.Name book = BookName b) /\
  (PostBookDTO.Author book = EmptyString \/ PostBookDTO.Author book = BookAuthor b) /\
  (PostBookDTO.Pages book = 0 \/ PostBookDTO.Pages book = BookPages b) /\
  (PostBookDTO.Year book = 0 \/ PostBookDTO.Year book = BookYear b) /\
  (PostBookDTO.Isbn book = EmptyString \/ PostBookDTO.Isbn book = BookISBN b).
Proof.
  rewrite matches_marshalM. split.
  - intros H.
    pose proof (H "bookname") as Hn. pose proof (H "bookauthor") as Ha.
    pose proof (H "bookpages") as Hp. pose proof (H "bookyear") as Hy.
    pose proof (H "bookisbn") as Hi.
    rewrite objToComapare_lookup in Hn, Ha, Hp, Hy, Hi.
    repeat split.
    + destruct (String.eqb_spec (PostBookDTO.Name book) ""); [auto|right].
      specialize (Hn _ eq_refl). apply match_string_field in Hn.
      assert (Some (VString (BookName b)) = Some (VString (PostBookDTO.Name book))) as E by exact Hn.
      congruence.
    + destruct (String.eqb_spec (PostBookDTO.Author book) ""); [auto|right].
      specialize (Ha _ eq_refl). apply match_string_field in Ha.
      assert (Some (VString (BookAuthor b)) = Some (VString (PostBookDTO.Author book))) as E by exact Ha.
      congruence.
    + destruct (Z.eqb_spec (PostBookDTO.Pages book) 0); [auto|right].
      specialize (Hp _ eq_refl). apply match_int_field in Hp.
      assert (Some (VInt (BookPages b)) = Some (VInt (PostBookDTO.Pages book))) as E by exact Hp.
      congruence.
    + destruct (Z.eqb_spec (PostBookDTO.Year book) 0); [auto|right].
      specialize (Hy _ eq_refl). apply match_int_field in Hy.
      assert (Some (VInt (BookYear b)) = Some (VInt (PostBookDTO.Year book))) as E by exact Hy.
      congruence.
    + destruct (String.eqb_spec (PostBookDTO.Isbn book) ""); [auto|right].
      specialize (Hi _ eq_refl). apply match_string_field in Hi.
      assert (Some (VString (BookISBN b)) = Some (VString (PostBookDTO.Isbn book))) as E by exact Hi.
      congruence.
  - intros (Hn & Ha & Hp & Hy & Hi) k v. rewrite objToComapare_lookup.
    repeat (destruct (decide _) as [<-|?]).
    + destruct (String.eqb_spec (PostBookDTO.Isbn book) ""); [discriminate|].
      intros E. injection E as <-. apply match_string_field.
      destruct Hi as [Hi|Hi]; [contradiction|]. rewrite Hi. reflexivity.
    + destruct (Z.eqb_spec (PostBookDTO.Year book) 0); [discriminate|].
      intros E. injection E as <-. apply match_int_field.
      destruct Hy as [Hy|Hy]; [contradiction|]. rewrite Hy. reflexivity.
    + destruct (Z.eqb_spec (PostBookDTO.Pages book) 0); [discriminate|].
      intros E. injection E as <-. apply match_int_field.
      destruct Hp as [Hp|Hp]; [contradiction|]. rewrite Hp. reflexivity.
    + destruct (String.eqb_spec (PostBookDTO.Author book) ""); [discriminate|].
      intros E. injection E as <-. apply match_string_field.
      destruct Ha as [Ha|Ha]; [contradiction|]. rewrite Ha. reflexivity.
    + destruct (String.eqb_spec (PostBookDTO.Name book) ""); [discriminate|].
      intros E. injection E as <-. apply match_string_field.
      destruct Hn as [Hn|Hn]; [contradiction|]. rewrite Hn. reflexivity.
    + discriminate.
Qed.

(* ===================================================================== *)
(** ** Book collections are what the services maintain *)
(* ===================================================================== *)

Lemma book_collection_nil : book_collection [] = true.
Proof. apply andb_true_iff. split; [reflexivity|]. apply bool_decide_eq_true_2. constructor. Qed.

Lemma book_collection_intro (c : collection) :
  forallb is_book_document c = true -> NoDup (map (get "_id") c) -> book_collection c = true.
Proof.
  intros H1 H2. apply andb_true_iff. split; [exact H1|].
  apply bool_decide_eq_true_2. exact H2.
Qed.

Lemma book_collection_snoc (c : collection) (o : ObjectID) (b : BookStore) :
  book_collection c = true -> o <> NilObjectID -> id_taken o c = false ->
  book_collection (c ++ [inserted_doc o b])%list = true.
Proof.
  intros Hc Ho Ht. apply book_collection_intro.
  - rewrite forallb_app, (book_collection_docs c Hc). cbn [forallb].
    rewrite is_book_document_inserted by exact Ho. reflexivity.
  - rewrite map_app. apply NoDup_app. split; [apply book_collection_NoDup, Hc|].
    split; [|apply NoDup_singleton].
    intros x Hx Hx'. cbn in Hx'. apply list_elem_of_singleton in Hx'. subst x.
    apply list_elem_of_fmap in Hx as (d & Hd & Hin).
    assert (id_taken o c = true) as Ht'; [|congruence].
    apply existsb_exists. exists d. split; [apply list_elem_of_In, Hin|].
    apply bool_decide_eq_true_2. congruence.
Qed.

Lemma book_collection_remove (l1 l2 : collection) (d : document) :
  book_collection (l1 ++ d :: l2)%list = true -> book_collection (l1 ++ l2)%list = true.
Proof.
  intros Hc. pose proof (book_collection_docs _ Hc) as Hd.
  pose proof (book_collection_NoDup _ Hc) as Hn.
  rewrite forallb_app in Hd. cbn [forallb] in Hd.
  apply andb_true_iff in Hd as [H1 H2]. apply andb_true_iff in H2 as [_ H2].
  rewrite map_app in Hn. cbn [map] in Hn.
  apply NoDup_app in Hn as (N1 & N2 & N3). apply NoDup_cons in N3 as [_ N3].
  apply book_collection_intro.
  - rewrite forallb_app, H1, H2. reflexivity.
  - rewrite map_app. apply NoDup_app. repeat split; [exact N1| |exact N3].
    intros x Hx Hx'. apply (N2 x Hx). apply list_elem_of_further. exact Hx'.
Qed.

Lemma POST_keeps_book_collection (bound : option PostBookDTO.t) (fresh : ObjectID)
      (c : collection) :
  fresh <> NilObjectID -> book_collection c = true ->
  book_collection (PostService.POST_api_books bound fresh c).2 = true.
Proof.
  intros Hf Hc. destruct bound as [book|]; [|exact Hc].
  rewrite POST_bound.
  assert (Hi : book_collection (insert_path book fresh c).2 = true).
  { unfold insert_path. fold (id_taken fresh c).
    destruct (id_taken fresh c) eqn:Ht; cbn [snd]; [exact Hc|].
    apply book_collection_snoc; assumption. }
  destruct (find _ c) as [d|]; [destruct (codec.Unmarshal d)|]; try exact Hi.
  exact Hc.
Qed.

Lemma PUT_keeps_book_collection (u : BookDTO.t) (c : collection) :
  book_collection c = true ->
  book_collection (Frontend.PUT_api_books (Some u) c).2 = true.
Proof.
  intros Hc. rewrite PUT_bound. cbn [snd].
  pose proof (book_collection_docs c Hc) as Hb.
  pose proof (book_collection_NoDup c Hc) as Hnd.
  destruct (decode_all_books c Hb) as (rs & _ & F).
  destruct (update_first_books (ObjectIDFromHex (BookDTO.Id u)).1 u c rs Hb Hnd F)
    as (Hb' & Hids & _).
  apply book_collection_intro; [exact Hb'|]. rewrite Hids. exact Hnd.
Qed.

Lemma DELETE_keeps_book_collection (id : string) (c : collection) :
  book_collection c = true ->
  book_collection (DeleteService.DELETE_api_books id c).2 = true.
Proof.
  intros Hc. unfold DeleteService.DELETE_api_books. rewrite DELETE_cases.
  destruct (delete_first (matches [("id", VString id)]) c) as [c1|] eqn:E1.
  - apply delete_first_Some in E1 as (l1 & d & l2 & -> & -> & _).
    exact (book_collection_remove l1 l2 d Hc).
  - destruct (key_ok id); [|exact Hc].
    destruct (delete_first (matches [(id, VNull)]) c) as [c2|] eqn:E2; [|exact Hc].
    apply delete_first_Some in E2 as (l1 & d & l2 & -> & -> & _).
    exact (book_collection_remove l1 l2 d Hc).
Qed.

Lemma prepareData_keeps_book_collection (l : list BookStore) (fresh : nat -> ObjectID) :
  forall (i : nat) (c c' : collection),
    zero_ids l = true ->
    (forall j, fresh j <> NilObjectID) ->
    book_collection c = true ->
    prepareData_loop l fresh i c = (Ret tt, c') ->
    book_collection c' = true.
Proof.
  induction l as [|b rest IH]; intros i c c' Hz Hf Hc Hrun.
  - cbn in Hrun. injection Hrun as <-. exact Hc.
  - unfold zero_ids in Hz. cbn [forallb] in Hz. apply andb_true_iff in Hz as [Hzb Hz].
    apply (loop_cons_inv b rest fresh i c c' Hzb) in Hrun
      as [(_ & _ & Hrun) | (_ & Ht & Hrun)].
    + exact (IH _ _ _ Hz Hf Hc Hrun).
    + apply (IH _ _ _ Hz Hf) in Hrun; [exact Hrun|].
      apply book_collection_snoc; auto.
Qed.


(* ===================================================================== *)
(** ** Further properties: the struct codec *)
(* ===================================================================== *)

Lemma IsZero_Nil (o : ObjectID) : IsZero o = true -> o = NilObjectID.
Proof.
  unfold IsZero. intros H. apply bool_decide_eq_true in H.
  apply ObjectID_ext. exact H.
Qed.

(** X1.  Encoding a BookStore and decoding the document gives the record
    back, whether its identifier is zero (and left out of the document) or
    not. *)
Theorem Unmarshal_Marshal (b : BookStore) : codec.Unmarshal (codec.Marshal b) = Some b.
Proof.
  unfold codec.Marshal. destruct (IsZero (ID b)) eqn:E.
  - apply IsZero_Nil in E. destruct b as [o n a i p y]. cbn in E. subst o. reflexivity.
  - destruct b as [o n a i p y]. reflexivity.
Qed.

(* ===================================================================== *)
(** ** Further properties: POST *)
(* ===================================================================== *)

Lemma existsb_find {A} (p : A -> bool) (l : list A) :
  existsb p l = match find p l with Some _ => true | None => false end.
Proof.
  induction l as [|x l IH]; cbn; [reflexivity|]. destruct (p x); [reflexivity | exact IH].
Qed.

(** POST on a book collection: the existence check decides. *)
Lemma POST_on_books (book : PostBookDTO.t) (fresh : ObjectID) (c : collection) :
  forallb is_book_document c = true ->
  PostService.POST_api_books (Some book) fresh c =
  if existsb (matches (marshalM (PostService.objToComapare book))) c
  then (Ret (not_modified book), c)
  else insert_path book fresh c.
Proof.
  intros Hb. rewrite POST_bound, existsb_find.
  destruct (find _ c) as [d|] eqn:E; [|reflexivity].
  apply find_some in E as [Hin _]. apply list_elem_of_In in Hin.
  destruct (book_decodes d (forallb_elem_of _ c d Hb Hin)) as (r & Hr & _).
  unfold record_of in Hr. rewrite Hr. reflexivity.
Qed.

Lemma own_payload_matches (book : PostBookDTO.t) (o : ObjectID) :
  matches (marshalM (PostService.objToComapare book)) (inserted_doc o (bookStore_of book))
  = true.
Proof. apply existence_check_on_inserted. cbn. repeat split; right; reflexivity. Qed.

Lemma find_app_none {A} (p : A -> bool) (l k : list A) :
  find p l = None -> find p (l ++ k)%list = find p k.
Proof.
  induction l as [|x l IH]; cbn; [reflexivity|]. destruct (p x); [discriminate | exact IH].
Qed.

(** X2.  The same payload posted again is refused: after a POST that
    answered 200 on a book collection, a second POST of that payload answers
    304 with the payload and inserts nothing, whatever identifier the driver
    would draw. *)
Theorem POST_again_is_refused (book : PostBookDTO.t) (fresh fresh' : ObjectID)
        (c c' : collection) (answer : body) :
  book_collection c = true ->
  PostService.POST_api_books (Some book) fresh c = (Ret (JSON StatusOK answer), c') ->
  PostService.POST_api_books (Some book) fresh' c'
    = (Ret (JSON StatusNotModified (JPostBook book)), c').
Proof.
  intros Hc H1. pose proof (book_collection_docs c Hc) as Hb.
  rewrite (POST_on_books book fresh c Hb), existsb_find in H1.
  destruct (find _ c) eqn:Ef; [discriminate|].
  unfold insert_path in H1. destruct (existsb _ c); [discriminate|].
  injection H1 as _ <-.
  rewrite POST_bound, (find_app_none _ c _ Ef). cbn [find].
  rewrite own_payload_matches. reflexivity.
Qed.

Lemma POST_again_is_refused_witness :
  book_collection sample_books = true /\
  PostService.POST_api_books (Some novel_post) (oid_of_N 9) sample_books
    = (Ret (JSON StatusOK (JBook (BookDTO.mk (Hex (oid_of_N 9)) "Dracula" "Bram Stoker"
                                              418 1897 EmptyString))),
       (sample_books ++ [inserted_doc (oid_of_N 9) (bookStore_of novel_post)])%list) /\
  PostService.POST_api_books (Some novel_post) (oid_of_N 10)
      (sample_books ++ [inserted_doc (oid_of_N 9) (bookStore_of novel_post)])%list
    = (Ret (JSON StatusNotModified (JPostBook novel_post)),
       (sample_books ++ [inserted_doc (oid_of_N 9) (bookStore_of novel_post)])%list).
Proof.
  assert (H1 : book_collection sample_books = true) by (vm_compute; reflexivity).
  assert (H2 : PostService.POST_api_books (Some novel_post) (oid_of_N 9) sample_books
    = (Ret (JSON StatusOK (JBook (BookDTO.mk (Hex (oid_of_N 9)) "Dracula" "Bram Stoker"
                                              418 1897 EmptyString))),
       (sample_books ++ [inserted_doc (oid_of_N 9) (bookStore_of novel_post)])%list))
    by (vm_compute; reflexivity).
  split; [exact H1|]. split; [exact H2|].
  exact (POST_again_is_refused novel_post (oid_of_N 9) (oid_of_N 10) _ _ _ H1 H2).
Defined.

(** X3.  A payload that names only some fields is taken for a duplicate
    of any inserted record that agrees on those fields: when every non-empty
    string and non-zero integer of the payload equals the field of a record
    stored in a book collection, POST answers 304 and inserts nothing, however
    the other fields of the record read. *)
Theorem POST_partial_payload_is_refused (book : PostBookDTO.t) (fresh o : ObjectID)
        (b : BookStore) (c : collection) :
  book_collection c = true ->
  inserted_doc o b ∈ c ->
  (PostBookDTO.Name book = EmptyString \/ PostBookDTO.Name book = BookName b) ->
  (PostBookDTO.Author book = EmptyString \/ PostBookDTO.Author book = BookAuthor b) ->
  (PostBookDTO.Pages book = 0 \/ PostBookDTO.Pages book = BookPages b) ->
  (PostBookDTO.Year book = 0 \/ PostBookDTO.Year book = BookYear b) ->
  (PostBookDTO.Isbn book = EmptyString \/ PostBookDTO.Isbn book = BookISBN b) ->
  PostService.POST_api_books (Some book) fresh c
    = (Ret (JSON StatusNotModified (JPostBook book)), c).
Proof.
  intros Hc Hin Hn Ha Hp Hy Hi.
  rewrite (POST_on_books book fresh c (book_collection_docs c Hc)).
  replace (existsb _ c) with true; [reflexivity|].
  symmetry. apply existsb_exists. exists (inserted_doc o b).
  split; [apply list_elem_of_In, Hin|].
  apply existence_check_on_inserted. tauto.
Qed.

Lemma POST_partial_payload_is_refused_witness :
  book_collection sample_books = true /\
  inserted_doc (oid_of_N 171) Frankenstein ∈ sample_books /\
  PostService.POST_api_books (Some sample_post) (oid_of_N 9) sample_books
    = (Ret (JSON StatusNotModified (JPostBook sample_post)), sample_books).
Proof.
  assert (H1 : book_collection sample_books = true) by (vm_compute; reflexivity).
  assert (H2 : inserted_doc (oid_of_N 171) Frankenstein ∈ sample_books)
    by (unfold sample_books; apply list_elem_of_further, list_elem_of_here).
  split; [exact H1|]. split; [exact H2|].
  apply (POST_partial_payload_is_refused sample_post (oid_of_N 9) (oid_of_N 171)
           Frankenstein sample_books H1 H2).
  - left; reflexivity.
  - right; reflexivity.
  - left; reflexivity.
  - right; reflexivity.
  - left; reflexivity.
Defined.

Lemma objToComapare_empty : PostService.objToComapare empty_post = ∅.
Proof. reflexivity. Qed.

(** X4.  A payload without any field builds the empty filter, which every
    document matches: on a book collection that is not empty POST answers it
    with 304 and inserts nothing, and on the empty collection POST inserts a
    record of empty fields and answers 200. *)
Theorem POST_empty_payload (fresh : ObjectID) (c : collection) :
  book_collection c = true ->
  PostService.POST_api_books (Some empty_post) fresh c =
  match c with
  | [] => (Ret (created fresh empty_post), [inserted_doc fresh (bookStore_of empty_post)])
  | _ :: _ => (Ret (not_modified empty_post), c)
  end.
Proof.
  intros Hc. rewrite (POST_on_books _ fresh c (book_collection_docs c Hc)).
  rewrite objToComapare_empty. unfold marshalM. rewrite map_to_list_empty.
  destruct c as [|d rest]; reflexivity.
Qed.

Lemma POST_empty_payload_witness :
  book_collection sample_books = true /\
  PostService.POST_api_books (Some empty_post) (oid_of_N 9) sample_books
    = (Ret (not_modified empty_post), sample_books).
Proof.
  assert (H1 : book_collection sample_books = true) by (vm_compute; reflexivity).
  split; [exact H1|].
  exact (POST_empty_payload (oid_of_N 9) sample_books H1).
Defined.

(** X5.  When no document matches the payload and the identifier drawn is
    already the key of a document, the insert fails and POST answers 304 with
    the text "invalid on insertion"; the collection is unchanged. *)
Theorem POST_insert_error (book : PostBookDTO.t) (fresh : ObjectID) (c : collection) :
  forallb (fun d => negb (matches (marshalM (PostService.objToComapare book)) d)) c = true ->
  id_taken fresh c = true ->
  PostService.POST_api_books (Some book) fresh c
    = (Ret (JSON StatusNotModified (JString "invalid on insertion")), c).
Proof.
  intros Hnone Ht. rewrite POST_bound, (find_none_all _ c Hnone).
  unfold insert_path. fold (id_taken fresh c). rewrite Ht. reflexivity.
Qed.

Lemma POST_insert_error_witness :
  forallb (fun d => negb (matches (marshalM (PostService.objToComapare novel_post)) d))
          sample_books = true /\
  id_taken (oid_of_N 171) sample_books = true /\
  PostService.POST_api_books (Some novel_post) (oid_of_N 171) sample_books
    = (Ret (JSON StatusNotModified (JString "invalid on insertion")), sample_books).
Proof.
  assert (H1 : forallb (fun d => negb (matches (marshalM (PostService.objToComapare
                                                            novel_post)) d))
                       sample_books = true) by (vm_compute; reflexivity).
  assert (H2 : id_taken (oid_of_N 171) sample_books = true) by (vm_compute; reflexivity).
  split; [exact H1|]. split; [exact H2|].
  exact (POST_insert_error novel_post (oid_of_N 171) sample_books H1 H2).
Defined.

(** The POST handler of the frontend on a bound request. *)
Lemma Frontend_POST_bound (book : PostBookDTO.t) (fresh : ObjectID) (c : collection) :
  Frontend.POST_api_books (Some book) fresh c =
  if id_taken fresh c
  then (Ret (JSON StatusNotModified (JString "invalid id")), c)
  else (Ret (created fresh book), (c ++ [inserted_doc fresh (bookStore_of book)])%list).
Proof.
  unfold Frontend.POST_api_books. fold (bookStore_of book).
  rewrite (Marshal_zero (bookStore_of book)) by reflexivity.
  unfold mbind, Store_bind. rewrite InsertOne_fields. fold (id_taken fresh c).
  destruct (id_taken fresh c); reflexivity.
Qed.

(** X6.  The POST handler of the frontend has no existence check: the same
    payload posted twice, with two new identifiers, is inserted twice, and
    both requests are answered 200; the two documents decode to the same
    fields under the two identifiers. *)
Theorem Frontend_POST_inserts_duplicates (book : PostBookDTO.t) (fresh1 fresh2 : ObjectID)
        (c : collection) :
  id_taken fresh1 c = false ->
  id_taken fresh2 c = false ->
  fresh1 <> fresh2 ->
  exists d1 d2 : document,
    Frontend.POST_api_books (Some book) fresh1 c
      = (Ret (created fresh1 book), (c ++ [d1])%list) /\
    Frontend.POST_api_books (Some book) fresh2 (c ++ [d1])%list
      = (Ret (created fresh2 book), (c ++ [d1; d2])%list) /\
    record_of d1 = Some (with_ID fresh1 (bookStore_of book)) /\
    record_of d2 = Some (with_ID fresh2 (bookStore_of book)).
Proof.
  intros H1 H2 Hne.
  exists (inserted_doc fresh1 (bookStore_of book)), (inserted_doc fresh2 (bookStore_of book)).
  split; [|split; [|split; reflexivity]].
  - rewrite Frontend_POST_bound, H1. reflexivity.
  - rewrite Frontend_POST_bound, (id_taken_app fresh2 fresh1 _ c H2 Hne).
    rewrite <- app_assoc. reflexivity.
Qed.

Lemma Frontend_POST_inserts_duplicates_witness :
  id_taken (oid_of_N 9) sample_books = false /\
  id_taken (oid_of_N 10) sample_books = false /\
  oid_of_N 9 <> oid_of_N 10 /\
  exists d1 d2 : document,
    Frontend.POST_api_books (Some sample_post) (oid_of_N 9) sample_books
      = (Ret (created (oid_of_N 9) sample_post), (sample_books ++ [d1])%list) /\
    Frontend.POST_api_books (Some sample_post) (oid_of_N 10) (sample_books ++ [d1])%list
      = (Ret (created (oid_of_N 10) sample_post), (sample_books ++ [d1; d2])%list) /\
    record_of d1 = Some (with_ID (oid_of_N 9) (bookStore_of sample_post)) /\
    record_of d2 = Some (with_ID (oid_of_N 10) (bookStore_of sample_post)).
Proof.
  assert (H1 : id_taken (oid_of_N 9) sample_books = false) by (vm_compute; reflexivity).
  assert (H2 : id_taken (oid_of_N 10) sample_books = false) by (vm_compute; reflexivity).
  assert (H3 : oid_of_N 9 <> oid_of_N 10).
  { apply (bool_decide_eq_false_1 _). vm_compute. reflexivity. }
  split; [exact H1|]. split; [exact H2|]. split; [exact H3|].
  exact (Frontend_POST_inserts_duplicates sample_post _ _ sample_books H1 H2 H3).
Defined.

(* ===================================================================== *)
(** ** Further properties: the handlers that list books *)
(* ===================================================================== *)

Lemma findAllBooks_decodable (c : collection) (rs : list BookStore) :
  forallb (matches [(EmptyString, VNull)]) c = true ->
  codec.decode_all c = Some rs ->
  Frontend.findAllBooks c = (Ret (map Frontend.book_map rs), c).
Proof.
  intros Hall E. unfold Frontend.findAllBooks.
  unfold mbind, Store_bind, Find.
  change (filter_ok [(EmptyString, VNull)]) with true. cbv iota.
  rewrite (filter_all _ c Hall). unfold codec.All. rewrite E. reflexivity.
Qed.

Lemma GET_decodable (c : collection) (rs : list BookStore) :
  forallb (matches [(EmptyString, VNull)]) c = true ->
  codec.decode_all c = Some rs ->
  Frontend.GET_api_books c = (Ret (JSON StatusOK (JBooks (map view rs))), c).
Proof.
  intros Hall E. unfold Frontend.GET_api_books.
  unfold mbind at 1. unfold Store_bind at 1.
  rewrite (findAllBooks_decodable c rs Hall E).
  unfold mbind, Store_bind. rewrite payload_loop_book_map. reflexivity.
Qed.

Lemma decode_all_omap (c : collection) (rs : list BookStore) :
  codec.decode_all c = Some rs -> omap entry_of c = map view rs.
Proof.
  revert rs. induction c as [|d c IH]; intros rs; cbn [codec.decode_all].
  - intros E. injection E as <-. reflexivity.
  - destruct (codec.Unmarshal d) as [r|] eqn:Er; [|discriminate].
    destruct (codec.decode_all c) as [rs'|]; [|discriminate].
    intros E. injection E as <-.
    cbn [omap list_omap map]. unfold entry_of at 1, record_of. rewrite Er. cbn.
    f_equal. apply IH. reflexivity.
Qed.

(** GET /api/books on book documents, as a function of the collection. *)
Lemma GET_entries (c : collection) :
  forallb is_book_document c = true ->
  Frontend.GET_api_books c = (Ret (JSON StatusOK (JBooks (omap entry_of c))), c).
Proof.
  intros Hb. destruct (decode_all_books c Hb) as (rs & E & _).
  rewrite (decode_all_omap c rs E).
  apply GET_decodable; [|exact E].
  eapply forallb_impl; [apply book_matches_all | exact Hb].
Qed.

Lemma decode_all_snoc (c : collection) (rs : list BookStore) (d : document) (r : BookStore) :
  codec.decode_all c = Some rs -> codec.Unmarshal d = Some r ->
  codec.decode_all (c ++ [d])%list = Some (rs ++ [r])%list.
Proof.
  revert rs. induction c as [|x c IH]; intros rs E Hd; cbn [app codec.decode_all] in *.
  - injection E as <-. rewrite Hd. reflexivity.
  - destruct (codec.Unmarshal x); [|discriminate].
    destruct (codec.decode_all c) as [rs'|]; [|discriminate].
    injection E as <-. rewrite (IH rs' eq_refl Hd). reflexivity.
Qed.

(** X7.  What POST created shows in the next GET: after a POST that
    answered 200 on a book collection, GET /api/books lists the entries it
    listed before, in the same order, followed by the entry the POST answered
    with. *)
Theorem POST_then_GET (book : PostBookDTO.t) (fresh : ObjectID) (c c' : collection)
        (answer : body) :
  book_collection c = true ->
  PostService.POST_api_books (Some book) fresh c = (Ret (JSON StatusOK answer), c') ->
  exists (before : list BookDTO.t) (entry : BookDTO.t),
    answer = JBook entry /\
    Frontend.GET_api_books c = (Ret (JSON StatusOK (JBooks before)), c) /\
    Frontend.GET_api_books c' = (Ret (JSON StatusOK (JBooks (before ++ [entry]))), c').
Proof.
  intros Hc H1. pose proof (book_collection_docs c Hc) as Hb.
  rewrite (POST_on_books book fresh c Hb) in H1.
  destruct (existsb _ c); [discriminate|].
  unfold insert_path in H1. destruct (existsb _ c); [discriminate|].
  injection H1 as <- <-.
  destruct (decode_all_books c Hb) as (rs & E & _).
  assert (Hall : forallb (matches [(EmptyString, VNull)]) c = true)
    by (eapply forallb_impl; [apply book_matches_all | exact Hb]).
  eexists (map view rs), _. split; [reflexivity|]. split.
  - apply GET_decodable; assumption.
  - rewrite (GET_decodable _ (rs ++ [with_ID fresh (bookStore_of book)])).
    + rewrite map_app. reflexivity.
    + rewrite forallb_app, Hall. reflexivity.
    + apply decode_all_snoc; [exact E | reflexivity].
Qed.

Lemma POST_then_GET_witness :
  book_collection sample_books = true /\
  exists (before : list BookDTO.t) (entry : BookDTO.t),
    JBook (BookDTO.mk (Hex (oid_of_N 9)) "Dracula" "Bram Stoker" 418 1897 EmptyString)
      = JBook entry /\
    Frontend.GET_api_books sample_books = (Ret (JSON StatusOK (JBooks before)), sample_books) /\
    Frontend.GET_api_books (sample_books ++ [inserted_doc (oid_of_N 9) (bookStore_of novel_post)])%list
      = (Ret (JSON StatusOK (JBooks (before ++ [entry]))),
         (sample_books ++ [inserted_doc (oid_of_N 9) (bookStore_of novel_post)])%list).
Proof.
  assert (H1 : book_collection sample_books = true) by (vm_compute; reflexivity).
  assert (H2 : PostService.POST_api_books (Some novel_post) (oid_of_N 9) sample_books
    = (Ret (JSON StatusOK (JBook (BookDTO.mk (Hex (oid_of_N 9)) "Dracula" "Bram Stoker"
                                              418 1897 EmptyString))),
       (sample_books ++ [inserted_doc (oid_of_N 9) (bookStore_of novel_post)])%list))
    by (vm_compute; reflexivity).
  split; [exact H1|].
  exact (POST_then_GET novel_post (oid_of_N 9) _ _ _ H1 H2).
Defined.




Lemma decode_all_None (l : list document) (d : document) :
  d ∈ l -> codec.Unmarshal d = None -> codec.decode_all l = None.
Proof.
  intros Hin Hd. induction Hin as [d l | d x l Hin IH]; cbn [codec.decode_all].
  - rewrite Hd. reflexivity.
  - rewrite IH by exact Hd. destruct (codec.Unmarshal x); reflexivity.
Qed.

Lemma decode_elem_wrong_type (b : BookStore) (kv : string * value) :
  wrong_type kv = true -> codec.decode_elem b kv = None.
Proof.
  destruct kv as [k v]. unfold wrong_type. cbn [fst snd].
  destruct v as [|s|n|o]; try discriminate; intros H;
    apply bool_decide_eq_true_1 in H;
    repeat (apply elem_of_cons in H as [->|H]; [reflexivity|]);
    apply elem_of_nil in H; destruct H.
Qed.

Lemma Unmarshal_wrong_type (d : document) :
  existsb wrong_type d = true -> codec.Unmarshal d = None.
Proof.
  unfold codec.Unmarshal. generalize codec.zero.
  induction d as [|kv d IH]; intros b H; cbn [existsb] in H; [discriminate|].
  cbn [codec.decode_from].
  destruct (wrong_type kv) eqn:E.
  - rewrite decode_elem_wrong_type by exact E. reflexivity.
  - cbn [orb] in H. destruct (codec.decode_elem b kv); [apply IH, H | reflexivity].
Qed.

(** X9.  One stored document with a field of the wrong type is enough to
    break every listing: when a document (without a field of empty name, so
    that the filter of the listing selects it) has a number under the key
    [_id], [bookname], [bookauthor] or [bookisbn], or a string under the key
    [bookpages] or [bookyear], [findAllBooks] panics on the decoding error,
    and so do GET /api/books and the pages [/books], [/authors] and
    [/years]; the collection is unchanged. *)
Theorem listing_panics_on_undecodable (c : collection) (d : document) :
  d ∈ c ->
  get EmptyString d = None ->
  existsb wrong_type d = true ->
  Frontend.findAllBooks c = (Panic, c) /\
  Frontend.GET_api_books c = (Panic, c) /\
  Frontend.GET_books c = (Panic, c) /\
  Frontend.GET_authors c = (Panic, c) /\
  Frontend.GET_years c = (Panic, c).
Proof.
  intros Hin Hsel Hd. apply Unmarshal_wrong_type in Hd.
  assert (Hf : Frontend.findAllBooks c = (Panic, c)).
  { unfold Frontend.findAllBooks.
    unfold mbind, Store_bind, Find.
    change (filter_ok [(EmptyString, VNull)]) with true. cbv iota.
    unfold codec.All.
    rewrite (decode_all_None (List.filter (matches [(EmptyString, VNull)]) c) d).
    - reflexivity.
    - apply list_elem_of_In, filter_In. split; [apply list_elem_of_In, Hin|].
      apply absent_field_matches_null. exact Hsel.
    - exact Hd. }
  split; [exact Hf|].
  unfold Frontend.GET_api_books, Frontend.GET_books, Frontend.GET_authors,
    Frontend.GET_years, mbind, Store_bind.
  rewrite Hf. repeat split.
Qed.

Lemma listing_panics_on_undecodable_witness :
  undecodable_doc ∈ (sample_books ++ [undecodable_doc])%list /\
  get EmptyString undecodable_doc = None /\
  existsb wrong_type undecodable_doc = true /\
  Frontend.GET_api_books (sample_books ++ [undecodable_doc])%list
    = (Panic, (sample_books ++ [undecodable_doc])%list).
Proof.
  assert (H1 : undecodable_doc ∈ (sample_books ++ [undecodable_doc])%list)
    by (apply elem_of_app; right; apply list_elem_of_here).
  assert (H2 : get EmptyString undecodable_doc = None) by reflexivity.
  assert (H3 : existsb wrong_type undecodable_doc = true) by (vm_compute; reflexivity).
  split; [exact H1|]. split; [exact H2|]. split; [exact H3|].
  exact (proj1 (proj2 (listing_panics_on_undecodable _ _ H1 H2 H3))).
Defined.

(** X10.  Every identifier GET /api/books lists on a book collection is one
    the parser of the PUT handler accepts, and it parses to the key of a
    stored document. *)
Theorem GET_identifiers_parse (c : collection) (listed : list BookDTO.t) (e : BookDTO.t) :
  book_collection c = true ->
  Frontend.GET_api_books c = (Ret (JSON StatusOK (JBooks listed)), c) ->
  e ∈ listed ->
  exists (d : document) (o : ObjectID),
    d ∈ c /\ get "_id" d = Some (VObjectID o) /\
    ObjectIDFromHex (BookDTO.Id e) = (o, None).
Proof.
  intros Hc Hget Hin.
  destruct (GET_books c (book_collection_docs c Hc)) as (rs & F & E).
  rewrite E in Hget. injection Hget as <-.
  apply list_elem_of_fmap in Hin as (r & -> & Hr).
  apply list_elem_of_lookup in Hr as [i Hi].
  destruct (Forall2_lookup_r _ _ _ _ _ F Hi) as (d & Hd & _ & Hid).
  exists d, (ID r). split; [apply list_elem_of_lookup; eauto|].
  split; [exact Hid|]. cbn [view BookDTO.Id]. apply ObjectIDFromHex_Hex.
Qed.

Lemma GET_identifiers_parse_witness :
  book_collection two_books = true /\
  exists (d : document) (o : ObjectID),
    d ∈ two_books /\ get "_id" d = Some (VObjectID o) /\
    ObjectIDFromHex "0000000000000000000000ab" = (o, None).
Proof.
  assert (H1 : book_collection two_books = true) by (vm_compute; reflexivity).
  split; [exact H1|].
  refine (GET_identifiers_parse two_books _
            (BookDTO.mk "0000000000000000000000ab" "Frankenstein" "Mary Shelley" 280 1818
                        "978-3-649-64609-9") H1 _ _).
  - vm_compute; reflexivity.
  - apply list_elem_of_further, list_elem_of_here.
Defined.

(* ===================================================================== *)
(** ** Further properties: PUT *)
(* ===================================================================== *)

Lemma id_not_taken_no_match (o : ObjectID) (c : collection) :
  id_taken o c = false ->
  forallb (fun d => negb (matches [("_id", VObjectID o)] d)) c = true.
Proof.
  unfold id_taken. induction c as [|d c IH]; cbn [existsb forallb]; [reflexivity|].
  intros H. apply orb_false_iff in H as [Hd Hc].
  rewrite matches_id, Hd, IH by exact Hc. reflexivity.
Qed.

(** X11.  PUT does not report a missing record: for a bound request whose
    identifier is the key of no stored document, the handler answers 200 with
    the submitted payload and leaves the collection unchanged. *)
Theorem PUT_unknown_identifier (u : BookDTO.t) (c : collection) :
  id_taken (ObjectIDFromHex (BookDTO.Id u)).1 c = false ->
  Frontend.PUT_api_books (Some u) c = (Ret (JSON StatusOK (JBook u)), c).
Proof.
  intros H. rewrite PUT_bound, update_first_none; [reflexivity|].
  apply id_not_taken_no_match. exact H.
Qed.

Lemma PUT_unknown_identifier_witness :
  id_taken (ObjectIDFromHex "0000000000000000000000cd").1 two_books = false /\
  Frontend.PUT_api_books
    (Some (BookDTO.mk "0000000000000000000000cd" "Dracula" "Bram Stoker" 418 1897 EmptyString))
    two_books
  = (Ret (JSON StatusOK
            (JBook (BookDTO.mk "0000000000000000000000cd" "Dracula" "Bram Stoker" 418 1897
                               EmptyString))), two_books).
Proof.
  assert (H1 : id_taken (ObjectIDFromHex "0000000000000000000000cd").1 two_books = false)
    by (vm_compute; reflexivity).
  split; [exact H1|].
  exact (PUT_unknown_identifier
           (BookDTO.mk "0000000000000000000000cd" "Dracula" "Bram Stoker" 418 1897 EmptyString)
           two_books H1).
Defined.

Lemma update_first_twice (o : ObjectID) (u : BookDTO.t) (c : collection) :
  forallb is_book_document c = true ->
  update_first (matches [("_id", VObjectID o)]) (apply_update (USet (Frontend.set_fields u)))
    (update_first (matches [("_id", VObjectID o)])
                  (apply_update (USet (Frontend.set_fields u))) c)
  = update_first (matches [("_id", VObjectID o)])
                 (apply_update (USet (Frontend.set_fields u))) c.
Proof.
  induction c as [|d c IH]; cbn [forallb update_first]; [reflexivity|].
  intros H. apply andb_true_iff in H as [Hd Hc].
  destruct (matches [("_id", VObjectID o)] d) eqn:E.
  - rewrite matches_id in E.
    destruct (book_document_inv d Hd) as (o' & b & _ & [-> | [u0 ->]]).
    + rewrite apply_set_inserted. cbn [update_first]. rewrite matches_id.
      change (get "_id" (updated_doc o' b u)) with (get "_id" (inserted_doc o' b)).
      rewrite E, apply_set_updated. reflexivity.
    + rewrite apply_set_updated. cbn [update_first]. rewrite matches_id.
      change (get "_id" (updated_doc o' b u)) with (get "_id" (updated_doc o' b u0)).
      rewrite E, apply_set_updated. reflexivity.
  - cbn [update_first]. rewrite E, IH by exact Hc. reflexivity.
Qed.

(** X12.  PUT is idempotent on a book collection: the same request sent a
    second time is answered 200 again and leaves the collection as the first
    one left it. *)
Theorem PUT_idempotent (u : BookDTO.t) (c : collection) :
  book_collection c = true ->
  Frontend.PUT_api_books (Some u) (Frontend.PUT_api_books (Some u) c).2
  = (Ret (JSON StatusOK (JBook u)), (Frontend.PUT_api_books (Some u) c).2).
Proof.
  intros Hc. rewrite !PUT_bound. cbn [snd].
  rewrite update_first_twice by (apply book_collection_docs, Hc). reflexivity.
Qed.

Lemma PUT_idempotent_witness :
  book_collection sample_books = true /\
  Frontend.PUT_api_books (Some sample_update)
                         (Frontend.PUT_api_books (Some sample_update) sample_books).2
  = (Ret (JSON StatusOK (JBook sample_update)),
     (Frontend.PUT_api_books (Some sample_update) sample_books).2).
Proof.
  assert (H1 : book_collection sample_books = true) by (vm_compute; reflexivity).
  split; [exact H1|]. exact (PUT_idempotent sample_update sample_books H1).
Defined.

Lemma objToComapare_key_cases (book : PostBookDTO.t) (k : string) (v : value) :
  PostService.objToComapare book !! k = Some v ->
  k = "bookisbn" \/ k = "bookyear" \/ k = "bookpages" \/ k = "bookauthor" \/ k = "bookname".
Proof.
  rewrite objToComapare_lookup.
  repeat (destruct (decide _) as [<-|?]; [tauto|]).
  discriminate.
Qed.

(** The [$set] of PUT leaves the lower-case fields as they are, so a
    condition on one of them holds after the update when it held before. *)
Lemma match_elem_after_set (u : BookDTO.t) (d : document) (k : string) (v : value) :
  is_book_document d = true ->
  k = "bookisbn" \/ k = "bookyear" \/ k = "bookpages" \/ k = "bookauthor" \/ k = "bookname" ->
  match_elem (apply_update (USet (Frontend.set_fields u)) d) (k, v) = match_elem d (k, v).
Proof.
  intros Hd Hk.
  destruct (book_document_inv d Hd) as (o & b & _ & [-> | [u0 ->]]);
    destruct Hk as [-> | [-> | [-> | [-> | ->]]]]; reflexivity.
Qed.

Lemma existence_check_after_set (book : PostBookDTO.t) (u : BookDTO.t) (d : document) :
  is_book_document d = true ->
  matches (marshalM (PostService.objToComapare book))
          (apply_update (USet (Frontend.set_fields u)) d)
  = matches (marshalM (PostService.objToComapare book)) d.
Proof.
  intros Hd. apply eq_true_iff_eq. rewrite !matches_marshalM.
  split; intros H k v Hkv;
    pose proof (match_elem_after_set u d k v Hd (objToComapare_key_cases book k v Hkv)) as E;
    specialize (H k v Hkv); congruence.
Qed.

Lemma existsb_update_first (q p : document -> bool) (f : document -> document)
      (c : collection) :
  (forall d, d ∈ c -> q (f d) = q d) ->
  existsb q (update_first p f c) = existsb q c.
Proof.
  induction c as [|d c IH]; intros H; cbn [update_first existsb]; [reflexivity|].
  destruct (p d); cbn [existsb].
  - rewrite (H d) by apply list_elem_of_here. reflexivity.
  - rewrite IH; [reflexivity|]. intros x Hx. apply H, list_elem_of_further, Hx.
Qed.

Lemma id_of_set (u : BookDTO.t) (d : document) :
  is_book_document d = true ->
  get "_id" (apply_update (USet (Frontend.set_fields u)) d) = get "_id" d.
Proof.
  intros Hd. destruct (book_document_inv d Hd) as (o & b & _ & [-> | [u0 ->]]); reflexivity.
Qed.

(** X13.  A PUT is invisible to the existence check of POST: on a book
    collection, whatever a PUT wrote before, POST gives a payload the answer
    it would have given without the PUT, and inserts the same document or
    none.  (The filter of POST reads the lower-case fields, the [$set] of PUT
    writes the capitalised ones.) *)
Theorem PUT_invisible_to_POST (u : BookDTO.t) (book : PostBookDTO.t) (fresh : ObjectID)
        (c : collection) :
  book_collection c = true ->
  exists added : list document,
    (PostService.POST_api_books (Some book) fresh c).2 = (c ++ added)%list /\
    PostService.POST_api_books (Some book) fresh (Frontend.PUT_api_books (Some u) c).2
    = ((PostService.POST_api_books (Some book) fresh c).1,
       ((Frontend.PUT_api_books (Some u) c).2 ++ added)%list).
Proof.
  intros Hc. pose proof (book_collection_docs c Hc) as Hb.
  pose proof (PUT_keeps_book_collection u c Hc) as Hc'.
  rewrite (POST_on_books book fresh _ (book_collection_docs _ Hc')).
  rewrite (POST_on_books book fresh c Hb).
  rewrite PUT_bound. cbn [snd].
  rewrite existsb_update_first
    by (intros d Hd; apply existence_check_after_set, (forallb_elem_of _ c d Hb Hd)).
  destruct (existsb _ c).
  - exists []. rewrite !app_nil_r. split; reflexivity.
  - unfold insert_path.
    rewrite existsb_update_first.
    + destruct (existsb _ c).
      * exists []. rewrite !app_nil_r. split; reflexivity.
      * eexists [_]. split; reflexivity.
    + intros d Hd. cbn beta. rewrite id_of_set; [reflexivity|].
      apply (forallb_elem_of _ c d Hb Hd).
Qed.

Lemma PUT_invisible_to_POST_witness :
  book_collection sample_books = true /\
  exists added : list document,
    (PostService.POST_api_books
       (Some (PostBookDTO.mk "The Modern Prometheus" EmptyString 0 0 EmptyString))
       (oid_of_N 9) sample_books).2 = (sample_books ++ added)%list /\
    PostService.POST_api_books
      (Some (PostBookDTO.mk "The Modern Prometheus" EmptyString 0 0 EmptyString))
      (oid_of_N 9) (Frontend.PUT_api_books (Some sample_update) sample_books).2
    = ((PostService.POST_api_books
          (Some (PostBookDTO.mk "The Modern Prometheus" EmptyString 0 0 EmptyString))
          (oid_of_N 9) sample_books).1,
       ((Frontend.PUT_api_books (Some sample_update) sample_books).2 ++ added)%list).
Proof.
  assert (H1 : book_collection sample_books = true) by (vm_compute; reflexivity).
  split; [exact H1|].
  exact (PUT_invisible_to_POST sample_update _ (oid_of_N 9) sample_books H1).
Defined.

Lemma update_first_app_none (p : document -> bool) (f : document -> document)
      (c l : collection) :
  forallb (fun d => negb (p d)) c = true ->
  update_first p f (c ++ l)%list = (c ++ update_first p f l)%list.
Proof.
  induction c as [|d c IH]; cbn [forallb app update_first]; [reflexivity|].
  intros H. apply andb_true_iff in H as [Hd Hc]. apply negb_true_iff in Hd.
  rewrite Hd, IH by exact Hc. reflexivity.
Qed.

(** X14.  The identifier POST answers with addresses the record it
    created: after a POST that answered 200 on a book collection, a PUT
    carrying the returned identifier is answered 200, and the next GET lists
    the entries of before the POST followed by one entry with that
    identifier and the fields of the PUT. *)
Theorem POST_then_PUT_then_GET (book : PostBookDTO.t) (fresh : ObjectID) (u : BookDTO.t)
        (c c1 : collection) (entry : BookDTO.t) :
  book_collection c = true ->
  PostService.POST_api_books (Some book) fresh c = (Ret (JSON StatusOK (JBook entry)), c1) ->
  BookDTO.Id u = BookDTO.Id entry ->
  exists (before : list BookDTO.t) (c2 : collection),
    Frontend.GET_api_books c = (Ret (JSON StatusOK (JBooks before)), c) /\
    Frontend.PUT_api_books (Some u) c1 = (Ret (JSON StatusOK (JBook u)), c2) /\
    Frontend.GET_api_books c2
    = (Ret (JSON StatusOK
              (JBooks (before ++ [BookDTO.mk (BookDTO.Id entry) (BookDTO.Name u)
                                             (BookDTO.Author u) (BookDTO.Pages u)
                                             (BookDTO.Year u) (BookDTO.Isbn u)]))), c2).
Proof.
  intros Hc H1 Hid. pose proof (book_collection_docs c Hc) as Hb.
  rewrite (POST_on_books book fresh c Hb) in H1.
  destruct (existsb _ c); [discriminate|].
  unfold insert_path in H1. fold (id_taken fresh c) in H1.
  destruct (id_taken fresh c) eqn:Ht; [discriminate|].
  injection H1 as <- <-. cbn [BookDTO.Id] in *.
  destruct (decode_all_books c Hb) as (rs & E & _).
  assert (Hall : forallb (matches [(EmptyString, VNull)]) c = true)
    by (eapply forallb_impl; [apply book_matches_all | exact Hb]).
  exists (map view rs). eexists. split; [apply GET_decodable; assumption|].
  rewrite PUT_bound, Hid, ObjectIDFromHex_Hex. cbn [fst].
  rewrite (update_first_app_none _ _ c _ (id_not_taken_no_match fresh c Ht)).
  cbn [update_first]. rewrite matches_id.
  change (get "_id" (inserted_doc fresh (bookStore_of book))) with (Some (VObjectID fresh)).
  rewrite bool_decide_eq_true_2 by reflexivity. rewrite apply_set_inserted.
  split; [reflexivity|].
  rewrite (GET_decodable _ (rs ++ [put_record fresh u])).
  - rewrite map_app. reflexivity.
  - rewrite forallb_app, Hall. reflexivity.
  - apply decode_all_snoc; [exact E | reflexivity].
Qed.

Lemma POST_then_PUT_then_GET_witness :
  book_collection sample_books = true /\
  exists (before : list BookDTO.t) (c2 : collection),
    Frontend.GET_api_books sample_books = (Ret (JSON StatusOK (JBooks before)), sample_books) /\
    Frontend.PUT_api_books
      (Some (BookDTO.mk "000000000000000000000009" "Dracula" "A. Stoker" 400 1897 EmptyString))
      (sample_books ++ [inserted_doc (oid_of_N 9) (bookStore_of novel_post)])%list
    = (Ret (JSON StatusOK
              (JBook (BookDTO.mk "000000000000000000000009" "Dracula" "A. Stoker" 400 1897
                                 EmptyString))), c2) /\
    Frontend.GET_api_books c2
    = (Ret (JSON StatusOK
              (JBooks (before ++ [BookDTO.mk (Hex (oid_of_N 9)) "Dracula" "A. Stoker" 400 1897
                                             EmptyString]))), c2).
Proof.
  assert (H1 : book_collection sample_books = true) by (vm_compute; reflexivity).
  assert (H2 : PostService.POST_api_books (Some novel_post) (oid_of_N 9) sample_books
    = (Ret (JSON StatusOK (JBook (BookDTO.mk (Hex (oid_of_N 9)) "Dracula" "Bram Stoker"
                                              418 1897 EmptyString))),
       (sample_books ++ [inserted_doc (oid_of_N 9) (bookStore_of novel_post)])%list))
    by (vm_compute; reflexivity).
  split; [exact H1|].
  refine (POST_then_PUT_then_GET novel_post (oid_of_N 9)
            (BookDTO.mk "000000000000000000000009" "Dracula" "A. Stoker" 400 1897 EmptyString)
            sample_books _ _ H1 H2 _).
  vm_compute; reflexivity.
Defined.

(* ===================================================================== *)
(** ** Further properties: DELETE *)
(* ===================================================================== *)


Lemma book_collection_tail (d : document) (rest : collection) :
  book_collection (d :: rest) = true -> book_collection rest = true.
Proof. exact (book_collection_remove [] rest d). Qed.

(** One DELETE on a book collection with an identifier that names no field
    and is accepted as a filter key drops the first document. *)
Lemma DELETE_drops_head (id : string) (c : collection) :
  book_collection c = true ->
  key_ok id = true ->
  forallb (fun d => bool_decide (get id d = None)) c = true ->
  (DeleteService.DELETE_api_books id c).2 = tail c.
Proof.
  intros Hc Hop Habs. unfold DeleteService.DELETE_api_books. rewrite DELETE_cases.
  rewrite delete_first_absent.
  - rewrite Hop. destruct c as [|d rest]; [reflexivity|].
    cbn [forallb] in Habs. apply andb_true_iff in Habs as [Hd _].
    apply bool_decide_eq_true in Hd.
    cbn [delete_first]. rewrite (absent_field_matches_null id d Hd). reflexivity.
  - eapply forallb_impl; [|apply (book_collection_docs c Hc)].
    intros e He. cbn beta. rewrite book_has_no_id_field by exact He. reflexivity.
Qed.

(** X16.  DELETE requests empty a book collection from the front: a run of
    requests whose identifiers name no field of a stored document and are
    accepted as filter keys (no NUL byte, no leading [$]) removes as many
    documents as there are requests, the first ones in storage order,
    whatever the identifiers are. *)
Theorem DELETE_requests_drop_the_front (ids : list string) (c : collection) :
  book_collection c = true ->
  forallb (fun id => key_ok id
                     && forallb (fun d => bool_decide (get id d = None)) c) ids = true ->
  delete_each ids c = drop (length ids) c.
Proof.
  unfold delete_each. revert c. induction ids as [|id ids IH]; intros c Hc Hids.
  - reflexivity.
  - cbn [forallb] in Hids. apply andb_true_iff in Hids as [Hid Hids].
    apply andb_true_iff in Hid as [Hop Habs].
    cbn [fold_left length]. rewrite (DELETE_drops_head id c Hc Hop Habs).
    destruct c as [|d rest].
    + cbn [tail]. rewrite IH by assumption. rewrite !drop_nil. reflexivity.
    + cbn [tail drop]. apply IH; [exact (book_collection_tail d rest Hc)|].
      eapply forallb_impl; [|exact Hids]. intros x Hx. cbn beta in *.
      apply andb_true_iff in Hx as [Hx1 Hx2]. rewrite Hx1. cbn [andb].
      cbn [forallb] in Hx2. apply andb_true_iff in Hx2. tauto.
Qed.

Lemma DELETE_requests_drop_the_front_witness :
  book_collection sample_books = true /\
  forallb (fun id => key_ok id
                     && forallb (fun d => bool_decide (get id d = None)) sample_books)
          sample_ids = true /\
  delete_each sample_ids sample_books = drop (length sample_ids) sample_books.
Proof.
  assert (H1 : book_collection sample_books = true) by (vm_compute; reflexivity).
  assert (H2 : forallb (fun id => key_ok id
                     && forallb (fun d => bool_decide (get id d = None)) sample_books)
                 sample_ids = true) by (vm_compute; reflexivity).
  split; [exact H1|]. split; [exact H2|].
  exact (DELETE_requests_drop_the_front sample_ids sample_books H1 H2).
Defined.

(** X17.  What a DELETE removed is missing from the next GET and nothing
    else changes: on a book collection, the GET after a DELETE that did not
    panic lists the entries of the GET before it, in the same order, without
    at most one of them. *)
Theorem DELETE_then_GET (id : string) (c c' : collection) (r : response) :
  book_collection c = true ->
  DeleteService.DELETE_api_books id c = (Ret r, c') ->
  exists (l1 gone l2 : list BookDTO.t),
    (length gone <= 1)%nat /\
    Frontend.GET_api_books c = (Ret (JSON StatusOK (JBooks (l1 ++ gone ++ l2))), c) /\
    Frontend.GET_api_books c' = (Ret (JSON StatusOK (JBooks (l1 ++ l2))), c').
Proof.
  intros Hc Hdel. pose proof (book_collection_docs c Hc) as Hb.
  pose proof (DELETE_keeps_book_collection id c Hc) as Hc'.
  rewrite Hdel in Hc'. cbn [snd] in Hc'. pose proof (book_collection_docs c' Hc') as Hb'.
  rewrite (GET_entries c Hb), (GET_entries c' Hb').
  unfold DeleteService.DELETE_api_books in Hdel. rewrite DELETE_cases in Hdel.
  assert (Hsame : c' = c ->
          exists l1 gone l2 : list BookDTO.t,
            (length gone <= 1)%nat /\
            (Ret (JSON StatusOK (JBooks (omap entry_of c))), c)
              = (Ret (JSON StatusOK (JBooks (l1 ++ gone ++ l2))), c) /\
            (Ret (JSON StatusOK (JBooks (omap entry_of c'))), c')
              = (Ret (JSON StatusOK (JBooks (l1 ++ l2))), c')).
  { intros ->. exists (omap entry_of c), [], []. cbn [app length].
    rewrite app_nil_r. repeat split. lia. }
  assert (Hcut : forall l1 d l2, c = (l1 ++ d :: l2)%list -> c' = (l1 ++ l2)%list ->
          exists l1 gone l2 : list BookDTO.t,
            (length gone <= 1)%nat /\
            (Ret (JSON StatusOK (JBooks (omap entry_of c))), c)
              = (Ret (JSON StatusOK (JBooks (l1 ++ gone ++ l2))), c) /\
            (Ret (JSON StatusOK (JBooks (omap entry_of c'))), c')
              = (Ret (JSON StatusOK (JBooks (l1 ++ l2))), c')).
  { intros l1 d l2 -> ->.
    exists (omap entry_of l1), (omap entry_of [d]), (omap entry_of l2).
    split; [|split].
    - cbn. destruct (entry_of d); cbn; lia.
    - rewrite <- !omap_app. reflexivity.
    - rewrite <- omap_app. reflexivity. }
  destruct (delete_first (matches [("id", VString id)]) c) as [c1|] eqn:E1.
  - injection Hdel as _ <-.
    apply delete_first_Some in E1 as (l1 & d & l2 & E & E' & _). eauto.
  - destruct (key_ok id); [|discriminate].
    destruct (delete_first (matches [(id, VNull)]) c) as [c2|] eqn:E2.
    + injection Hdel as _ <-.
      apply delete_first_Some in E2 as (l1 & d & l2 & E & E' & _). eauto.
    + injection Hdel as _ <-. auto.
Qed.

Lemma DELETE_then_GET_witness :
  book_collection two_books = true /\
  exists (l1 gone l2 : list BookDTO.t),
    (length gone <= 1)%nat /\
    Frontend.GET_api_books two_books
      = (Ret (JSON StatusOK (JBooks (l1 ++ gone ++ l2))), two_books) /\
    Frontend.GET_api_books [inserted_doc (oid_of_N 171) Frankenstein]
      = (Ret (JSON StatusOK (JBooks (l1 ++ l2))), [inserted_doc (oid_of_N 171) Frankenstein]).
Proof.
  assert (H1 : book_collection two_books = true) by (vm_compute; reflexivity).
  assert (H2 : DeleteService.DELETE_api_books "0000000000000000000000ab" two_books
               = (Ret deleted_ok, [inserted_doc (oid_of_N 171) Frankenstein]))
    by (vm_compute; reflexivity).
  split; [exact H1|].
  exact (DELETE_then_GET _ _ _ _ H1 H2).
Defined.

(* ===================================================================== *)
(** ** Further properties: start-up *)
(* ===================================================================== *)

(** X18.  [prepareDatabase] makes the collection exist and touches nothing
    else: afterwards the database lists the collection, with the documents it
    had (none when it was created), every other collection is as it was, and
    a second call changes nothing. *)
Theorem prepareDatabase_ensures (db : database) (name : string) :
  name ∈ dom (prepareDatabase db name) /\
  prepareDatabase db name !! name = Some (default [] (db !! name)) /\
  (forall other : string, other <> name -> prepareDatabase db name !! other = db !! other) /\
  prepareDatabase (prepareDatabase db name) name = prepareDatabase db name.
Proof.
  destruct (decide (name ∈ dom db)) as [H|H].
  - assert (E : prepareDatabase db name = db)
      by (unfold prepareDatabase; rewrite bool_decide_eq_true_2 by exact H; reflexivity).
    rewrite !E. pose proof H as H'. apply elem_of_dom in H' as [c Hc].
    split; [exact H|]. split; [rewrite Hc; reflexivity|]. split; reflexivity.
  - assert (E : prepareDatabase db name = <[name:=[]]> db)
      by (unfold prepareDatabase; rewrite (bool_decide_eq_false_2 _ H); reflexivity).
    rewrite !E. pose proof H as H'. apply not_elem_of_dom in H'.
    assert (Hin : name ∈ dom (<[name:=[]]> db)).
    { apply elem_of_dom. rewrite lookup_insert_eq. eauto. }
    split; [exact Hin|]. split; [rewrite lookup_insert_eq, H'; reflexivity|].
    split; [intros other Ho; apply lookup_insert_ne; congruence|].
    unfold prepareDatabase. rewrite bool_decide_eq_true_2 by exact Hin. reflexivity.
Qed.

Lemma loop_appends (l : list BookStore) (fresh : nat -> ObjectID) :
  forall (i : nat) (c : collection),
    zero_ids l = true ->
    exists added : list document,
      (prepareData_loop l fresh i c).2 = (c ++ added)%list /\
      (length added <= length l)%nat /\
      Forall (fun d => exists j b, b ∈ l /\ d = inserted_doc (fresh j) b) added.
Proof.
  induction l as [|b rest IH]; intros i c Hz.
  - exists []. cbn. rewrite app_nil_r. repeat split; [lia | constructor].
  - unfold zero_ids in Hz. cbn [forallb] in Hz. apply andb_true_iff in Hz as [Hzb Hz].
    rewrite (loop_cons b rest fresh i c Hzb).
    assert (Hstop : exists added : list document,
               c = (c ++ added)%list /\ (length added <= length (b :: rest))%nat /\
               Forall (fun d => exists j b0, b0 ∈ b :: rest /\ d = inserted_doc (fresh j) b0)
                      added).
    { exists []. rewrite app_nil_r. repeat split; [cbn; lia | constructor]. }
    destruct (codec.decode_all (hits b c)) as [rs|]; [|exact Hstop].
    destruct (1 <? length rs)%nat; [exact Hstop|].
    destruct (length rs =? 0)%nat.
    + destruct (id_taken (fresh i) c); [exact Hstop|].
      destruct (IH (S i) (c ++ [inserted_doc (fresh i) b])%list Hz) as (added & E & Hlen & Hall).
      exists (inserted_doc (fresh i) b :: added). rewrite E, <- app_assoc.
      split; [reflexivity|]. split; [cbn; lia|].
      constructor.
      * exists i, b. split; [apply list_elem_of_here | reflexivity].
      * eapply Forall_impl; [exact Hall|]. intros d (j & b0 & Hb0 & ->).
        exists j, b0. split; [apply list_elem_of_further, Hb0 | reflexivity].
    + destruct (IH (S i) c Hz) as (added & E & Hlen & Hall).
      exists added. split; [exact E|]. split; [cbn; lia|].
      eapply Forall_impl; [exact Hall|]. intros d (j & b0 & Hb0 & ->).
      exists j, b0. split; [apply list_elem_of_further, Hb0 | reflexivity].
Qed.

(** X19.  However a start-up ends (completed, panic or [log.Fatal]), it
    removes and rewrites nothing: the books collection afterwards is the
    collection of before followed by at most three documents, each the
    document of one of the service's seed records, and the other collections
    of the database are untouched. *)
Theorem startup_only_appends_seeds (s : service) (fresh : nat -> ObjectID) (db : database) :
  (exists added : list document,
      books_of (startup s fresh db).2 = (books_of db ++ added)%list /\
      (length added <= 3)%nat /\
      Forall (fun d => exists j b, b ∈ startData_of s /\ d = inserted_doc (fresh j) b) added) /\
  (forall other : string, other <> collecName -> (startup s fresh db).2 !! other = db !! other).
Proof.
  rewrite startup_unfold. cbn [snd]. split.
  - rewrite books_of_insert.
    destruct (loop_appends (startData_of s) fresh 0 (books_of db) (startData_zero_ids s))
      as (added & E & Hlen & Hall).
    exists added. split; [exact E|]. split; [|exact Hall].
    destruct s; exact Hlen.
  - intros other Ho. rewrite lookup_insert_ne by congruence.
    apply (prepareDatabase_ensures db collecName). exact Ho.
Qed.

Lemma decode_all_filter (p : document -> bool) (c : collection) (rs : list BookStore) :
  codec.decode_all c = Some rs ->
  exists rs', codec.decode_all (List.filter p c) = Some rs'.
Proof.
  revert rs. induction c as [|d c IH]; intros rs; cbn [codec.decode_all List.filter].
  - eauto.
  - destruct (codec.Unmarshal d) as [r|] eqn:Er; [|discriminate].
    destruct (codec.decode_all c) as [rs0|]; [|discriminate].
    intros _. destruct (IH rs0 eq_refl) as [rs' E'].
    destruct (p d); [|eauto]. cbn [codec.decode_all]. rewrite Er, E'. eauto.
Qed.

Lemma hits_app_length (b : BookStore) (c : collection) (d : document) :
  (length (hits b c) <= length (hits b (c ++ [d])%list))%nat.
Proof. unfold hits. rewrite List.filter_app, length_app. lia. Qed.

Lemma loop_exits (l : list BookStore) (fresh : nat -> ObjectID) (b : BookStore) :
  forall (i : nat) (c : collection) (rs : list BookStore),
    zero_ids l = true ->
    b ∈ l ->
    codec.decode_all c = Some rs ->
    (2 <= length (hits b c))%nat ->
    Forall (fun j => id_taken (fresh j) c = false) (seq i (length l)) ->
    NoDup (map fresh (seq i (length l))) ->
    (prepareData_loop l fresh i c).1 = Exit.
Proof.
  induction l as [|a rest IH]; intros i c rs Hz Hin Hdec Htwo Ht Hnd.
  - inversion Hin.
  - unfold zero_ids in Hz. cbn [forallb] in Hz. apply andb_true_iff in Hz as [Hza Hz].
    cbn [length seq map] in Ht, Hnd.
    inversion Ht as [|? ? Hta Htrest]; subst.
    apply NoDup_cons in Hnd as [Hnotin Hnd].
    rewrite (loop_cons a rest fresh i c Hza).
    destruct (decode_all_filter (matches (book_fields a)) c rs Hdec) as [ra Ea].
    fold (hits a c) in Ea. rewrite Ea.
    pose proof (decode_all_length _ _ Ea) as Hlen.
    destruct (1 <? length ra)%nat eqn:Hbig; [reflexivity|].
    apply Nat.ltb_ge in Hbig.
    assert (Hrest : b ∈ rest).
    { apply elem_of_cons in Hin as [->|Hin]; [lia | exact Hin]. }
    destruct (length ra =? 0)%nat.
    + rewrite Hta.
      apply (IH (S i) _ (rs ++ [with_ID (fresh i) a])%list Hz Hrest).
      * apply decode_all_snoc; [exact Hdec | reflexivity].
      * pose proof (hits_app_length b c (inserted_doc (fresh i) a)). lia.
      * apply Forall_forall. intros j Hj. apply id_taken_app.
        -- rewrite Forall_forall in Htrest. exact (Htrest j Hj).
        -- intros E. apply Hnotin. rewrite E. apply list_elem_of_fmap. eauto.
      * exact Hnd.
    + exact (IH (S i) c rs Hz Hrest Hdec Htwo Htrest Hnd).
Qed.

(** X20.  A seed record stored twice stops the service: when the books
    collection is a book collection in which some seed record of the service
    selects two or more documents, and the identifiers the driver would draw
    are new and pairwise different, the start-up ends in [log.Fatal]. *)
Theorem startup_exits_on_duplicate_seed (s : service) (fresh : nat -> ObjectID)
        (db : database) (b : BookStore) :
  book_collection (books_of db) = true ->
  b ∈ startData_of s ->
  (2 <= length (hits b (books_of db)))%nat ->
  forallb (fun j => negb (id_taken (fresh j) (books_of db))) [0; 1; 2]%nat = true ->
  NoDup [fresh 0%nat; fresh 1%nat; fresh 2%nat] ->
  (startup s fresh db).1 = Exit.
Proof.
  intros Hc Hin Htwo Hids Hnd. rewrite startup_unfold. cbn [fst].
  destruct (decode_all_books _ (book_collection_docs _ Hc)) as (rs & E & _).
  apply (loop_exits (startData_of s) fresh b 0 (books_of db) rs
                    (startData_zero_ids s) Hin E Htwo).
  - replace (seq 0 (length (startData_of s))) with [0; 1; 2]%nat by (destruct s; reflexivity).
    apply Forall_forall. intros j Hj.
    pose proof (forallb_elem_of _ _ j Hids Hj) as H. cbn beta in H.
    apply negb_true_iff in H. exact H.
  - destruct s; exact Hnd.
Qed.

Lemma startup_exits_on_duplicate_seed_witness :
  book_collection (books_of (db_of [inserted_doc (oid_of_N 100) The_Vortex;
                                    inserted_doc (oid_of_N 101) The_Vortex])) = true /\
  (startup FrontendSvc (fresh_from 1)
           (db_of [inserted_doc (oid_of_N 100) The_Vortex;
                   inserted_doc (oid_of_N 101) The_Vortex])).1 = Exit.
Proof.
  assert (H1 : book_collection (books_of (db_of [inserted_doc (oid_of_N 100) The_Vortex;
                                    inserted_doc (oid_of_N 101) The_Vortex])) = true)
    by (vm_compute; reflexivity).
  split; [exact H1|].
  apply (startup_exits_on_duplicate_seed FrontendSvc (fresh_from 1) _ The_Vortex H1).
  - apply list_elem_of_here.
  - vm_compute. lia.
  - vm_compute; reflexivity.
  - apply (bool_decide_eq_true_1 _). vm_compute. reflexivity.
Defined.

(** X21.  A start-up that completed has settled the seed records, from
    whatever state it started: every seed record of the service then selects
    exactly one stored document, the run appended one document for each seed
    record that selected nothing before and no other, and a further start-up
    of that service completes and changes nothing. *)
Theorem startup_settles (s : service) (fresh fresh' : nat -> ObjectID) (db db1 : database) :
  startup s fresh db = (Ret tt, db1) ->
  (forall b, b ∈ startData_of s -> exists d, hits b (books_of db1) = [d]) /\
  books_of db1 = (books_of db ++ missing_seeds (startData_of s) fresh 0 (books_of db))%list /\
  startup s fresh' db1 = (Ret tt, db1).
Proof.
  intros H. split; [|split].
  - apply startup_inv in H as [Hrun _].
    apply (loop_settles _ _ _ _ _ (startData_apart s) (startData_zero_ids s)) in Hrun.
    intros b Hb. rewrite Forall_forall in Hrun. destruct (Hrun b Hb) as [r Hr].
    pose proof (decode_all_length _ _ Hr) as Hlen.
    destruct (hits b (books_of db1)) as [|d [|d' ds]]; try discriminate. eauto.
  - exact (startup_adds_missing s fresh db db1 H).
  - exact (startup_idempotent s s fresh fresh' db db1 H eq_refl).
Qed.

Lemma startup_settles_witness :
  startup DeleteSvc (fresh_from 1) (db_of [Dracula_doc; inserted_doc (oid_of_N 171) Frankenstein])
  = (Ret tt, <[ collecName := [Dracula_doc; inserted_doc (oid_of_N 171) Frankenstein;
                               inserted_doc (oid_of_N 1) The_Vortex;
                               inserted_doc (oid_of_N 3) The_Black_Cat] ]>
               (prepareDatabase (db_of [Dracula_doc; inserted_doc (oid_of_N 171) Frankenstein])
                                collecName)) /\
  startup DeleteSvc (fresh_from 11)
          (<[ collecName := [Dracula_doc; inserted_doc (oid_of_N 171) Frankenstein;
                             inserted_doc (oid_of_N 1) The_Vortex;
                             inserted_doc (oid_of_N 3) The_Black_Cat] ]>
             (prepareDatabase (db_of [Dracula_doc; inserted_doc (oid_of_N 171) Frankenstein])
                              collecName))
  = (Ret tt, <[ collecName := [Dracula_doc; inserted_doc (oid_of_N 171) Frankenstein;
                               inserted_doc (oid_of_N 1) The_Vortex;
                               inserted_doc (oid_of_N 3) The_Black_Cat] ]>
               (prepareDatabase (db_of [Dracula_doc; inserted_doc (oid_of_N 171) Frankenstein])
                                collecName)).
Proof.
  assert (Hl : prepareData_loop (startData_of DeleteSvc) (fresh_from 1) 0
                 [Dracula_doc; inserted_doc (oid_of_N 171) Frankenstein]
               = (Ret tt, [Dracula_doc; inserted_doc (oid_of_N 171) Frankenstein;
                           inserted_doc (oid_of_N 1) The_Vortex;
                           inserted_doc (oid_of_N 3) The_Black_Cat]))
    by (vm_compute; reflexivity).
  pose proof (startup_run DeleteSvc (fresh_from 1) _ _ _ _ (books_of_db_of _) Hl) as H1.
  split; [exact H1|].
  exact (proj2 (proj2 (startup_settles DeleteSvc (fresh_from 1) (fresh_from 11) _ _ H1))).
Defined.

(** X22.  After the first start-up of a service on an empty collection,
    GET /api/books lists that service's three seed books, in the order of
    [startData], each with the display string of the identifier drawn for
    it. *)
Theorem startup_then_GET (s : service) (fresh : nat -> ObjectID) (db : database) :
  books_of db = [] ->
  NoDup [fresh 0%nat; fresh 1%nat; fresh 2%nat] ->
  exists db1,
    startup s fresh db = (Ret tt, db1) /\
    Frontend.GET_api_books (books_of db1)
    = (Ret (JSON StatusOK
              (JBooks (imap (fun i b => BookDTO.mk (Hex (fresh i)) (BookName b) (BookAuthor b)
                                                   (BookPages b) (BookYear b) (BookISBN b))
                            (startData_of s)))),
       books_of db1).
Proof.
  intros He Hnd. destruct (startup_from_empty s fresh db He Hnd) as (db1 & H1 & Hb).
  exists db1. split; [exact H1|]. rewrite Hb.
  rewrite (GET_decodable (seed_docs s fresh)
             (imap (fun i b => with_ID (fresh i) b) (startData_of s))).
  - destruct s; reflexivity.
  - destruct s; reflexivity.
  - destruct s; reflexivity.
Qed.

Lemma startup_then_GET_witness :
  books_of ∅ = [] /\
  NoDup [fresh_from 1 0%nat; fresh_from 1 1%nat; fresh_from 1 2%nat] /\
  exists db1,
    startup FrontendSvc (fresh_from 1) ∅ = (Ret tt, db1) /\
    Frontend.GET_api_books (books_of db1)
    = (Ret (JSON StatusOK
              (JBooks (imap (fun i b => BookDTO.mk (Hex (fresh_from 1 i)) (BookName b)
                                                   (BookAuthor b) (BookPages b) (BookYear b)
                                                   (BookISBN b))
                            (startData_of FrontendSvc)))),
       books_of db1).
Proof.
  assert (H2 : NoDup [fresh_from 1 0%nat; fresh_from 1 1%nat; fresh_from 1 2%nat]).
  { apply (bool_decide_eq_true_1 _). vm_compute. reflexivity. }
  split; [exact books_of_empty|]. split; [exact H2|].
  exact (startup_then_GET FrontendSvc (fresh_from 1) ∅ books_of_empty H2).
Defined.
